(** * Symbolic assembly of the Doyle-Fuller-Newman model

    A shallow embedding of

    - [pybamm/models/submodels/electrolyte_current.py]
      ([ElectrolyteCurrentBaseModel], [MacInnesStefanMaxwell]) and
    - [pybamm/models/lithium_ion/dfn.py] ([DFN]),

    together with the parts of the expression library and of the merge
    protocol they rely on.  Python objects are immutable trees (expressions)
    or records of dictionaries (models); methods that assign to [self] are
    state transformers in a state-and-exception monad; the body of
    [DFN.__init__] is the list of its statements, each a state
    transformer over the object under construction and its local names,
    with the creations, population calls and merges of submodels as
    statement forms of their own. *)

From Stdlib Require Import ZArith Lia.
From stdpp Require Import gmap strings list fin_maps.

Set Warnings "-register-all".
Local Open Scope Z_scope.
Local Open Scope string_scope.

(* ===================================================================== *)
(** * 1. Python runtime: exceptions and the state-and-exception monad     *)
(* ===================================================================== *)

Module Py.

(** The exceptions the modelled code can raise.  [TypeError] carries the
    interpreter's message, [KeyError] the missing key, [NameError] the
    unbound local name. *)
Inductive Exception : Type :=
| TypeError (msg : string)
| KeyError (key : string)
| ValueError (msg : string)
| IndexError (msg : string)
| NameError (name : string)
| DomainError (msg : string)
| ModelError (msg : string).

Inductive result (A : Type) : Type :=
| Ok (a : A)
| Raise (e : Exception).
Arguments Ok {A} a.
Arguments Raise {A} e.

(** A computation over a mutable object of type [S]: the object after the
    computation, and either its value or the exception it raised.
    Assignments made before a [raise] stay in the object. *)
Definition M (S A : Type) : Type := S -> S * result A.

Definition ret {S A} (a : A) : M S A := fun s => (s, Ok a).

Definition bind {S A B} (m : M S A) (k : A -> M S B) : M S B :=
  fun s =>
    match m s with
    | (s', Ok a) => k a s'
    | (s', Raise e) => (s', Raise e)
    end.

Definition raise {S A} (e : Exception) : M S A := fun s => (s, Raise e).

Definition gets {S A} (f : S -> A) : M S A := fun s => (s, Ok (f s)).

Definition modify {S} (f : S -> S) : M S unit := fun s => (f s, Ok tt).

Definition lift {S A} (r : result A) : M S A := fun s => (s, r).

(** Sequencing of fallible values: the first exception is the result. *)
Definition and_then {A B} (r : result A) (k : A -> result B) : result B :=
  match r with
  | Ok a => k a
  | Raise e => Raise e
  end.

(** [d[key]] on a string-keyed dictionary. *)
Definition getitem {V} (d : gmap string V) (key : string) : result V :=
  match d !! key with
  | Some v => Ok v
  | None => Raise (KeyError key)
  end.

(** [a, b, c = t]: unpacking a sequence into three names. *)
Definition unpack3 {A} (t : list A) : result (A * A * A) :=
  match t with
  | [a; b; c] => Ok (a, b, c)
  | _ :: _ :: _ :: _ :: _ =>
      Raise (ValueError "too many values to unpack (expected 3)")
  | _ => Raise (ValueError "not enough values to unpack (expected 3)")
  end.

(** [t[i]] on a sequence. *)
Definition index {A} (t : list A) (i : nat) : result A :=
  match t !! i with
  | Some a => Ok a
  | None => Raise (IndexError "tuple index out of range")
  end.

(** A dictionary display [{k1: v1, k2: v2, ...}]: a later entry for a
    key replaces an earlier one. *)
Definition dict_literal {V} (entries : list (string * V)) : gmap string V :=
  foldl (fun d kv => <[kv.1 := kv.2]> d) ∅ entries.

(** [d.update(other)]: every entry of [other] is set in [d]. *)
Definition dict_update {V} (d other : gmap string V) : gmap string V :=
  other ∪ d.

End Py.

Import Py.

Declare Scope py_scope.
Delimit Scope py_scope with py.
Notation "'let*' x ':=' m 'in' k" := (Py.bind m (fun x => k))
  (at level 10, x pattern, m at level 100, k at level 200) : py_scope.
Notation "m1 ';;;' m2" := (Py.bind m1 (fun _ => m2))
  (at level 100, m2 at level 200, right associativity) : py_scope.
Notation "'let?' x ':=' r 'in' k" := (Py.and_then r (fun x => k))
  (at level 10, x pattern, r at level 100, k at level 200) : py_scope.
Local Open Scope py_scope.

(* ===================================================================== *)
(** * 2. The expression tree                                              *)
(* ===================================================================== *)

Inductive BinaryOperator : Type :=
| Addition | Subtraction | Multiplication | Division | Power.

(** Expression nodes.  The node classes are those the two source files
    build; the expression library itself is not among the source files, so
    the calls [pybamm.Scalar(..)], [pybamm.Broadcast(..)], [pybamm.grad(..)],
    ... and the overloaded arithmetic operators build the nodes below.
    The constructors of the inductive type are total; what the library
    checks of the domains when it builds a node is modelled in section 3
    ([binary], [grad], [div], [new_Broadcast], [new_Concatenation]), and
    the models of [set_algebraic_system] and [get_explicit_leading_order]
    build their nodes through these.  [Variable_] and [Parameter_] carry
    an underscore because the bare words are reserved. *)
Inductive Symbol : Type :=
| Scalar (value : Z)
| Variable_ (name : string) (dom : list string)
| SpatialVariable (name : string) (dom : list string)
| Parameter_ (name : string)
| FunctionParameter (name : string) (child : Symbol)
| Negate (child : Symbol)
| Binary (op : BinaryOperator) (left right : Symbol)
| Gradient (child : Symbol)
| Divergence (child : Symbol)
| Average (child : Symbol)
| SurfaceValue (child : Symbol) (set_domain : bool)
| Broadcast (child : Symbol) (dom : list string)
| Concatenation (children : list Symbol).

Declare Scope sym_scope.
Delimit Scope sym_scope with sym.
Bind Scope sym_scope with Symbol.
Notation "a + b" := (Binary Addition a b) : sym_scope.
Notation "a - b" := (Binary Subtraction a b) : sym_scope.
Notation "a * b" := (Binary Multiplication a b) : sym_scope.
Notation "a / b" := (Binary Division a b) : sym_scope.
Notation "a ** b" := (Binary Power a b)
  (at level 30, right associativity) : sym_scope.
Notation "- a" := (Negate a) : sym_scope.

(** Structural equality, the equality Python dictionaries keyed by
    expressions use. *)
Definition BinaryOperator_eqb (o1 o2 : BinaryOperator) : bool :=
  match o1, o2 with
  | Addition, Addition | Subtraction, Subtraction
  | Multiplication, Multiplication | Division, Division
  | Power, Power => true
  | _, _ => false
  end.

Definition domain_eqb (d1 d2 : list string) : bool :=
  bool_decide (d1 = d2).

Fixpoint Symbol_eqb (s1 s2 : Symbol) {struct s1} : bool :=
  match s1, s2 with
  | Scalar v1, Scalar v2 => Z.eqb v1 v2
  | Variable_ n1 d1, Variable_ n2 d2 => String.eqb n1 n2 && domain_eqb d1 d2
  | SpatialVariable n1 d1, SpatialVariable n2 d2 =>
      String.eqb n1 n2 && domain_eqb d1 d2
  | Parameter_ n1, Parameter_ n2 => String.eqb n1 n2
  | FunctionParameter n1 c1, FunctionParameter n2 c2 =>
      String.eqb n1 n2 && Symbol_eqb c1 c2
  | Negate c1, Negate c2 => Symbol_eqb c1 c2
  | Binary o1 l1 r1, Binary o2 l2 r2 =>
      BinaryOperator_eqb o1 o2 && Symbol_eqb l1 l2 && Symbol_eqb r1 r2
  | Gradient c1, Gradient c2 => Symbol_eqb c1 c2
  | Divergence c1, Divergence c2 => Symbol_eqb c1 c2
  | Average c1, Average c2 => Symbol_eqb c1 c2
  | SurfaceValue c1 b1, SurfaceValue c2 b2 => Symbol_eqb c1 c2 && Bool.eqb b1 b2
  | Broadcast c1 d1, Broadcast c2 d2 => Symbol_eqb c1 c2 && domain_eqb d1 d2
  | Concatenation l1, Concatenation l2 =>
      (fix all2 (l1 l2 : list Symbol) {struct l1} : bool :=
         match l1, l2 with
         | [], [] => true
         | x :: l1', y :: l2' => Symbol_eqb x y && all2 l1' l2'
         | _, _ => false
         end) l1 l2
  | _, _ => false
  end.

(* ===================================================================== *)
(** * 3. Domains, concatenation and [orphans]                             *)
(* ===================================================================== *)

(** Modelled from the spec: the fixed canonical ordering of the
    subdomains of the cell (negative electrode, separator, positive
    electrode), which the expression library keeps and the source files do
    not contain. *)
Definition KNOWN_DOMAINS : list string :=
  ["negative electrode"; "separator"; "positive electrode"].

(** The position of a name in a list of names, when it is there. *)
Fixpoint position_in (d : string) (l : list string) : option nat :=
  match l with
  | [] => None
  | x :: l' => if String.eqb d x then Some 0%nat else S <$> position_in d l'
  end.

Definition domain_position (d : string) : option nat :=
  position_in d KNOWN_DOMAINS.

(** Modelled from the spec: the ordered union of domains.  The names of
    [ds] in canonical order: the known ones as [KNOWN_DOMAINS] lists them,
    then the others as they stand. *)
Definition canonical_order (ds : list string) : list string :=
  (filter (fun d => d ∈ ds) KNOWN_DOMAINS
   ++ filter (fun d => d ∉ KNOWN_DOMAINS) ds)%list.

(** Modelled from the spec: the electrode a particle domain lies in, the
    domain [surf] gives its value when [set_domain] is requested. *)
Definition particle_to_electrode (d : string) : string :=
  if String.eqb d "negative particle" then "negative electrode"
  else if String.eqb d "positive particle" then "positive electrode"
  else d.

(** Modelled from the spec: the domain attribute of an expression, which
    the expression library computes when a node is built.  A leaf carries
    its own; an arithmetic node has the union of its operands' domains
    (the non-empty one); [grad] and [div] keep the domain; [average]
    yields a domain-less value; [surf] yields an electrode-domain value
    when [set_domain] is requested and a domain-less one otherwise;
    [Broadcast] has the domain it is given; a concatenation has the
    ordered union of its children's domains. *)
Fixpoint domain (s : Symbol) : list string :=
  match s with
  | Scalar _ => []
  | Variable_ _ d => d
  | SpatialVariable _ d => d
  | Parameter_ _ => []
  | FunctionParameter _ c => domain c
  | Negate c => domain c
  | Binary _ l r => match domain l with [] => domain r | d => d end
  | Gradient c => domain c
  | Divergence c => domain c
  | Average _ => []
  | SurfaceValue c set_domain =>
      if set_domain then map particle_to_electrode (domain c) else []
  | Broadcast _ d => d
  | Concatenation children => canonical_order (concat (map domain children))
  end.

(** [l] occurs in [k] as a run of adjacent elements. *)
Fixpoint is_infix (l k : list string) : bool :=
  bool_decide (l `prefix_of` k)
  || match k with
     | [] => false
     | _ :: k' => is_infix l k'
     end.

(** Modelled from the spec: what [pybamm.Concatenation] requires
    of its parts.  Their domains are pairwise disjoint and, ordered
    canonically, contiguous; otherwise the constructor raises
    [DomainError]. *)
Definition Concatenation_domains_ok (parts : list Symbol) : bool :=
  let ds := concat (map domain parts) in
  bool_decide (NoDup ds)
  && forallb (fun d => bool_decide (d ∈ KNOWN_DOMAINS)) ds
  && is_infix (canonical_order ds) KNOWN_DOMAINS.

Definition new_Concatenation (parts : list Symbol) : result Symbol :=
  if Concatenation_domains_ok parts then Ok (Concatenation parts)
  else Raise (DomainError "domains of children must be disjoint and contiguous").

(** Modelled from the spec: an arithmetic operator applied to two
    expressions, which the expression library defines.  The domains of
    the operands are incompatible when they are not equal and neither is
    empty; the operator then raises [DomainError], and otherwise builds
    the node, whose domain is the union of the two. *)
Definition domains_compatible (d1 d2 : list string) : bool :=
  bool_decide (d1 = []) || bool_decide (d2 = []) || bool_decide (d1 = d2).

Definition binary (op : BinaryOperator) (l r : Symbol) : result Symbol :=
  if domains_compatible (domain l) (domain r) then Ok (Binary op l r)
  else Raise (DomainError "operands are on different domains").

(** Modelled from the spec: the domains [grad] and [div] apply to, a
    single subdomain or a concatenation of electrode and separator
    domains.  The spec does not say how the flux tag of a gradient passes
    through arithmetic, so [div] checks the domain of its argument
    only.  For [average] and [surf] the spec names no input that fails;
    they build their nodes ([Average], [SurfaceValue]). *)
Definition spatial_domain_ok (d : list string) : bool :=
  match d with
  | [] => false
  | [_] => true
  | _ => forallb (fun x => bool_decide (x ∈ KNOWN_DOMAINS)) d
         && is_infix d KNOWN_DOMAINS
  end.

Definition grad (s : Symbol) : result Symbol :=
  if spatial_domain_ok (domain s) then Ok (Gradient s)
  else Raise (DomainError "gradient of an expression with no spatial domain").

Definition div (s : Symbol) : result Symbol :=
  if spatial_domain_ok (domain s) then Ok (Divergence s)
  else Raise (DomainError "divergence of an expression with no spatial domain").

(** Modelled from the spec: [pybamm.Broadcast(value, domain)] wraps a
    domain-less expression; a value that has a domain of its own is a
    domain mismatch. *)
Definition new_Broadcast (value : Symbol) (d : list string) : result Symbol :=
  if bool_decide (domain value = []) then Ok (Broadcast value d)
  else Raise (DomainError "broadcast of an expression that has a domain").

(** Modelled from the spec: the rank of a part in the canonical ordering,
    which is the position of the first subdomain it is defined over (a
    part with no known subdomain comes last); [canonical_parts] orders
    parts by rank and keeps parts of equal rank as they stand. *)
Definition part_rank (s : Symbol) : nat :=
  match domain s with
  | d :: _ => default (length KNOWN_DOMAINS) (domain_position d)
  | [] => length KNOWN_DOMAINS
  end.

Fixpoint insert_by_rank (s : Symbol) (l : list Symbol) : list Symbol :=
  match l with
  | [] => [s]
  | x :: l' =>
      if (part_rank s <=? part_rank x)%nat then s :: l
      else x :: insert_by_rank s l'
  end.

Definition canonical_parts (parts : list Symbol) : list Symbol :=
  foldr insert_by_rank [] parts.

(** Modelled from the spec: the [orphans] property, which returns the
    parts of a concatenation in canonical order, each with its domain
    tag.  The spec defines it for concatenations; any other node has no
    parts to return. *)
Definition orphans (s : Symbol) : list Symbol :=
  match s with
  | Concatenation parts => canonical_parts parts
  | _ => []
  end.

(** The value of a closed integer expression, when it has one (used to
    read off that a sum of scalars is zero). *)
Fixpoint scalar_value (s : Symbol) : option Z :=
  match s with
  | Scalar v => Some v
  | Negate c => Z.opp <$> scalar_value c
  | Binary op l r =>
      match op, scalar_value l, scalar_value r with
      | Addition, Some a, Some b => Some (a + b)
      | Subtraction, Some a, Some b => Some (a - b)
      | Multiplication, Some a, Some b => Some (a * b)
      | _, _, _ => None
      end
  | _ => None
  end.

(* ===================================================================== *)
(** * 4. Dictionaries keyed by expressions                                *)
(* ===================================================================== *)

(** [rhs], [algebraic], [boundary_conditions] and [initial_conditions] are
    Python dictionaries keyed by expressions: insertion-ordered, keys
    compared structurally. *)
Definition dict (V : Type) : Type := list (Symbol * V).

Definition dict_keys {V} (d : dict V) : list Symbol := map fst d.

Definition dict_contains {V} (d : dict V) (k : Symbol) : bool :=
  existsb (Symbol_eqb k) (dict_keys d).

(** A number where Python has one (the [0] of a boundary value, the [1] of
    a stoichiometric coefficient), an expression otherwise. *)
Inductive Num : Type :=
| Int (n : Z)
| Sym (s : Symbol).

(** A Python number where the library expects an expression is taken as
    the scalar node of that value, as the [0] of [pybamm.Broadcast(0, ..)]
    at line 117 of [electrolyte_current.py] is. *)
Definition as_expression (v : Num) : Symbol :=
  match v with
  | Int n => Scalar n
  | Sym s => s
  end.

(** The reaction dictionary:
    [{reaction_name: {electrode_side: {quantity_name: value}}}]. *)
Abbreviation Reactions := (gmap string (gmap string (gmap string Num))).

(** The entry [reactions[name][side][quantity]], when the dictionary has
    it. *)
Definition reactions_entry (reactions : Reactions)
    (name side quantity : string) : option Num :=
  match reactions !! name with
  | None => None
  | Some by_side =>
      match by_side !! side with
      | None => None
      | Some quantities => quantities !! quantity
      end
  end.

(* ===================================================================== *)
(** * 5. Parameters and submodels                                         *)
(* ===================================================================== *)

(** The parameter object handed to a submodel ([set_of_parameters]).  Its
    class is not among the source files and the code treats its
    attributes as opaque expressions and expression-valued functions, so
    they are the fields of a record: one field per attribute the two
    source files read. *)
Module Param.
Record t : Type := mk {
  current_with_time : Symbol;
  voltage_low_cut : Symbol;
  potential_scale : Symbol;
  U_n_ref : Symbol;
  i_typ : Symbol;
  epsilon : Symbol;
  b : Symbol;
  gamma_e : Symbol;
  C_e : Symbol;
  c_n_init : Symbol;
  l_n : Symbol;
  l_p : Symbol;
  kappa_e : Symbol -> Symbol;
  chi : Symbol -> Symbol;
  U_n : Symbol -> Symbol;
  U_p : Symbol -> Symbol
}.
End Param.

(** [pybamm.standard_spatial_vars]: the coordinate along each electrode. *)
Module SpatialVars.
Record t : Type := mk { x_n : Symbol; x_s : Symbol; x_p : Symbol }.
End SpatialVars.

Inductive Solver : Type :=
| ScikitsDaeSolver.

(** The fields of a submodel.  Modelled from the spec: the class
    [pybamm.SubModel] is not among the source files; a submodel holds the
    five mapping fields, the events list and the solver hint, and is
    created empty around its parameter object. *)
Module SubModel.
Record t : Type := mk {
  set_of_parameters : Param.t;
  variables : gmap string Symbol;
  rhs : dict Symbol;
  algebraic : dict Symbol;
  boundary_conditions : dict (gmap string Num);
  initial_conditions : dict Symbol;
  events : list Symbol;
  default_solver : option Solver
}.

Definition init (set_of_parameters : Param.t) : t :=
  mk set_of_parameters ∅ [] [] [] [] [] None.

(** Attribute assignments [self.field = value]. *)
Definition set_variables (v : gmap string Symbol) (s : t) : t :=
  mk (set_of_parameters s) v (rhs s) (algebraic s) (boundary_conditions s)
     (initial_conditions s) (events s) (default_solver s).
Definition set_rhs (v : dict Symbol) (s : t) : t :=
  mk (set_of_parameters s) (variables s) v (algebraic s)
     (boundary_conditions s) (initial_conditions s) (events s)
     (default_solver s).
Definition set_algebraic (v : dict Symbol) (s : t) : t :=
  mk (set_of_parameters s) (variables s) (rhs s) v (boundary_conditions s)
     (initial_conditions s) (events s) (default_solver s).
Definition set_boundary_conditions (v : dict (gmap string Num)) (s : t) : t :=
  mk (set_of_parameters s) (variables s) (rhs s) (algebraic s) v
     (initial_conditions s) (events s) (default_solver s).
Definition set_initial_conditions (v : dict Symbol) (s : t) : t :=
  mk (set_of_parameters s) (variables s) (rhs s) (algebraic s)
     (boundary_conditions s) v (events s) (default_solver s).
Definition set_default_solver (v : option Solver) (s : t) : t :=
  mk (set_of_parameters s) (variables s) (rhs s) (algebraic s)
     (boundary_conditions s) (initial_conditions s) (events s) v.
End SubModel.

(* ===================================================================== *)
(** * 6. [electrolyte_current.py]                                         *)
(* ===================================================================== *)

Module ElectrolyteCurrentBaseModel.

(** [get_variables(self, phi_e, i_e, eta_e_av)], lines 26-66. *)
Definition get_variables (phi_e i_e eta_e_av : Symbol)
  : M SubModel.t (gmap string Symbol) :=
  let* param := gets SubModel.set_of_parameters in
  let pot_scale := Param.potential_scale param in
  let* (phi_e_n, phi_e_s, phi_e_p) := lift (unpack3 (orphans phi_e)) in
  ret (dict_literal [
    ("Negative electrolyte potential", phi_e_n);
    ("Separator electrolyte potential", phi_e_s);
    ("Positive electrolyte potential", phi_e_p);
    ("Electrolyte potential", phi_e);
    ("Electrolyte current density", i_e);
    ("Average electrolyte overpotential", eta_e_av);
    ("Negative electrolyte potential [V]",
       (- Param.U_n_ref param + pot_scale * phi_e_n)%sym);
    ("Separator electrolyte potential [V]",
       (- Param.U_n_ref param + pot_scale * phi_e_s)%sym);
    ("Positive electrolyte potential [V]",
       (- Param.U_n_ref param + pot_scale * phi_e_p)%sym);
    ("Electrolyte potential [V]",
       (- Param.U_n_ref param + pot_scale * phi_e)%sym);
    ("Electrolyte current density [A m-2]", (Param.i_typ param * i_e)%sym);
    ("Average electrolyte overpotential [V]", (pot_scale * eta_e_av)%sym)
  ]).

(** [get_split_electrolyte_overpotential(self, eta_c_av, delta_phi_e_av)],
    lines 68-77. *)
Definition get_split_electrolyte_overpotential
    (eta_c_av delta_phi_e_av : Symbol)
  : M SubModel.t (gmap string Symbol) :=
  let* param := gets SubModel.set_of_parameters in
  let pot_scale := Param.potential_scale param in
  ret (dict_literal [
    ("Average concentration overpotential", eta_c_av);
    ("Average electrolyte ohmic losses", delta_phi_e_av);
    ("Average concentration overpotential [V]",
       (pot_scale * eta_c_av)%sym);
    ("Average electrolyte ohmic losses [V]",
       (pot_scale * delta_phi_e_av)%sym)
  ]).

End ElectrolyteCurrentBaseModel.

Module MacInnesStefanMaxwell.
Import ElectrolyteCurrentBaseModel.

(** [reactions[name][side][quantity]], lines 115-116: three lookups, each
    of which raises [KeyError] for a key that is missing. *)
Definition reaction_quantity (reactions : Reactions)
    (name side quantity : string) : result Num :=
  let? by_side := getitem reactions name in
  let? quantities := getitem by_side side in
  getitem quantities quantity.

(** The interfacial current density [j] of line 117. *)
Definition interfacial_current_density (j_n j_p : Num) : result Symbol :=
  let? zero := new_Broadcast (Scalar 0) ["separator"] in
  new_Concatenation [as_expression j_n; zero; as_expression j_p].

(** The current density [i_e] of lines 124-126. *)
Definition current_density (param : Param.t) (epsilon c_e phi_e : Symbol)
  : result Symbol :=
  let? conductivity := binary Power epsilon (Param.b param) in
  let? conductivity :=
    binary Multiplication (Param.kappa_e param c_e) conductivity in
  let? conductivity :=
    binary Multiplication conductivity (Param.gamma_e param) in
  let? conductivity := binary Division conductivity (Param.C_e param) in
  let? grad_c_e := grad c_e in
  let? diffusion := binary Multiplication (Param.chi param c_e) grad_c_e in
  let? diffusion := binary Division diffusion c_e in
  let? grad_phi_e := grad phi_e in
  let? driving_force := binary Subtraction diffusion grad_phi_e in
  binary Multiplication conductivity driving_force.

(** The residual [pybamm.div(i_e) - j] of line 129. *)
Definition residual (i_e j : Symbol) : result Symbol :=
  let? div_i_e := div i_e in binary Subtraction div_i_e j.

(** [set_algebraic_system(self, phi_e, c_e, reactions, epsilon=None)],
    lines 95-145. *)
Definition set_algebraic_system (phi_e c_e : Symbol) (reactions : Reactions)
    (epsilon : option Symbol) : M SubModel.t unit :=
  let* param := gets SubModel.set_of_parameters in
  let* j_n := lift (reaction_quantity reactions "main" "neg" "aj") in
  let* j_p := lift (reaction_quantity reactions "main" "pos" "aj") in
  let* j := lift (interfacial_current_density j_n j_p) in
  let epsilon :=
    match epsilon with
    | None => Param.epsilon param
    | Some eps => eps
    end in
  let* i_e := lift (current_density param epsilon c_e phi_e) in
  let* equation := lift (residual i_e j) in
  modify (SubModel.set_algebraic [(phi_e, equation)]) ;;;
  modify (SubModel.set_boundary_conditions
            [(i_e, dict_literal [("left", Int 0); ("right", Int 0)])]) ;;;
  modify (SubModel.set_initial_conditions
            [(phi_e, (- Param.U_n param (Param.c_n_init param))%sym)]) ;;;
  modify (SubModel.set_rhs []) ;;;
  let* (phi_e_n, phi_e_s, phi_e_p) := lift (unpack3 (orphans phi_e)) in
  let phi_e_n_av := Average phi_e_n in
  let phi_e_p_av := Average phi_e_p in
  let* eta_e_av := lift (binary Subtraction phi_e_p_av phi_e_n_av) in
  let* vars := get_variables phi_e i_e eta_e_av in
  modify (SubModel.set_variables vars) ;;;
  modify (SubModel.set_default_solver (Some ScikitsDaeSolver)).

(** The electrolyte potential [phi_e] of lines 173-177. *)
Definition leading_order_potential (ocp_n eta_r_n : Symbol) : result Symbol :=
  let? phi_e_const := binary Subtraction (- ocp_n)%sym eta_r_n in
  let? phi_e_n := new_Broadcast phi_e_const ["negative electrode"] in
  let? phi_e_s := new_Broadcast phi_e_const ["separator"] in
  let? phi_e_p := new_Broadcast phi_e_const ["positive electrode"] in
  new_Concatenation [phi_e_n; phi_e_s; phi_e_p].

(** The electrolyte current [i_e] of lines 180-183. *)
Definition leading_order_current (sv : SpatialVars.t) (param : Param.t)
  : result Symbol :=
  let l_n := Param.l_n param in
  let l_p := Param.l_p param in
  let x_n := SpatialVars.x_n sv in
  let x_p := SpatialVars.x_p sv in
  let i_cell := Param.current_with_time param in
  let? i_e_n :=
    (let? numerator := binary Multiplication i_cell x_n in
     binary Division numerator l_n) in
  let? i_e_s := new_Broadcast i_cell ["separator"] in
  let? i_e_p :=
    (let? rest := binary Subtraction (Scalar 1) x_p in
     let? numerator := binary Multiplication i_cell rest in
     binary Division numerator l_p) in
  new_Concatenation [i_e_n; i_e_s; i_e_p].

(** [get_explicit_leading_order(self, ocp_n, eta_r_n)], lines 147-200;
    [sv] is the module [pybamm.standard_spatial_vars]. *)
Definition get_explicit_leading_order (sv : SpatialVars.t)
    (ocp_n eta_r_n : Symbol) : M SubModel.t (gmap string Symbol) :=
  let* param := gets SubModel.set_of_parameters in
  let* phi_e := lift (leading_order_potential ocp_n eta_r_n) in
  let* i_e := lift (leading_order_current sv param) in
  let delta_phi_e_av := Scalar 0 in
  let eta_c_av := Scalar 0 in
  let* eta_e_av := lift (binary Addition eta_c_av delta_phi_e_av) in
  let* variables := get_variables phi_e i_e eta_e_av in
  let* additional_vars :=
    get_split_electrolyte_overpotential eta_c_av delta_phi_e_av in
  let variables := dict_update variables additional_vars in
  ret variables.

End MacInnesStefanMaxwell.

(* ===================================================================== *)
(** * 7. The top-level model and the merge protocol                       *)
(* ===================================================================== *)

(** The fields of the top-level model.  Modelled from the spec: the base
    class [pybamm.LithiumIonBaseModel] is not among the source files; the
    model owns the merged five mapping fields and the events list, and
    [super().__init__(options)] creates them empty and keeps the options
    mapping in [self.options]. *)
Module Model.
Record t : Type := mk {
  name : string;
  options : gmap string string;
  variables : gmap string Symbol;
  rhs : dict Symbol;
  algebraic : dict Symbol;
  boundary_conditions : dict (gmap string Num);
  initial_conditions : dict Symbol;
  events : list Symbol
}.

Definition init (options : gmap string string) : t :=
  mk "" options ∅ [] [] [] [] [].

Definition set_name (v : string) (m : t) : t :=
  mk v (options m) (variables m) (rhs m) (algebraic m)
     (boundary_conditions m) (initial_conditions m) (events m).
Definition set_variables (v : gmap string Symbol) (m : t) : t :=
  mk (name m) (options m) v (rhs m) (algebraic m)
     (boundary_conditions m) (initial_conditions m) (events m).
Definition set_events (v : list Symbol) (m : t) : t :=
  mk (name m) (options m) (variables m) (rhs m) (algebraic m)
     (boundary_conditions m) (initial_conditions m) v.

(** Modelled from the spec: one field of the merge.  A key of the source
    mapping that is already a key of the target mapping is a
    construction error; otherwise the entries are inserted. *)
Definition combine {V} (field : string) (target source : dict V)
  : result (dict V) :=
  if existsb (dict_contains target) (dict_keys source)
  then Raise (ModelError ("duplicate key in " ++ field))
  else Ok (target ++ source)%list.

Definition combine_variables (target source : gmap string Symbol)
  : result (gmap string Symbol) :=
  if bool_decide (target ##ₘ source)
  then Ok (source ∪ target)
  else Raise (ModelError "duplicate key in variables").

(** Modelled from the spec: the merge protocol [update(submodel)], which
    the base class defines.  Each of the five mapping fields is merged
    as a disjoint union, the events are appended, and the operation
    either fully succeeds or raises before mutating the target. *)
Definition update (submodel : SubModel.t) : M t unit :=
  fun target =>
    match combine_variables (variables target) (SubModel.variables submodel),
          combine "rhs" (rhs target) (SubModel.rhs submodel),
          combine "algebraic" (algebraic target) (SubModel.algebraic submodel),
          combine "boundary_conditions" (boundary_conditions target)
                  (SubModel.boundary_conditions submodel),
          combine "initial_conditions" (initial_conditions target)
                  (SubModel.initial_conditions submodel)
    with
    | Ok v, Ok r, Ok a, Ok bc, Ok ic =>
        (mk (name target) (options target) v r a bc ic
            (events target ++ SubModel.events submodel)%list, Ok tt)
    | Raise e, _, _, _, _ | _, Raise e, _, _, _ | _, _, Raise e, _, _
    | _, _, _, Raise e, _ | _, _, _, _, Raise e => (target, Raise e)
    end.
End Model.

(* ===================================================================== *)
(** * 8. Python values, calls and the frame of [DFN.__init__]             *)
(* ===================================================================== *)

(** The values bound to the local names of [DFN.__init__] and passed as
    call arguments. *)
Inductive PyVal : Type :=
| VNone
| VSymbol (s : Symbol)
| VDict (d : gmap string Symbol)
| VReactions (r : Reactions)
| VDomain (d : list string)
| VSubModel (sm : SubModel.t)
| VHelper (cls : string) (param : Param.t)
| VParam (param : Param.t).

(** Binding of the positional arguments of a call to the parameters of a
    method (after [self]): the required ones, then the optional ones, whose
    default is [None].  Too few or too many arguments raise [TypeError]
    naming the method and the parameters left without a value. *)
Definition bind_arguments (method : string) (required optional : list string)
    (args : list PyVal) : result (list PyVal) :=
  if (length args <? length required)%nat then
    Raise (TypeError (method ++ "() missing required positional argument: "
                        ++ String.concat ", " (drop (length args) required)))
  else if (length required + length optional <? length args)%nat then
    Raise (TypeError (method ++ "() takes too many positional arguments"))
  else
    Ok (args ++ replicate (length required + length optional - length args) VNone)%list.

Definition as_symbol (v : PyVal) : result Symbol :=
  match v with
  | VSymbol s => Ok s
  | _ => Raise (TypeError "an expression is expected")
  end.

Definition as_reactions (v : PyVal) : result Reactions :=
  match v with
  | VReactions r => Ok r
  | _ => Raise (TypeError "a reaction dictionary is expected")
  end.

Definition as_optional_symbol (v : PyVal) : result (option Symbol) :=
  match v with
  | VNone => Ok None
  | VSymbol s => Ok (Some s)
  | _ => Raise (TypeError "an expression or None is expected")
  end.

(** A call [submodel.set_algebraic_system(args...)] on a
    [MacInnesStefanMaxwell] instance: the arguments are bound to
    [(phi_e, c_e, reactions, epsilon=None)], the signature at line 95, and
    the body runs on the values bound. *)
Definition call_MacInnesStefanMaxwell_set_algebraic_system (args : list PyVal)
  : M SubModel.t unit :=
  let* bound :=
    lift (bind_arguments "set_algebraic_system"
            ["phi_e"; "c_e"; "reactions"] ["epsilon"] args) in
  match bound with
  | [a_phi_e; a_c_e; a_reactions; a_epsilon] =>
      let* phi_e := lift (as_symbol a_phi_e) in
      let* c_e := lift (as_symbol a_c_e) in
      let* reactions := lift (as_reactions a_reactions) in
      let* epsilon := lift (as_optional_symbol a_epsilon) in
      MacInnesStefanMaxwell.set_algebraic_system phi_e c_e reactions epsilon
  | _ => raise (TypeError "set_algebraic_system(): arguments not bound")
  end.

(** [pybamm.standard_variables]. *)
Module StandardVariables.
Record t : Type := mk {
  c_s_n : Symbol;
  c_s_p : Symbol;
  c_e : Symbol;
  phi_e : Symbol;
  phi_s_p : Symbol;
  phi_s_n : Symbol;
  T : Symbol;
  T_av : Symbol
}.
End StandardVariables.

(** What [dfn.py] uses of the package and is not among the source files:
    the module-level objects it reads and the methods of the other
    submodel classes it calls.  A method that populates a submodel is a
    state transformer of that submodel; a method of a stateless helper
    ([LithiumIonReaction], [Potential]) is a function of the parameter
    object the helper was built around. *)
Module Lib.
Record t : Type := mk {
  standard_parameters_lithium_ion : Param.t;
  standard_variables : StandardVariables.t;
  standard_spatial_vars : SpatialVars.t;
  get_exchange_current_densities :
    Param.t -> Symbol -> Symbol -> result Symbol;
  get_butler_volmer : Param.t -> Symbol -> Symbol -> result Symbol;
  get_derived_interfacial_currents :
    Param.t -> Symbol -> Symbol -> Symbol -> Symbol ->
    result (gmap string Symbol);
  particle_set_differential_system : Symbol -> Symbol -> M SubModel.t unit;
  electrolyte_diffusion_set_differential_system :
    gmap string Symbol -> Reactions -> M SubModel.t unit;
  electrode_set_algebraic_system :
    gmap string Symbol -> Reactions -> list string -> M SubModel.t unit;
  electrode_get_variables :
    Symbol -> Symbol -> Symbol -> Symbol ->
    M SubModel.t (gmap string Symbol);
  thermal_set_full_differential_system :
    gmap string Symbol -> Reactions -> M SubModel.t unit;
  thermal_set_x_lumped_differential_system :
    gmap string Symbol -> Reactions -> M SubModel.t unit;
  get_derived_open_circuit_potentials :
    Param.t -> Symbol -> Symbol -> result (gmap string Symbol);
  get_derived_reaction_overpotentials :
    Param.t -> Symbol -> Symbol -> result (gmap string Symbol)
}.
End Lib.

(** The state a statement of [DFN.__init__] runs in: the package (its
    module-level state), the object under construction, and the local
    names bound so far. *)
Module Frame.
Record t : Type := mk {
  globals : Lib.t;
  self : Model.t;
  locals : gmap string PyVal
}.

Definition set_self (f : Model.t -> Model.t) (st : t) : t :=
  mk (globals st) (f (self st)) (locals st).
Definition set_locals (f : gmap string PyVal -> gmap string PyVal) (st : t)
  : t :=
  mk (globals st) (self st) (f (locals st)).

(** Reading and binding a local name. *)
Definition load (x : string) : M t PyVal :=
  fun st =>
    match locals st !! x with
    | Some v => (st, Ok v)
    | None => (st, Raise (NameError x))
    end.

Definition store (x : string) (v : PyVal) : M t unit :=
  modify (set_locals (insert x v)).

Definition load_symbol (x : string) : M t Symbol :=
  let* v := load x in lift (as_symbol v).

Definition load_reactions (x : string) : M t Reactions :=
  let* v := load x in lift (as_reactions v).

Definition load_domain (x : string) : M t (list string) :=
  let* v := load x in
  match v with
  | VDomain d => ret d
  | _ => raise (TypeError "a list of domain names is expected")
  end.

Definition load_submodel (x : string) : M t SubModel.t :=
  let* v := load x in
  match v with
  | VSubModel sm => ret sm
  | _ => raise (TypeError "a submodel is expected")
  end.

Definition load_helper (x : string) : M t Param.t :=
  let* v := load x in
  match v with
  | VHelper _ p => ret p
  | _ => raise (TypeError "a helper object is expected")
  end.

(** [x.method(...)]: the method runs on the object bound to [x], which
    keeps what the method assigned, whether it returned or raised. *)
Definition on_submodel {A} (x : string) (method : M SubModel.t A) : M t A :=
  let* sm := load_submodel x in
  match method sm with
  | (sm', r) => store x (VSubModel sm') ;;; lift r
  end.

(** A method of [self]. *)
Definition on_self {A} (method : M Model.t A) : M t A :=
  fun st =>
    match method (self st) with
    | (m', r) => (mk (globals st) m' (locals st), r)
    end.

(** [self.variables[key]], [self.variables[key] = v],
    [self.variables.update(d)] and [self.update(x)]. *)
Definition self_variables : M t (gmap string Symbol) :=
  gets (fun st => Model.variables (self st)).

Definition self_variable (key : string) : M t Symbol :=
  let* vs := self_variables in lift (getitem vs key).

Definition self_variables_setitem (key : string) (v : Symbol) : M t unit :=
  modify (set_self (fun m => Model.set_variables (<[key := v]> (Model.variables m)) m)).

Definition self_variables_update (d : gmap string Symbol) : M t unit :=
  modify (set_self (fun m => Model.set_variables (dict_update (Model.variables m) d) m)).

Definition self_update (x : string) : M t unit :=
  let* sm := load_submodel x in on_self (Model.update sm).

Definition param : M t Param.t :=
  gets (fun st => Lib.standard_parameters_lithium_ion (globals st)).
End Frame.

(* ===================================================================== *)
(** * 9. [dfn.py]                                                         *)
(* ===================================================================== *)

(** What a statement does in the life of a submodel instance, named by the
    local name the instance is bound to. *)
Inductive Label : Type :=
| Create (x : string) (cls : string)
| Populate (x : string) (method : string)
| Merge (x : string)
| Plain.

(** The statements of [DFN.__init__].  Three forms act on a submodel
    instance: [x = cls(param)] creates one, [x.method(args)] with a
    [set_*_system] method populates it, [self.update(x)] merges it.  The
    [if] statement of lines 82-85 chooses between two calls.  Every other
    statement is given by what it does to the frame. *)
Inductive Stmt : Type :=
| New (x cls : string)
| Call (x method : string) (args : M Frame.t (M SubModel.t unit))
| Update (x : string)
| If (condition : M Frame.t bool) (then_ else_ : Stmt)
| Pass
| Other (m : M Frame.t unit).

(** What a statement does to the frame.  The classes of the submodels are
    not among the source files: a new instance is the empty submodel
    around the parameter object (see [SubModel.init]).  The arguments of
    a call are evaluated first, then the method runs on the object bound
    to [x]. *)
Fixpoint run_stmt (s : Stmt) : M Frame.t unit :=
  match s with
  | New x _ =>
      let* param := Frame.param in
      Frame.store x (VSubModel (SubModel.init param))
  | Call x _ args => let* method := args in Frame.on_submodel x method
  | Update x => Frame.self_update x
  | If condition then_ else_ =>
      let* b := condition in if b then run_stmt then_ else run_stmt else_
  | Pass => ret tt
  | Other m => m
  end.

Definition label_of (s : Stmt) : Label :=
  match s with
  | New x cls => Create x cls
  | Call x method _ => Populate x method
  | Update x => Merge x
  | If _ _ _ | Pass | Other _ => Plain
  end.

(** What a statement did, run in a frame: the creation, the population or
    the merge it performed, when it returned; nothing when it raised, and
    nothing for the other statements.  An [if] statement did what the
    branch it took did. *)
Fixpoint stmt_events (s : Stmt) (st : Frame.t) : list Label :=
  match s with
  | If condition then_ else_ =>
      match condition st with
      | (st', Ok b) => if b then stmt_events then_ st' else stmt_events else_ st'
      | (_, Raise _) => []
      end
  | Pass | Other _ => []
  | New _ _ | Call _ _ _ | Update _ =>
      match run_stmt s st with
      | (_, Ok _) => [label_of s]
      | (_, Raise _) => []
      end
  end.

(** A statement of [DFN.__init__] with the source lines it stands on. *)
Record Step : Type := mkStep {
  first_line : nat;
  last_line : nat;
  stmt : Stmt
}.

Definition run (s : Step) : M Frame.t unit := run_stmt (stmt s).

Definition label (s : Step) : Label := label_of (stmt s).

Module DFN.
Import Frame.

(** [set_model_variables(self, param)], lines 115-154. *)
Definition set_model_variables (param : Param.t) : M Frame.t unit :=
  let* sv := gets (fun st => Lib.standard_variables (globals st)) in
  let c_s_n := StandardVariables.c_s_n sv in
  let c_s_p := StandardVariables.c_s_p sv in
  let c_e := StandardVariables.c_e sv in
  let phi_e := StandardVariables.phi_e sv in
  let phi_s_p := StandardVariables.phi_s_p sv in
  let phi_s_n := StandardVariables.phi_s_n sv in
  let* phi_e_0 := lift (index (orphans phi_e) 0) in
  let delta_phi_n := (phi_s_n - phi_e_0)%sym in
  let* phi_e_2 := lift (index (orphans phi_e) 2) in
  let delta_phi_p := (phi_s_p - phi_e_2)%sym in
  let c_s_n_surf := SurfaceValue c_s_n true in
  let c_s_p_surf := SurfaceValue c_s_p true in
  let ocp_n := Param.U_n param c_s_n_surf in
  let ocp_p := Param.U_p param c_s_p_surf in
  let eta_r_n := (delta_phi_n - ocp_n)%sym in
  let eta_r_p := (delta_phi_p - ocp_p)%sym in
  self_variables_update (dict_literal [
    ("Electrolyte concentration", c_e);
    ("Negative particle concentration", c_s_n);
    ("Positive particle concentration", c_s_p);
    ("Electrolyte potential", phi_e);
    ("Negative electrode potential", phi_s_n);
    ("Positive electrode potential", phi_s_p);
    ("Negative electrode surface potential difference", delta_phi_n);
    ("Positive electrode surface potential difference", delta_phi_p);
    ("Negative electrode open circuit potential", ocp_n);
    ("Positive electrode open circuit potential", ocp_p);
    ("Negative reaction overpotential", eta_r_n);
    ("Positive reaction overpotential", eta_r_p)
  ]) ;;;
  let* options := gets (fun st => Model.options (self st)) in
  let* thermal := lift (getitem options "thermal") in
  (if String.eqb thermal "full" then
     self_variables_update
       (dict_literal [("Cell temperature", StandardVariables.T sv)])
   else ret tt) ;;;
  let* thermal := lift (getitem options "thermal") in
  (if String.eqb thermal "lumped" then
     self_variables_update
       (dict_literal [("Average cell temperature", StandardVariables.T_av sv)])
   else ret tt).

(** [x = self.variables[key]]. *)
Definition assign_variable (x key : string) : M Frame.t unit :=
  let* v := self_variable key in store x (VSymbol v).

(** The reaction dictionary of lines 60-62. *)
Definition reactions_literal (j_n j_p : Symbol) : Reactions :=
  dict_literal [
    ("main", dict_literal [
       ("neg", dict_literal [("s_plus", Int 1); ("aj", Sym j_n)]);
       ("pos", dict_literal [("s_plus", Int 1); ("aj", Sym j_p)])
    ])
  ].

(** [j_vars = int_curr_model.get_derived_interfacial_currents(j_n, j_p,
    j0_n, j0_p)] followed by [self.variables.update(j_vars)]. *)
Definition interfacial_current_variables : M Frame.t unit :=
  let* g := gets globals in
  let* p := load_helper "int_curr_model" in
  let* j_n := load_symbol "j_n" in
  let* j_p := load_symbol "j_p" in
  let* j0_n := load_symbol "j0_n" in
  let* j0_p := load_symbol "j0_p" in
  let* j_vars :=
    lift (Lib.get_derived_interfacial_currents g p j_n j_p j0_n j0_p) in
  store "j_vars" (VDict j_vars) ;;;
  self_variables_update j_vars.

(** [self.options["thermal"] == value]. *)
Definition thermal_option_is (value : string) : M Frame.t bool :=
  let* self_options := gets (fun st => Model.options (self st)) in
  let* thermal := lift (getitem self_options "thermal") in
  ret (String.eqb thermal value).

(** The body of [__init__(self, options)] after
    [super().__init__(options)], lines 14-113, statement by statement,
    in the blocks the source marks with its comments.  Line 18 binds the
    local name [param] to the package object
    [pybamm.standard_parameters_lithium_ion] and no statement binds it
    again ([param_stays_bound] below), so a later read of [param] is the
    read of that object, [Frame.param]. *)

(** "Parameters" and "Model Variables", lines 14-33. *)
Definition model_variables_block : list Step := [
  mkStep 14 14 (Other
    (modify (set_self (Model.set_name "Doyle-Fuller-Newman model"))));
  mkStep 18 18 (Other
    (let* param := param in store "param" (VParam param)));
  mkStep 19 19 (Other
    (let* param := param in
     store "i_boundary_cc" (VSymbol (Param.current_with_time param))));
  mkStep 20 20 (Other
    (let* i_boundary_cc := load_symbol "i_boundary_cc" in
     self_variables_setitem "Current collector current density" i_boundary_cc));
  mkStep 25 25 (Other
    (let* param := param in set_model_variables param));
  mkStep 27 27 (Other
    (assign_variable "c_e" "Electrolyte concentration"));
  mkStep 28 28 (Other
    (assign_variable "c_s_n" "Negative particle concentration"));
  mkStep 29 29 (Other
    (assign_variable "c_s_p" "Positive particle concentration"));
  mkStep 30 30 (Other
    (assign_variable "ocp_n" "Negative electrode open circuit potential"));
  mkStep 31 31 (Other
    (assign_variable "ocp_p" "Positive electrode open circuit potential"));
  mkStep 32 32 (Other
    (assign_variable "eta_r_n" "Negative reaction overpotential"));
  mkStep 33 33 (Other
    (assign_variable "eta_r_p" "Positive reaction overpotential"))
].

(** "Exchange-current density" and "Interfacial current density", lines 38-49. *)
Definition interface_block : list Step := [
  mkStep 38 38 (Other
    (let* c_e := load_symbol "c_e" in
     let* (c_e_n, _, c_e_p) := lift (unpack3 (orphans c_e)) in
     store "c_e_n" (VSymbol c_e_n) ;;; store "c_e_p" (VSymbol c_e_p)));
  mkStep 39 39 (Other
    (let* c_s_n := load_symbol "c_s_n" in
     store "c_s_n_surf" (VSymbol (SurfaceValue c_s_n true))));
  mkStep 40 40 (Other
    (let* c_s_p := load_symbol "c_s_p" in
     store "c_s_p_surf" (VSymbol (SurfaceValue c_s_p true))));
  mkStep 41 41 (Other
    (let* param := param in
     store "int_curr_model" (VHelper "interface.LithiumIonReaction" param)));
  mkStep 44 44 (Other
    (let* g := gets globals in
     let* p := load_helper "int_curr_model" in
     let* c_e_n := load_symbol "c_e_n" in
     let* c_s_n_surf := load_symbol "c_s_n_surf" in
     let* j0_n :=
       lift (Lib.get_exchange_current_densities g p c_e_n c_s_n_surf) in
     store "j0_n" (VSymbol j0_n)));
  mkStep 45 45 (Other
    (let* g := gets globals in
     let* p := load_helper "int_curr_model" in
     let* c_e_p := load_symbol "c_e_p" in
     let* c_s_p_surf := load_symbol "c_s_p_surf" in
     let* j0_p :=
       lift (Lib.get_exchange_current_densities g p c_e_p c_s_p_surf) in
     store "j0_p" (VSymbol j0_p)));
  mkStep 46 46 (Other
    (let* g := gets globals in
     let* p := load_helper "int_curr_model" in
     let* j0_n := load_symbol "j0_n" in
     let* eta_r_n := load_symbol "eta_r_n" in
     let* j_n := lift (Lib.get_butler_volmer g p j0_n eta_r_n) in
     store "j_n" (VSymbol j_n)));
  mkStep 47 47 (Other
    (let* g := gets globals in
     let* p := load_helper "int_curr_model" in
     let* j0_p := load_symbol "j0_p" in
     let* eta_r_p := load_symbol "eta_r_p" in
     let* j_p := lift (Lib.get_butler_volmer g p j0_p eta_r_p) in
     store "j_p" (VSymbol j_p)));
  mkStep 48 49 (Other interfacial_current_variables)
].

(** "Particle models", lines 52-57. *)
Definition particle_block : list Step := [
  mkStep 52 52 (New "negative_particle_model" "particle.Standard");
  mkStep 53 53
    (Call "negative_particle_model" "set_differential_system"
    (let* g := gets globals in
     let* c_s_n := load_symbol "c_s_n" in
     let* j_n := load_symbol "j_n" in
     ret (Lib.particle_set_differential_system g c_s_n j_n)));
  mkStep 54 54 (New "positive_particle_model" "particle.Standard");
  mkStep 55 55
    (Call "positive_particle_model" "set_differential_system"
    (let* g := gets globals in
     let* c_s_p := load_symbol "c_s_p" in
     let* j_p := load_symbol "j_p" in
     ret (Lib.particle_set_differential_system g c_s_p j_p)));
  mkStep 56 56 (Update "negative_particle_model");
  mkStep 57 57 (Update "positive_particle_model")
].

(** "Electrolyte concentration" and "Electrolyte diffusion model",
    lines 60-66. *)
Definition electrolyte_diffusion_block : list Step := [
  mkStep 60 62 (Other
    (let* j_n := load_symbol "j_n" in
     let* j_p := load_symbol "j_p" in
     store "reactions" (VReactions (reactions_literal j_n j_p))));
  mkStep 64 64 (New "electrolyte_diffusion_model" "electrolyte_diffusion.StefanMaxwell");
  mkStep 65 65
    (Call "electrolyte_diffusion_model" "set_differential_system"
    (let* g := gets globals in
     let* variables := self_variables in
     let* reactions := load_reactions "reactions" in
     ret (Lib.electrolyte_diffusion_set_differential_system g variables reactions)));
  mkStep 66 66 (Update "electrolyte_diffusion_model")
].

(** The electrolyte current model, lines 68-70. *)
Definition line_68 : Step :=
  mkStep 68 68 (New "eleclyte_current_model" "electrolyte_current.MacInnesStefanMaxwell").

Definition line_69 : Step :=
  mkStep 69 69
    (Call "eleclyte_current_model" "set_algebraic_system"
    (let* variables := self_variables in
     let* reactions := load_reactions "reactions" in
     ret (call_MacInnesStefanMaxwell_set_algebraic_system
          [VDict variables; VReactions reactions]))).

Definition line_70 : Step :=
  mkStep 70 70 (Update "eleclyte_current_model").

Definition electrolyte_current_block : list Step :=
  [line_68; line_69; line_70].

(** "Electrode models", lines 73-78. *)
Definition electrode_block : list Step := [
  mkStep 73 73 (Other
    (store "neg" (VDomain ["negative electrode"])));
  mkStep 74 74 (Other
    (store "pos" (VDomain ["positive electrode"])));
  mkStep 75 75 (New "electrode_current_model" "electrode.Ohm");
  mkStep 76 76
    (Call "electrode_current_model" "set_algebraic_system"
    (let* g := gets globals in
     let* variables := self_variables in
     let* reactions := load_reactions "reactions" in
     let* neg := load_domain "neg" in
     ret (Lib.electrode_set_algebraic_system g variables reactions neg)));
  mkStep 77 77
    (Call "electrode_current_model" "set_algebraic_system"
    (let* g := gets globals in
     let* variables := self_variables in
     let* reactions := load_reactions "reactions" in
     let* pos := load_domain "pos" in
     ret (Lib.electrode_set_algebraic_system g variables reactions pos)));
  mkStep 78 78 (Update "electrode_current_model")
].

(** "Thermal model", lines 81-86.  [options] is the argument of
    [__init__]; the [if] statement reads [self.options], where
    [super().__init__(options)] has put it. *)
Definition thermal_block (options : gmap string string) : list Step := [
  mkStep 81 81 (New "thermal_model" "thermal.Thermal");
  mkStep 82 85
    (If (thermal_option_is "full")
        (Call "thermal_model" "set_full_differential_system"
           (let* g := gets globals in
            let* variables := self_variables in
            let* reactions := load_reactions "reactions" in
            ret (Lib.thermal_set_full_differential_system g variables reactions)))
        (If (thermal_option_is "lumped")
            (Call "thermal_model" "set_x_lumped_differential_system"
               (let* g := gets globals in
                let* variables := self_variables in
                let* reactions := load_reactions "reactions" in
                ret (Lib.thermal_set_x_lumped_differential_system
                       g variables reactions)))
            Pass));
  mkStep 86 86 (Update "thermal_model")
].

(** "Post-process", lines 92-113. *)
Definition post_process_block : list Step := [
  mkStep 92 93 (Other interfacial_current_variables);
  mkStep 96 96 (Other
    (let* param := param in
     store "pot_model" (VHelper "potential.Potential" param)));
  mkStep 97 97 (Other
    (let* g := gets globals in
     let* p := load_helper "pot_model" in
     let* ocp_n := load_symbol "ocp_n" in
     let* ocp_p := load_symbol "ocp_p" in
     let* ocp_vars :=
       lift (Lib.get_derived_open_circuit_potentials g p ocp_n ocp_p) in
     store "ocp_vars" (VDict ocp_vars)));
  mkStep 98 98 (Other
    (let* g := gets globals in
     let* p := load_helper "pot_model" in
     let* eta_r_n := load_symbol "eta_r_n" in
     let* eta_r_p := load_symbol "eta_r_p" in
     let* eta_r_vars :=
       lift (Lib.get_derived_reaction_overpotentials g p eta_r_n eta_r_p) in
     store "eta_r_vars" (VDict eta_r_vars)));
  mkStep 99 99 (Other
    (let* ocp_vars := load "ocp_vars" in
     let* eta_r_vars := load "eta_r_vars" in
     match ocp_vars, eta_r_vars with
     | VDict ocp_vars, VDict eta_r_vars =>
         self_variables_update (dict_update ocp_vars eta_r_vars)
     | _, _ => raise (TypeError "a mapping is expected")
     end));
  mkStep 102 102 (Other
    (assign_variable "phi_s_n" "Negative electrode potential"));
  mkStep 103 103 (Other
    (assign_variable "phi_s_p" "Positive electrode potential"));
  mkStep 104 104 (Other
    (assign_variable "i_s_n" "Negative electrode current density"));
  mkStep 105 105 (Other
    (assign_variable "i_s_p" "Positive electrode current density"));
  mkStep 106 109 (Other
    (let* g := gets globals in
     let* phi_s_n := load_symbol "phi_s_n" in
     let* phi_s_p := load_symbol "phi_s_p" in
     let* i_s_n := load_symbol "i_s_n" in
     let* i_s_p := load_symbol "i_s_p" in
     let* volt_vars :=
       on_submodel "electrode_current_model"
         (Lib.electrode_get_variables g phi_s_n phi_s_p i_s_n i_s_p) in
     store "volt_vars" (VDict volt_vars) ;;;
     self_variables_update volt_vars));
  mkStep 112 112 (Other
    (assign_variable "voltage" "Terminal voltage"));
  mkStep 113 113 (Other
    (let* param := param in
     let* voltage := load_symbol "voltage" in
     modify (set_self (fun m =>
       Model.set_events
         (Model.events m ++ [(voltage - Param.voltage_low_cut param)%sym])%list
         m))))
].

Definition body (options : gmap string string) : list Step :=
  (model_variables_block ++ interface_block ++ particle_block
   ++ electrolyte_diffusion_block ++ electrolyte_current_block
   ++ electrode_block ++ thermal_block options
   ++ post_process_block)%list.

End DFN.

(** Running statements in order: the first exception ends the run. *)
Fixpoint exec (steps : list Step) : M Frame.t unit :=
  match steps with
  | [] => ret tt
  | s :: rest => run s ;;; exec rest
  end.

(** What the statements run did, in order: the creations, populations
    and merges of the statements that returned. *)
Fixpoint exec_events (steps : list Step) (st : Frame.t) : list Label :=
  match steps with
  | [] => []
  | s :: rest =>
      (stmt_events (stmt s) st
       ++ match run s st with
          | (st', Ok _) => exec_events rest st'
          | (_, Raise _) => []
          end)%list
  end.

(** [DFN(options)] evaluated in a process whose package state is [g]: the
    package state afterwards, and the model built or the exception
    raised.  [Model.init options] is [super().__init__(options)],
    line 13. *)
Definition DFN_new (options : gmap string string) : M Lib.t Model.t :=
  fun g =>
    match exec (DFN.body options) (Frame.mk g (Model.init options) ∅) with
    | (st, Ok _) => (Frame.globals st, Ok (Frame.self st))
    | (st, Raise e) => (Frame.globals st, Raise e)
    end.

Definition is_merge (l : Label) : bool :=
  match l with
  | Merge _ => true
  | _ => false
  end.

(** ** The life of a submodel instance in a sequence of labels *)




(* ===================================================================== *)
(** * 10. Properties of models, libraries and call sequences              *)
(* ===================================================================== *)



(** The key sets of the four equation fields of a model. *)
Definition equation_keys (m : Model.t)
  : list Symbol * list Symbol * list Symbol * list Symbol :=
  (dict_keys (Model.rhs m), dict_keys (Model.algebraic m),
   dict_keys (Model.boundary_conditions m),
   dict_keys (Model.initial_conditions m)).

(** ** Invariants of computations *)

(** A computation that leaves its object as it found it. *)
Definition reads_only {S A} (m : M S A) : Prop := forall s, fst (m s) = s.

(** [I] holds after the computation whenever it held before, whether the
    computation returned or raised. *)
Definition invariant_of {S A} (I : S -> Prop) (m : M S A) : Prop :=
  forall s, I s -> I (fst (m s)).

(** The package state of the frame is [g]. *)
Definition globals_are (g : Lib.t) (st : Frame.t) : Prop := Frame.globals st = g.

(** The local name [param] is bound to the parameter object of the
    package, as line 18 of [dfn.py] binds it. *)
Definition param_is_bound (st : Frame.t) : Prop :=
  Frame.locals st !! "param"
  = Some (VParam (Lib.standard_parameters_lithium_ion (Frame.globals st))).

(** ** The body around line 69 *)

(** Where line 69 stands in the body. *)
Definition before_line_69 : list Step :=
  (DFN.model_variables_block ++ DFN.interface_block ++ DFN.particle_block
   ++ DFN.electrolyte_diffusion_block ++ [DFN.line_68])%list.

Definition after_line_69 (options : gmap string string) : list Step :=
  (DFN.line_70 :: DFN.electrode_block ++ DFN.thermal_block options
   ++ DFN.post_process_block)%list.

(** ** The creations, populations and merges of a list of statements *)

(** A statement that is no [if] statement. *)
Definition simple (s : Step) : bool :=
  match stmt s with
  | If _ _ _ => false
  | _ => true
  end.

(** What the statements of a list do when each of them returns: the
    labels of its creations, population calls and merges, in order. *)
Definition static_events (steps : list Step) : list Label :=
  omap (fun s => match label s with Plain => None | l => Some l end) steps.

(** What the [if] statement of lines 82-85 does when it returns, by the
    value of [self.options["thermal"]]. *)
Definition thermal_events (thermal : string) : list Label :=
  if String.eqb thermal "full"
  then [Populate "thermal_model" "set_full_differential_system"]
  else if String.eqb thermal "lumped"
  then [Populate "thermal_model" "set_x_lumped_differential_system"]
  else [].

(** ** The errors of the expression library *)

Definition is_DomainError (e : Exception) : Prop :=
  exists msg, e = DomainError msg.

(** A fallible value that fails, when it does, with an exception in
    [P]. *)
Definition raises_only {A} (P : Exception -> Prop) (r : result A) : Prop :=
  match r with
  | Ok _ => True
  | Raise e => P e
  end.

(** The nodes lines 117-129 of [electrolyte_current.py] build, in the
    order the method builds them: the current density [i_e] and the
    residual [div(i_e) - j]; or the exception of the first constructor
    that fails. *)
Definition algebraic_system (param : Param.t) (epsilon c_e phi_e : Symbol)
    (j_n j_p : Num) : result (Symbol * Symbol) :=
  let? j := MacInnesStefanMaxwell.interfacial_current_density j_n j_p in
  let? i_e := MacInnesStefanMaxwell.current_density param epsilon c_e phi_e in
  let? equation := MacInnesStefanMaxwell.residual i_e j in
  Ok (i_e, equation).

(* ===================================================================== *)
(** * 11. A sample package, for running the model on concrete input       *)
(* ===================================================================== *)

Module Sample.

Definition param : Param.t :=
  Param.mk
    (Parameter_ "Current function")
    (Parameter_ "Lower voltage cut-off")
    (Parameter_ "Potential scale")
    (Parameter_ "Reference OCP in negative electrode")
    (Parameter_ "Typical current density")
    (Concatenation [Broadcast (Parameter_ "Negative electrode porosity")
                      ["negative electrode"];
                    Broadcast (Parameter_ "Separator porosity") ["separator"];
                    Broadcast (Parameter_ "Positive electrode porosity")
                      ["positive electrode"]])
    (Parameter_ "Bruggeman coefficient")
    (Parameter_ "gamma_e")
    (Parameter_ "C_e")
    (Parameter_ "Initial concentration in negative electrode")
    (Parameter_ "Negative electrode width")
    (Parameter_ "Positive electrode width")
    (FunctionParameter "Electrolyte conductivity")
    (FunctionParameter "Thermodynamic factor")
    (FunctionParameter "Negative electrode OCP")
    (FunctionParameter "Positive electrode OCP").

Definition three_parts (quantity : string) : Symbol :=
  Concatenation [
    Variable_ ("Negative " ++ quantity) ["negative electrode"];
    Variable_ ("Separator " ++ quantity) ["separator"];
    Variable_ ("Positive " ++ quantity) ["positive electrode"]
  ].

Definition standard_variables : StandardVariables.t :=
  StandardVariables.mk
    (Variable_ "Negative particle concentration" ["negative particle"])
    (Variable_ "Positive particle concentration" ["positive particle"])
    (three_parts "electrolyte concentration")
    (three_parts "electrolyte potential")
    (Variable_ "Positive electrode potential" ["positive electrode"])
    (Variable_ "Negative electrode potential" ["negative electrode"])
    (three_parts "cell temperature")
    (Variable_ "Average cell temperature" []).

Definition standard_spatial_vars : SpatialVars.t :=
  SpatialVars.mk
    (SpatialVariable "x_n" ["negative electrode"])
    (SpatialVariable "x_s" ["separator"])
    (SpatialVariable "x_p" ["positive electrode"]).

Definition get_exchange_current_densities (p : Param.t) (c_e c_s_surf : Symbol)
  : result Symbol :=
  Ok (c_e * c_s_surf * (Scalar 1 - c_s_surf))%sym.

Definition get_butler_volmer (p : Param.t) (j0 eta_r : Symbol) : result Symbol :=
  Ok (Scalar 2 * j0 * eta_r)%sym.

Definition get_derived_interfacial_currents (p : Param.t)
    (j_n j_p j0_n j0_p : Symbol) : result (gmap string Symbol) :=
  Ok (dict_literal [
    ("Negative electrode interfacial current density", j_n);
    ("Positive electrode interfacial current density", j_p);
    ("Negative electrode exchange-current density", j0_n);
    ("Positive electrode exchange-current density", j0_p)
  ]).

(** A diffusion equation for [c] with the flux [j] at the right boundary. *)
Definition particle_set_differential_system (c j : Symbol) : M SubModel.t unit :=
  let N := (- Gradient c)%sym in
  modify (SubModel.set_rhs [(c, (- Divergence N)%sym)]) ;;;
  modify (SubModel.set_boundary_conditions
            [(N, dict_literal [("left", Int 0); ("right", Sym j)])]) ;;;
  modify (SubModel.set_initial_conditions
            [(c, Parameter_ "Initial particle concentration")]).

Definition electrolyte_diffusion_set_differential_system
    (variables : gmap string Symbol) (reactions : Reactions)
  : M SubModel.t unit :=
  let* c_e := lift (getitem variables "Electrolyte concentration") in
  let* j_n := lift (MacInnesStefanMaxwell.reaction_quantity reactions "main" "neg" "aj") in
  let* j_p := lift (MacInnesStefanMaxwell.reaction_quantity reactions "main" "pos" "aj") in
  let N_e := (- Gradient c_e)%sym in
  let source :=
    Concatenation [as_expression j_n; Broadcast (Scalar 0) ["separator"];
                   as_expression j_p] in
  modify (SubModel.set_rhs [(c_e, (- Divergence N_e + source)%sym)]) ;;;
  modify (SubModel.set_boundary_conditions
            [(N_e, dict_literal [("left", Int 0); ("right", Int 0)])]) ;;;
  modify (SubModel.set_initial_conditions [(c_e, Scalar 1)]).

(** Ohm's law in one electrode: a further entry of [algebraic] per call. *)
Definition electrode_set_algebraic_system (variables : gmap string Symbol)
    (reactions : Reactions) (domain : list string) : M SubModel.t unit :=
  let side :=
    if bool_decide (domain = ["negative electrode"]) then "Negative" else "Positive" in
  let* phi_s := lift (getitem variables (side ++ " electrode potential")) in
  let i_s := (- Gradient phi_s)%sym in
  modify (fun sm =>
    SubModel.set_algebraic
      (SubModel.algebraic sm ++ [(phi_s, Divergence i_s)])%list sm) ;;;
  modify (fun sm =>
    SubModel.set_initial_conditions
      (SubModel.initial_conditions sm ++ [(phi_s, Scalar 0)])%list sm).

Definition electrode_get_variables (phi_s_n phi_s_p i_s_n i_s_p : Symbol)
  : M SubModel.t (gmap string Symbol) :=
  ret (dict_literal [
    ("Terminal voltage", (Average phi_s_p - Average phi_s_n)%sym)
  ]).

Definition thermal_set_full_differential_system
    (variables : gmap string Symbol) (reactions : Reactions)
  : M SubModel.t unit :=
  let* T := lift (getitem variables "Cell temperature") in
  modify (SubModel.set_rhs [(T, Divergence (Gradient T))]) ;;;
  modify (SubModel.set_initial_conditions [(T, Scalar 0)]).

Definition thermal_set_x_lumped_differential_system
    (variables : gmap string Symbol) (reactions : Reactions)
  : M SubModel.t unit :=
  let* T_av := lift (getitem variables "Average cell temperature") in
  modify (SubModel.set_rhs [(T_av, (- T_av)%sym)]) ;;;
  modify (SubModel.set_initial_conditions [(T_av, Scalar 0)]).

Definition get_derived_open_circuit_potentials (p : Param.t)
    (ocp_n ocp_p : Symbol) : result (gmap string Symbol) :=
  Ok (dict_literal [
    ("Average negative electrode open circuit potential", Average ocp_n);
    ("Average positive electrode open circuit potential", Average ocp_p)
  ]).

Definition get_derived_reaction_overpotentials (p : Param.t)
    (eta_r_n eta_r_p : Symbol) : result (gmap string Symbol) :=
  Ok (dict_literal [
    ("Average negative reaction overpotential", Average eta_r_n);
    ("Average positive reaction overpotential", Average eta_r_p)
  ]).

Definition lib : Lib.t :=
  Lib.mk param standard_variables standard_spatial_vars
    get_exchange_current_densities get_butler_volmer
    get_derived_interfacial_currents
    particle_set_differential_system
    electrolyte_diffusion_set_differential_system
    electrode_set_algebraic_system electrode_get_variables
    thermal_set_full_differential_system
    thermal_set_x_lumped_differential_system
    get_derived_open_circuit_potentials
    get_derived_reaction_overpotentials.

Definition thermal_off : gmap string string := {["thermal" := "off"]}.
Definition thermal_lumped : gmap string string := {["thermal" := "lumped"]}.

Definition submodel : SubModel.t := SubModel.init param.

End Sample.

(* ===================================================================== *)
(** * 11a. Further definitions                                            *)
(* ===================================================================== *)


(** The number of nodes of an expression. *)
Fixpoint Symbol_size (s : Symbol) : nat :=
  match s with
  | Scalar _ | Variable_ _ _ | SpatialVariable _ _ | Parameter_ _ => 1
  | FunctionParameter _ c | Negate c | Gradient c | Divergence c | Average c
  | SurfaceValue c _ | Broadcast c _ => S (Symbol_size c)
  | Binary _ l r => S (Symbol_size l + Symbol_size r)
  | Concatenation children => S (list_sum (map Symbol_size children))
  end.

(** The flux [i_e] of lines 124-126, for a porosity [eps]. *)
Definition MacInnes_flux (param : Param.t) (eps c_e phi_e : Symbol) : Symbol :=
  ((Param.kappa_e param c_e * (eps ** Param.b param)
      * Param.gamma_e param / Param.C_e param)
   * (Param.chi param c_e * Gradient c_e / c_e - Gradient phi_e))%sym.

(** The stage of the instance bound to [x] in its life: not yet created,
    created and populated by [calls] calls so far, merged after [calls]
    calls, or out of order (populated or merged before it was created,
    created twice, populated or merged after its merge). *)
Inductive Stage : Type :=
| NotCreated
| Open (calls : nat)
| Closed (calls : nat)
| OutOfOrder.

Definition lifecycle_step (x : string) (s : Stage) (l : Label) : Stage :=
  match l with
  | Create y _ =>
      if String.eqb x y
      then match s with NotCreated => Open 0 | _ => OutOfOrder end
      else s
  | Populate y _ =>
      if String.eqb x y
      then match s with Open n => Open (S n) | _ => OutOfOrder end
      else s
  | Merge y =>
      if String.eqb x y
      then match s with Open n => Closed n | _ => OutOfOrder end
      else s
  | Plain => s
  end.

Definition lifecycle (x : string) (labels : list Label) : Stage :=
  foldl (lifecycle_step x) NotCreated labels.

(** ** [set_model_variables] and the block of lines 14-33 *)

(** The keys of the dictionary display of lines 133-146. *)
Definition model_variable_names : list string := [
  "Electrolyte concentration";
  "Negative particle concentration";
  "Positive particle concentration";
  "Electrolyte potential";
  "Negative electrode potential";
  "Positive electrode potential";
  "Negative electrode surface potential difference";
  "Positive electrode surface potential difference";
  "Negative electrode open circuit potential";
  "Positive electrode open circuit potential";
  "Negative reaction overpotential";
  "Positive reaction overpotential"
].

Definition model_variables_literal (param : Param.t) (sv : StandardVariables.t)
  (phi_e_0 phi_e_2 : Symbol) : gmap string Symbol :=
  let c_s_n := StandardVariables.c_s_n sv in
  let c_s_p := StandardVariables.c_s_p sv in
  let delta_phi_n := (StandardVariables.phi_s_n sv - phi_e_0)%sym in
  let delta_phi_p := (StandardVariables.phi_s_p sv - phi_e_2)%sym in
  let ocp_n := Param.U_n param (SurfaceValue c_s_n true) in
  let ocp_p := Param.U_p param (SurfaceValue c_s_p true) in
  dict_literal [
    ("Electrolyte concentration", StandardVariables.c_e sv);
    ("Negative particle concentration", c_s_n);
    ("Positive particle concentration", c_s_p);
    ("Electrolyte potential", StandardVariables.phi_e sv);
    ("Negative electrode potential", StandardVariables.phi_s_n sv);
    ("Positive electrode potential", StandardVariables.phi_s_p sv);
    ("Negative electrode surface potential difference", delta_phi_n);
    ("Positive electrode surface potential difference", delta_phi_p);
    ("Negative electrode open circuit potential", ocp_n);
    ("Positive electrode open circuit potential", ocp_p);
    ("Negative reaction overpotential", (delta_phi_n - ocp_n)%sym);
    ("Positive reaction overpotential", (delta_phi_p - ocp_p)%sym)
  ].

Definition thermal_variables (sv : StandardVariables.t) (thermal : string)
  (variables : gmap string Symbol) : gmap string Symbol :=
  let v := if String.eqb thermal "full"
           then dict_update variables
                  (dict_literal [("Cell temperature", StandardVariables.T sv)])
           else variables in
  if String.eqb thermal "lumped"
  then dict_update v
         (dict_literal [("Average cell temperature", StandardVariables.T_av sv)])
  else v.

Definition with_standard_variables (sv : StandardVariables.t) (g : Lib.t)
  : Lib.t :=
  Lib.mk (Lib.standard_parameters_lithium_ion g) sv
    (Lib.standard_spatial_vars g)
    (Lib.get_exchange_current_densities g) (Lib.get_butler_volmer g)
    (Lib.get_derived_interfacial_currents g)
    (Lib.particle_set_differential_system g)
    (Lib.electrolyte_diffusion_set_differential_system g)
    (Lib.electrode_set_algebraic_system g) (Lib.electrode_get_variables g)
    (Lib.thermal_set_full_differential_system g)
    (Lib.thermal_set_x_lumped_differential_system g)
    (Lib.get_derived_open_circuit_potentials g)
    (Lib.get_derived_reaction_overpotentials g).

(** The variables the block of lines 14-33 leaves in [self.variables]. *)
Definition block_variables (st : Frame.t) (thermal : string) (p0 p2 : Symbol)
  : gmap string Symbol :=
  let g := Frame.globals st in
  thermal_variables (Lib.standard_variables g) thermal
    (dict_update
       (<["Current collector current density" :=
            Param.current_with_time (Lib.standard_parameters_lithium_ion g)]>
          (Model.variables (Frame.self st)))
       (model_variables_literal (Lib.standard_parameters_lithium_ion g)
          (Lib.standard_variables g) p0 p2)).

(** ** Quantities of the model under construction *)

(** The equations of a model: the four equation fields. *)
Definition Model_equations (m : Model.t)
  : dict Symbol * dict Symbol * dict (gmap string Num) * dict Symbol :=
  (Model.rhs m, Model.algebraic m, Model.boundary_conditions m,
   Model.initial_conditions m).

(** The quantity [f] of the model under construction is [a]. *)
Definition self_has {A} (f : Model.t -> A) (a : A) (st : Frame.t) : Prop :=
  f (Frame.self st) = a.

(** A quantity of the model that [self.name] and [self.variables] do not
    enter: assignments to them leave it as it was. *)
Definition ignores_name_and_variables {A} (f : Model.t -> A) : Prop :=
  (forall v m, f (Model.set_name v m) = f m)
  /\ (forall v m, f (Model.set_variables v m) = f m).

(** ** Further sample input *)

(** A frame as a run on the sample package has it between two blocks,
    with short expressions for the local names, and standard variables
    with another number of parts. *)
Module SampleFrames.

Definition j_n : Symbol := Variable_ "j_n" ["negative electrode"].
Definition j_p : Symbol := Variable_ "j_p" ["positive electrode"].

Definition variables : gmap string Symbol :=
  dict_literal [
    ("Negative electrode potential",
     StandardVariables.phi_s_n Sample.standard_variables);
    ("Positive electrode potential",
     StandardVariables.phi_s_p Sample.standard_variables);
    ("Negative electrode current density",
     Variable_ "i_s_n" ["negative electrode"]);
    ("Positive electrode current density",
     Variable_ "i_s_p" ["positive electrode"])
  ].

Definition locals : gmap string PyVal :=
  dict_literal [
    ("c_s_n", VSymbol (StandardVariables.c_s_n Sample.standard_variables));
    ("c_s_p", VSymbol (StandardVariables.c_s_p Sample.standard_variables));
    ("ocp_n", VSymbol (Variable_ "ocp_n" ["negative electrode"]));
    ("ocp_p", VSymbol (Variable_ "ocp_p" ["positive electrode"]));
    ("eta_r_n", VSymbol (Variable_ "eta_r_n" ["negative electrode"]));
    ("eta_r_p", VSymbol (Variable_ "eta_r_p" ["positive electrode"]));
    ("int_curr_model", VHelper "interface.LithiumIonReaction" Sample.param);
    ("j0_n", VSymbol (Variable_ "j0_n" ["negative electrode"]));
    ("j0_p", VSymbol (Variable_ "j0_p" ["positive electrode"]));
    ("j_n", VSymbol j_n);
    ("j_p", VSymbol j_p);
    ("reactions", VReactions (DFN.reactions_literal j_n j_p));
    ("electrode_current_model", VSubModel (SubModel.init Sample.param))
  ].

Definition mid_run : Frame.t :=
  Frame.mk Sample.lib
    (Model.set_variables variables (Model.init Sample.thermal_off)) locals.

Definition two_part_potential : StandardVariables.t :=
  StandardVariables.mk
    (StandardVariables.c_s_n Sample.standard_variables)
    (StandardVariables.c_s_p Sample.standard_variables)
    (StandardVariables.c_e Sample.standard_variables)
    (Concatenation [
       Variable_ "Negative electrolyte potential" ["negative electrode"];
       Variable_ "Separator electrolyte potential" ["separator"]])
    (StandardVariables.phi_s_p Sample.standard_variables)
    (StandardVariables.phi_s_n Sample.standard_variables)
    (StandardVariables.T Sample.standard_variables)
    (StandardVariables.T_av Sample.standard_variables).

Definition two_part_concentration : StandardVariables.t :=
  StandardVariables.mk
    (StandardVariables.c_s_n Sample.standard_variables)
    (StandardVariables.c_s_p Sample.standard_variables)
    (Concatenation [
       Variable_ "Negative electrolyte concentration" ["negative electrode"];
       Variable_ "Separator electrolyte concentration" ["separator"]])
    (StandardVariables.phi_e Sample.standard_variables)
    (StandardVariables.phi_s_p Sample.standard_variables)
    (StandardVariables.phi_s_n Sample.standard_variables)
    (StandardVariables.T Sample.standard_variables)
    (StandardVariables.T_av Sample.standard_variables).

End SampleFrames.


(* ===================================================================== *)
(** * Theorems                                                            *)
(* ===================================================================== *)

(* ===================================================================== *)
(** * 12. Structural equality of expressions                              *)
(* ===================================================================== *)

Section SymbolInduction.
Variable P : Symbol -> Prop.
Hypothesis HScalar : forall v, P (Scalar v).
Hypothesis HVariable : forall n d, P (Variable_ n d).
Hypothesis HSpatial : forall n d, P (SpatialVariable n d).
Hypothesis HParameter : forall n, P (Parameter_ n).
Hypothesis HFunction : forall n c, P c -> P (FunctionParameter n c).
Hypothesis HNegate : forall c, P c -> P (Negate c).
Hypothesis HBinary : forall op l r, P l -> P r -> P (Binary op l r).
Hypothesis HGradient : forall c, P c -> P (Gradient c).
Hypothesis HDivergence : forall c, P c -> P (Divergence c).
Hypothesis HAverage : forall c, P c -> P (Average c).
Hypothesis HSurface : forall c b, P c -> P (SurfaceValue c b).
Hypothesis HBroadcast : forall c d, P c -> P (Broadcast c d).
Hypothesis HConcatenation :
  forall children, Forall P children -> P (Concatenation children).

(** Induction over expressions, with the hypothesis for every child of a
    concatenation. *)
Lemma Symbol_nested_ind : forall s, P s.
Proof.
  fix IH 1. intros [v|n d|n d|n|n c|c|op l r|c|c|c|c b|c d|children].
  - apply HScalar.
  - apply HVariable.
  - apply HSpatial.
  - apply HParameter.
  - apply HFunction, IH.
  - apply HNegate, IH.
  - apply HBinary; apply IH.
  - apply HGradient, IH.
  - apply HDivergence, IH.
  - apply HAverage, IH.
  - apply HSurface, IH.
  - apply HBroadcast, IH.
  - apply HConcatenation.
    refine ((fix children_ok (l : list Symbol) : Forall P l :=
               match l with
               | [] => @List.Forall_nil _ P
               | c :: l' => @List.Forall_cons _ P c l' (IH c) (children_ok l')
               end) children).
Qed.
End SymbolInduction.

Lemma BinaryOperator_eqb_eq o1 o2 : BinaryOperator_eqb o1 o2 = true <-> o1 = o2.
Proof. destruct o1, o2; simpl; split; congruence. Qed.

Lemma domain_eqb_eq d1 d2 : domain_eqb d1 d2 = true <-> d1 = d2.
Proof. unfold domain_eqb. rewrite bool_decide_eq_true. reflexivity. Qed.

(** [Symbol_eqb] decides equality of expressions: two keys of a dictionary
    are the same key exactly when they are the same tree. *)
Lemma Symbol_eqb_eq : forall s1 s2, Symbol_eqb s1 s2 = true <-> s1 = s2.
Proof.
  induction s1 using Symbol_nested_ind; intros s2; destruct s2; simpl;
    try (split; [discriminate | congruence]);
    rewrite ?andb_true_iff, ?String.eqb_eq, ?Z.eqb_eq, ?domain_eqb_eq,
      ?BinaryOperator_eqb_eq, ?Bool.eqb_true_iff.
  - split; congruence.
  - split; [intros [-> ->]; reflexivity | intros [= -> ->]; auto].
  - split; [intros [-> ->]; reflexivity | intros [= -> ->]; auto].
  - split; congruence.
  - rewrite IHs1. split; [intros [-> ->]; reflexivity | intros [= -> ->]; auto].
  - rewrite IHs1. split; congruence.
  - rewrite IHs1_1, IHs1_2.
    split; [intros [[-> ->] ->]; reflexivity | intros [= -> -> ->]; auto].
  - rewrite IHs1. split; congruence.
  - rewrite IHs1. split; congruence.
  - rewrite IHs1. split; congruence.
  - rewrite IHs1. split; [intros [-> ->]; reflexivity | intros [= -> ->]; auto].
  - rewrite IHs1. split; [intros [-> ->]; reflexivity | intros [= -> ->]; auto].
  - rename children0 into l2. revert l2.
    induction H as [|x l1 Hx Hl1 IHl]; intros [|y l2]; simpl;
      try (split; [discriminate | congruence]).
    + split; reflexivity.
    + rewrite andb_true_iff, Hx, IHl.
      split; [intros [-> [= ->]]; reflexivity | intros [= -> ->]; auto].
Qed.

Lemma dict_contains_elem_of {V} (d : dict V) (k : Symbol) :
  dict_contains d k = true <-> k ∈ dict_keys d.
Proof.
  unfold dict_contains. rewrite existsb_exists. split.
  - intros (x & Hin & Heq). apply Symbol_eqb_eq in Heq. subst x.
    apply list_elem_of_In. exact Hin.
  - intros Hin. exists k. split.
    + apply list_elem_of_In. exact Hin.
    + apply Symbol_eqb_eq. reflexivity.
Qed.

(* ===================================================================== *)
(** * 13. Concatenation and [orphans]                                     *)
(* ===================================================================== *)

Lemma part_rank_of_domain (s : Symbol) (d : string) (n : nat) :
  domain s = [d] -> domain_position d = Some n -> part_rank s = n.
Proof. intros Hs Hd. unfold part_rank. rewrite Hs, Hd. reflexivity. Qed.

Lemma canonical_parts_three (a b c : Symbol) :
  part_rank a = 0%nat -> part_rank b = 1%nat -> part_rank c = 2%nat ->
  canonical_parts [a; b; c] = [a; b; c].
Proof.
  intros Ha Hb Hc. unfold canonical_parts. simpl.
  rewrite Hb, Hc. simpl. rewrite Ha, Hb. reflexivity.
Qed.

Lemma canonical_parts_length (parts : list Symbol) :
  length (canonical_parts parts) = length parts.
Proof.
  assert (Hins : forall s l, length (insert_by_rank s l) = S (length l)).
  { intros s l. induction l as [|x l IH]; simpl; [reflexivity|].
    destruct (part_rank s <=? part_rank x)%nat; simpl; [reflexivity|].
    rewrite IH. reflexivity. }
  unfold canonical_parts.
  induction parts as [|s parts IH]; simpl; [reflexivity|].
  rewrite Hins, IH. reflexivity.
Qed.

(** C5.  For expressions [a], [b], [c] over the negative electrode, the
    separator and the positive electrode, the concatenation of the three is
    accepted, and its [orphans] are exactly [a], [b], [c]: the children
    come back unchanged, in canonical order, each with its domain. *)
Theorem Concatenation_orphans_round_trip (a b c : Symbol) :
  domain a = ["negative electrode"] ->
  domain b = ["separator"] ->
  domain c = ["positive electrode"] ->
  exists s,
    new_Concatenation [a; b; c] = Ok s
    /\ orphans s = [a; b; c]
    /\ map domain (orphans s)
       = [["negative electrode"]; ["separator"]; ["positive electrode"]].
Proof.
  intros Ha Hb Hc. exists (Concatenation [a; b; c]).
  assert (Horphans : orphans (Concatenation [a; b; c]) = [a; b; c]).
  { unfold orphans. apply canonical_parts_three.
    - apply (part_rank_of_domain a "negative electrode"); [exact Ha | reflexivity].
    - apply (part_rank_of_domain b "separator"); [exact Hb | reflexivity].
    - apply (part_rank_of_domain c "positive electrode"); [exact Hc | reflexivity]. }
  split; [|split].
  - unfold new_Concatenation, Concatenation_domains_ok. simpl map. simpl concat.
    rewrite Ha, Hb, Hc. reflexivity.
  - exact Horphans.
  - rewrite Horphans. simpl. rewrite Ha, Hb, Hc. reflexivity.
Qed.

Lemma Concatenation_orphans_round_trip_witness :
  exists s,
    new_Concatenation
      [Broadcast (Scalar 1) ["negative electrode"];
       Variable_ "Separator electrolyte potential" ["separator"];
       (Scalar 2 * Variable_ "Positive electrolyte potential" ["positive electrode"])%sym]
    = Ok s
    /\ orphans s
       = [Broadcast (Scalar 1) ["negative electrode"];
          Variable_ "Separator electrolyte potential" ["separator"];
          (Scalar 2 * Variable_ "Positive electrolyte potential" ["positive electrode"])%sym]
    /\ map domain (orphans s)
       = [["negative electrode"]; ["separator"]; ["positive electrode"]].
Proof.
  apply (Concatenation_orphans_round_trip
           (Broadcast (Scalar 1) ["negative electrode"])
           (Variable_ "Separator electrolyte potential" ["separator"])
           (Scalar 2 * Variable_ "Positive electrolyte potential" ["positive electrode"])%sym);
    reflexivity.
Defined.

(** The three broadcasts of lines 176-178 are such parts, whatever the
    constant that is broadcast. *)
Lemma broadcast_parts_orphans (k : Symbol) :
  orphans (Concatenation [Broadcast k ["negative electrode"];
                          Broadcast k ["separator"];
                          Broadcast k ["positive electrode"]])
  = [Broadcast k ["negative electrode"]; Broadcast k ["separator"];
     Broadcast k ["positive electrode"]].
Proof.
  unfold orphans. apply canonical_parts_three.
  - apply (part_rank_of_domain _ "negative electrode"); reflexivity.
  - apply (part_rank_of_domain _ "separator"); reflexivity.
  - apply (part_rank_of_domain _ "positive electrode"); reflexivity.
Qed.

(* ===================================================================== *)
(** * 13a. The checks of the expression library                           *)
(* ===================================================================== *)

(** A fallible value that, when it fails, fails with [DomainError]. *)
Lemma and_then_Ok {A B} (r : result A) (k : A -> result B) (b : B) :
  and_then r k = Ok b -> exists a, r = Ok a /\ k a = Ok b.
Proof. destruct r as [a|e]; [|discriminate]. intros H. exists a. auto. Qed.

Lemma raises_only_and_then {A B} (P : Exception -> Prop)
    (r : result A) (k : A -> result B) :
  raises_only P r -> (forall a, raises_only P (k a)) ->
  raises_only P (and_then r k).
Proof. destruct r as [a|e]; simpl; [intros _ Hk; apply Hk | auto]. Qed.

Lemma binary_Ok (op : BinaryOperator) (l r s : Symbol) :
  binary op l r = Ok s ->
  s = Binary op l r /\ domains_compatible (domain l) (domain r) = true.
Proof.
  unfold binary. destruct (domains_compatible _ _); [|discriminate].
  intros [= <-]. split; reflexivity.
Qed.

Lemma binary_compatible (op : BinaryOperator) (l r : Symbol) :
  domains_compatible (domain l) (domain r) = true ->
  binary op l r = Ok (Binary op l r).
Proof. unfold binary. intros ->. reflexivity. Qed.

Lemma binary_raises (op : BinaryOperator) (l r : Symbol) :
  raises_only is_DomainError (binary op l r).
Proof.
  unfold binary. destruct (domains_compatible _ _); simpl; [exact I|].
  eexists. reflexivity.
Qed.

Lemma grad_Ok (s g : Symbol) :
  grad s = Ok g -> g = Gradient s /\ spatial_domain_ok (domain s) = true.
Proof.
  unfold grad. destruct (spatial_domain_ok _); [|discriminate].
  intros [= <-]. split; reflexivity.
Qed.

Lemma grad_raises (s : Symbol) : raises_only is_DomainError (grad s).
Proof.
  unfold grad. destruct (spatial_domain_ok _); simpl; [exact I|].
  eexists. reflexivity.
Qed.

Lemma div_Ok (s d : Symbol) :
  div s = Ok d -> d = Divergence s /\ spatial_domain_ok (domain s) = true.
Proof.
  unfold div. destruct (spatial_domain_ok _); [|discriminate].
  intros [= <-]. split; reflexivity.
Qed.

Lemma div_raises (s : Symbol) : raises_only is_DomainError (div s).
Proof.
  unfold div. destruct (spatial_domain_ok _); simpl; [exact I|].
  eexists. reflexivity.
Qed.

Lemma new_Broadcast_Ok (value : Symbol) (d : list string) (s : Symbol) :
  new_Broadcast value d = Ok s -> s = Broadcast value d /\ domain value = [].
Proof.
  unfold new_Broadcast. case_bool_decide as Hd; [|discriminate].
  intros [= <-]. split; [reflexivity | exact Hd].
Qed.

Lemma new_Broadcast_domainless (value : Symbol) (d : list string) :
  domain value = [] -> new_Broadcast value d = Ok (Broadcast value d).
Proof. unfold new_Broadcast. intros ->. reflexivity. Qed.

Lemma new_Broadcast_raises (value : Symbol) (d : list string) :
  raises_only is_DomainError (new_Broadcast value d).
Proof.
  unfold new_Broadcast. case_bool_decide; simpl; [exact I|].
  eexists. reflexivity.
Qed.

Lemma new_Concatenation_Ok (parts : list Symbol) (s : Symbol) :
  new_Concatenation parts = Ok s ->
  s = Concatenation parts /\ Concatenation_domains_ok parts = true.
Proof.
  unfold new_Concatenation. destruct (Concatenation_domains_ok _); [|discriminate].
  intros [= <-]. split; reflexivity.
Qed.

Lemma new_Concatenation_raises (parts : list Symbol) :
  raises_only is_DomainError (new_Concatenation parts).
Proof.
  unfold new_Concatenation. destruct (Concatenation_domains_ok _); simpl;
    [exact I|]. eexists. reflexivity.
Qed.

(** The domain of an arithmetic node is empty when both operands are
    domain-less, and only then. *)
Lemma domain_Binary_nil (op : BinaryOperator) (l r : Symbol) :
  domain (Binary op l r) = [] <-> domain l = [] /\ domain r = [].
Proof.
  cbn [domain]. destruct (domain l) as [|d ds].
  - split; [intros ->; split; reflexivity | intros [_ H]; exact H].
  - split; [discriminate | intros [H _]; discriminate H].
Qed.

(* ===================================================================== *)
(** * 14. [get_variables] and the explicit leading-order solution         *)
(* ===================================================================== *)

Import ElectrolyteCurrentBaseModel MacInnesStefanMaxwell.

(** What [get_variables] returns when [phi_e] has three parts. *)
Lemma get_variables_three_parts (self : SubModel.t)
    (phi_e i_e eta_e_av phi_e_n phi_e_s phi_e_p : Symbol) :
  orphans phi_e = [phi_e_n; phi_e_s; phi_e_p] ->
  get_variables phi_e i_e eta_e_av self
  = (self,
     Ok (let param := SubModel.set_of_parameters self in
         let pot_scale := Param.potential_scale param in
         dict_literal [
           ("Negative electrolyte potential", phi_e_n);
           ("Separator electrolyte potential", phi_e_s);
           ("Positive electrolyte potential", phi_e_p);
           ("Electrolyte potential", phi_e);
           ("Electrolyte current density", i_e);
           ("Average electrolyte overpotential", eta_e_av);
           ("Negative electrolyte potential [V]",
              (- Param.U_n_ref param + pot_scale * phi_e_n)%sym);
           ("Separator electrolyte potential [V]",
              (- Param.U_n_ref param + pot_scale * phi_e_s)%sym);
           ("Positive electrolyte potential [V]",
              (- Param.U_n_ref param + pot_scale * phi_e_p)%sym);
           ("Electrolyte potential [V]",
              (- Param.U_n_ref param + pot_scale * phi_e)%sym);
           ("Electrolyte current density [A m-2]", (Param.i_typ param * i_e)%sym);
           ("Average electrolyte overpotential [V]", (pot_scale * eta_e_av)%sym)
         ])).
Proof.
  intros Horphans. unfold get_variables, bind, gets, lift, ret.
  rewrite Horphans. reflexivity.
Qed.

(** What [get_variables] does when [phi_e] does not have three parts: the
    unpacking at line 50 raises. *)
Lemma get_variables_other_parts (self : SubModel.t) (phi_e i_e eta_e_av : Symbol) :
  length (orphans phi_e) <> 3%nat ->
  exists msg, get_variables phi_e i_e eta_e_av self = (self, Raise (ValueError msg)).
Proof.
  intros Hlen. unfold get_variables, bind, gets, lift, ret.
  destruct (orphans phi_e) as [|a [|b [|c [|d l]]]]; simpl in *;
    try (eexists; reflexivity).
  contradiction Hlen. reflexivity.
Qed.

(** [get_variables] never assigns to [self]. *)
Lemma get_variables_frame (self : SubModel.t) (phi_e i_e eta_e_av : Symbol) :
  fst (get_variables phi_e i_e eta_e_av self) = self.
Proof.
  unfold get_variables, bind, gets, lift, ret.
  destruct (unpack3 (orphans phi_e)) as [[[a b] c]|e]; reflexivity.
Qed.

(** C7, as the code has it.  [get_variables] leaves every field of the
    submodel unchanged, whatever its arguments, and a second call with the
    same arguments has the same outcome as the first; it returns the
    name-to-expression mapping when [phi_e] has exactly three parts, and
    raises [ValueError] from the unpacking of [phi_e.orphans]
    otherwise. *)
Theorem get_variables_pure (self : SubModel.t) (phi_e i_e eta_e_av : Symbol) :
  fst (get_variables phi_e i_e eta_e_av self) = self
  /\ get_variables phi_e i_e eta_e_av (fst (get_variables phi_e i_e eta_e_av self))
     = get_variables phi_e i_e eta_e_av self
  /\ (forall a b c, orphans phi_e = [a; b; c] ->
        exists d : gmap string Symbol,
          snd (get_variables phi_e i_e eta_e_av self) = Ok d
          /\ d !! "Electrolyte potential" = Some phi_e
          /\ d !! "Negative electrolyte potential" = Some a
          /\ d !! "Separator electrolyte potential" = Some b
          /\ d !! "Positive electrolyte potential" = Some c
          /\ d !! "Electrolyte current density" = Some i_e
          /\ d !! "Average electrolyte overpotential" = Some eta_e_av
          /\ size d = 12%nat)
  /\ (length (orphans phi_e) <> 3%nat ->
        exists msg,
          snd (get_variables phi_e i_e eta_e_av self) = Raise (ValueError msg)).
Proof.
  split; [|split; [|split]].
  - apply get_variables_frame.
  - rewrite get_variables_frame. reflexivity.
  - intros a b c Horphans.
    rewrite (get_variables_three_parts self phi_e i_e eta_e_av a b c Horphans).
    eexists. split; [reflexivity|].
    repeat split; vm_compute; reflexivity.
  - intros Hlen.
    destruct (get_variables_other_parts self phi_e i_e eta_e_av Hlen) as [msg Hmsg].
    exists msg. rewrite Hmsg. reflexivity.
Qed.

(** C7, as the claim states it, fails: with a [phi_e] of two parts (a
    negative-electrode and a separator part) [get_variables] returns no
    mapping. *)
Lemma get_variables_two_parts_raises :
  let phi_e :=
    Concatenation [Variable_ "Negative electrolyte potential" ["negative electrode"];
                   Variable_ "Separator electrolyte potential" ["separator"]] in
  new_Concatenation
    [Variable_ "Negative electrolyte potential" ["negative electrode"];
     Variable_ "Separator electrolyte potential" ["separator"]] = Ok phi_e
  /\ snd (get_variables phi_e (Scalar 0) (Scalar 0) Sample.submodel)
     = Raise (ValueError "not enough values to unpack (expected 3)")
  /\ ~ (exists d, snd (get_variables phi_e (Scalar 0) (Scalar 0) Sample.submodel)
                  = Ok d).
Proof.
  split; [reflexivity|]. split; [reflexivity|].
  intros [d Hd]. vm_compute in Hd. discriminate Hd.
Qed.

(** ** The explicit leading-order solution *)

(** The potential of lines 173-177 is built when [ocp_n] and [eta_r_n]
    are domain-less, and only then; it is the concatenation of the three
    broadcasts. *)
Lemma leading_order_potential_domainless (ocp_n eta_r_n : Symbol) :
  domain ocp_n = [] -> domain eta_r_n = [] ->
  leading_order_potential ocp_n eta_r_n
  = Ok (Concatenation
          [Broadcast (- ocp_n - eta_r_n)%sym ["negative electrode"];
           Broadcast (- ocp_n - eta_r_n)%sym ["separator"];
           Broadcast (- ocp_n - eta_r_n)%sym ["positive electrode"]]).
Proof.
  intros Hocp Heta. unfold leading_order_potential.
  rewrite binary_compatible
    by (unfold domains_compatible; cbn [domain]; rewrite Hocp; reflexivity).
  cbn [and_then].
  assert (Hconst : domain (- ocp_n - eta_r_n)%sym = [])
    by (apply domain_Binary_nil; split; assumption).
  rewrite !new_Broadcast_domainless by exact Hconst. cbn [and_then].
  reflexivity.
Qed.

Lemma leading_order_potential_Ok (ocp_n eta_r_n phi_e : Symbol) :
  leading_order_potential ocp_n eta_r_n = Ok phi_e ->
  domain ocp_n = [] /\ domain eta_r_n = []
  /\ phi_e = Concatenation
               [Broadcast (- ocp_n - eta_r_n)%sym ["negative electrode"];
                Broadcast (- ocp_n - eta_r_n)%sym ["separator"];
                Broadcast (- ocp_n - eta_r_n)%sym ["positive electrode"]].
Proof.
  unfold leading_order_potential. intros H.
  apply and_then_Ok in H as (c & Hc & H).
  apply binary_Ok in Hc as [-> _].
  apply and_then_Ok in H as (p_n & Hn & H).
  apply new_Broadcast_Ok in Hn as [-> Hdom].
  apply domain_Binary_nil in Hdom as [Hocp Heta].
  assert (Hconst : domain (- ocp_n - eta_r_n)%sym = [])
    by (apply domain_Binary_nil; split; assumption).
  rewrite !new_Broadcast_domainless in H by exact Hconst. cbn [and_then] in H.
  apply new_Concatenation_Ok in H as [-> _].
  split; [exact Hocp|]. split; [exact Heta | reflexivity].
Qed.

Lemma leading_order_potential_raises (ocp_n eta_r_n : Symbol) :
  raises_only is_DomainError (leading_order_potential ocp_n eta_r_n).
Proof.
  unfold leading_order_potential.
  repeat first [ apply raises_only_and_then; [|intros ?]
               | apply binary_raises | apply new_Broadcast_raises
               | apply new_Concatenation_raises ].
Qed.

Lemma leading_order_current_raises (sv : SpatialVars.t) (param : Param.t) :
  raises_only is_DomainError (leading_order_current sv param).
Proof.
  unfold leading_order_current. cbv zeta.
  repeat first [ apply raises_only_and_then; [|intros ?]
               | apply binary_raises | apply new_Broadcast_raises
               | apply new_Concatenation_raises ].
Qed.

(** What the method does, by what the two constructions give. *)
Lemma get_explicit_leading_order_run (sv : SpatialVars.t)
    (self : SubModel.t) (ocp_n eta_r_n : Symbol) :
  get_explicit_leading_order sv ocp_n eta_r_n self
  = match leading_order_potential ocp_n eta_r_n with
    | Raise e => (self, Raise e)
    | Ok phi_e =>
        match leading_order_current sv (SubModel.set_of_parameters self) with
        | Raise e => (self, Raise e)
        | Ok i_e =>
            match get_variables phi_e i_e (Scalar 0 + Scalar 0)%sym self,
                  get_split_electrolyte_overpotential (Scalar 0) (Scalar 0) self
            with
            | (_, Ok variables), (_, Ok additional_vars) =>
                (self, Ok (dict_update variables additional_vars))
            | (_, Raise e), _ | _, (_, Raise e) => (self, Raise e)
            end
        end
    end.
Proof.
  unfold get_explicit_leading_order.
  unfold bind at 1. unfold gets at 1.
  unfold bind at 1. unfold lift at 1.
  destruct (leading_order_potential ocp_n eta_r_n) as [phi_e|e]; [|reflexivity].
  unfold bind at 1. unfold lift at 1.
  destruct (leading_order_current sv _) as [i_e|e]; [|reflexivity].
  cbv zeta. unfold bind at 1. unfold lift at 1.
  change (binary Addition (Scalar 0) (Scalar 0)) with (Ok (Scalar 0 + Scalar 0)%sym).
  cbv beta iota.
  unfold bind at 1.
  pose proof (get_variables_frame self phi_e i_e (Scalar 0 + Scalar 0)%sym) as Hframe.
  destruct (get_variables phi_e i_e (Scalar 0 + Scalar 0)%sym self)
    as [self' [variables|e]]; cbn [fst] in Hframe; subst self'; [|reflexivity].
  unfold get_split_electrolyte_overpotential, bind, gets, ret.
  reflexivity.
Qed.

(** C10, as the code has it.  [get_explicit_leading_order] never changes
    the submodel.  It returns exactly when [ocp_n] and [eta_r_n] are
    domain-less and the current density of lines 180-183 is built from
    the parameters and the spatial variables of the package.  Whenever it
    returns, the mapping has the scalar zero for the average electrolyte
    ohmic losses and for the average concentration overpotential, and
    their sum, whose value is zero, for the average electrolyte
    overpotential.  Otherwise it raises [DomainError]. *)
Theorem leading_order_overpotential_is_zero (sv : SpatialVars.t)
    (self : SubModel.t) (ocp_n eta_r_n : Symbol) :
  let out := get_explicit_leading_order sv ocp_n eta_r_n self in
  fst out = self
  /\ ((exists variables, snd out = Ok variables)
      <-> domain ocp_n = [] /\ domain eta_r_n = []
          /\ exists i_e,
               leading_order_current sv (SubModel.set_of_parameters self)
               = Ok i_e)
  /\ match snd out with
     | Ok variables =>
         variables !! "Average electrolyte ohmic losses" = Some (Scalar 0)
         /\ variables !! "Average concentration overpotential" = Some (Scalar 0)
         /\ variables !! "Average electrolyte overpotential"
            = Some (Scalar 0 + Scalar 0)%sym
         /\ scalar_value (Scalar 0 + Scalar 0)%sym = Some 0
     | Raise e => is_DomainError e
     end.
Proof.
  intros out. subst out. rewrite get_explicit_leading_order_run.
  pose proof (leading_order_potential_raises ocp_n eta_r_n) as Hphi.
  pose proof (leading_order_current_raises sv (SubModel.set_of_parameters self))
    as Hcur.
  destruct (leading_order_potential ocp_n eta_r_n) as [phi_e|e] eqn:Hpot.
  - apply leading_order_potential_Ok in Hpot as (Hocp & Heta & ->).
    destruct (leading_order_current sv _) as [i_e|e].
    + rewrite (get_variables_three_parts self _ i_e (Scalar 0 + Scalar 0)%sym
                 _ _ _ (broadcast_parts_orphans (- ocp_n - eta_r_n)%sym)).
      unfold get_split_electrolyte_overpotential, bind, gets, ret.
      cbn [fst snd]. split; [reflexivity|]. split.
      * split; [intros _|intros _; eexists; reflexivity].
        split; [exact Hocp|]. split; [exact Heta|]. exists i_e. reflexivity.
      * repeat split; vm_compute; reflexivity.
    + cbn [fst snd]. split; [reflexivity|]. split; [|exact Hcur].
      split; [intros [? [=]] | intros (_ & _ & i_e & [=])].
  - cbn [fst snd]. split; [reflexivity|]. split; [|exact Hphi].
    split; [intros [? [=]]|].
    intros (Hocp & Heta & _).
    rewrite (leading_order_potential_domainless _ _ Hocp Heta) in Hpot.
    discriminate Hpot.
Qed.

(** C10, as the claim states it, fails: with an open-circuit potential on
    the negative electrode and an overpotential on the positive electrode
    the difference of line 173 is a [DomainError], and the method returns
    no mapping. *)
Lemma leading_order_different_domains_raise :
  let ocp_n := Variable_ "ocp_n" ["negative electrode"] in
  let eta_r_n := Variable_ "eta_r_n" ["positive electrode"] in
  let out := get_explicit_leading_order Sample.standard_spatial_vars
               ocp_n eta_r_n Sample.submodel in
  snd out = Raise (DomainError "operands are on different domains")
  /\ ~ (exists variables, snd out = Ok variables).
Proof.
  split; [vm_compute; reflexivity|].
  intros [variables H]. vm_compute in H. discriminate H.
Qed.

Lemma leading_order_overpotential_is_zero_witness :
  let out := get_explicit_leading_order Sample.standard_spatial_vars
               (Parameter_ "ocp_n") (Parameter_ "eta_r_n") Sample.submodel in
  exists variables,
    snd out = Ok variables
    /\ variables !! "Average electrolyte overpotential"
       = Some (Scalar 0 + Scalar 0)%sym.
Proof.
  intros out.
  pose proof (leading_order_overpotential_is_zero Sample.standard_spatial_vars
                Sample.submodel (Parameter_ "ocp_n") (Parameter_ "eta_r_n"))
    as (_ & Hreturns & Hzero).
  destruct (proj2 Hreturns) as [variables Hvariables].
  { split; [reflexivity|]. split; [reflexivity|]. eexists. vm_compute. reflexivity. }
  exists variables. split; [exact Hvariables|].
  cbv zeta in Hzero. subst out. rewrite Hvariables in Hzero.
  destruct Hzero as (_ & _ & Hsum & _). exact Hsum.
Defined.

(** The round trip of C5 inside the source: the named parts of the
    potential that line 50 recovers from the concatenation of line 177 are
    the broadcasts of lines 174-176. *)
Lemma leading_order_potential_parts (sv : SpatialVars.t) (self : SubModel.t)
    (ocp_n eta_r_n : Symbol) (variables : gmap string Symbol) :
  snd (get_explicit_leading_order sv ocp_n eta_r_n self) = Ok variables ->
  variables !! "Negative electrolyte potential"
  = Some (Broadcast (- ocp_n - eta_r_n)%sym ["negative electrode"])
  /\ variables !! "Separator electrolyte potential"
     = Some (Broadcast (- ocp_n - eta_r_n)%sym ["separator"])
  /\ variables !! "Positive electrolyte potential"
     = Some (Broadcast (- ocp_n - eta_r_n)%sym ["positive electrode"]).
Proof.
  rewrite get_explicit_leading_order_run.
  destruct (leading_order_potential ocp_n eta_r_n) as [phi_e|e] eqn:Hpot;
    [|discriminate].
  apply leading_order_potential_Ok in Hpot as (_ & _ & ->).
  destruct (leading_order_current sv _) as [i_e|e]; [|discriminate].
  rewrite (get_variables_three_parts self _ i_e (Scalar 0 + Scalar 0)%sym
             _ _ _ (broadcast_parts_orphans (- ocp_n - eta_r_n)%sym)).
  unfold get_split_electrolyte_overpotential, bind, gets, ret.
  cbn [fst snd]. intros [= <-].
  repeat split; vm_compute; reflexivity.
Qed.

(* ===================================================================== *)
(** * 15. [set_algebraic_system]                                          *)
(* ===================================================================== *)

(** [reactions[name][side][quantity]] as a chain of lookups. *)
Lemma reaction_quantity_lookup (reactions : Reactions)
    (name side quantity : string) (v : Num) :
  reactions_entry reactions name side quantity = Some v ->
  reaction_quantity reactions name side quantity = Ok v.
Proof.
  unfold reactions_entry, reaction_quantity, getitem.
  destruct (reactions !! name) as [by_side|]; simpl; [|discriminate].
  destruct (by_side !! side) as [quantities|]; simpl; [|discriminate].
  intros ->. reflexivity.
Qed.

(** ** The nodes of lines 117-129 *)

Lemma interfacial_current_density_Ok (j_n j_p : Num) (j : Symbol) :
  interfacial_current_density j_n j_p = Ok j ->
  j = Concatenation [as_expression j_n; Broadcast (Scalar 0) ["separator"];
                     as_expression j_p].
Proof.
  unfold interfacial_current_density.
  change (new_Broadcast (Scalar 0) ["separator"])
    with (Ok (Broadcast (Scalar 0) ["separator"])).
  cbn [and_then]. intros H. apply new_Concatenation_Ok in H as [-> _].
  reflexivity.
Qed.

Lemma current_density_Ok (param : Param.t) (epsilon c_e phi_e i_e : Symbol) :
  current_density param epsilon c_e phi_e = Ok i_e ->
  i_e = MacInnes_flux param epsilon c_e phi_e.
Proof.
  unfold current_density. intros H.
  repeat match type of H with
         | and_then _ _ = Ok _ =>
             let x := fresh "x" in
             let Hx := fresh "Hx" in
             apply and_then_Ok in H as (x & Hx & H);
             first [ apply binary_Ok in Hx as [-> _]
                   | apply grad_Ok in Hx as [-> _] ]
         end.
  apply binary_Ok in H as [-> _]. reflexivity.
Qed.

Lemma residual_Ok (i_e j equation : Symbol) :
  residual i_e j = Ok equation -> equation = (Divergence i_e - j)%sym.
Proof.
  unfold residual. intros H.
  apply and_then_Ok in H as (d & Hd & H).
  apply div_Ok in Hd as [-> _]. apply binary_Ok in H as [-> _]. reflexivity.
Qed.

(** When the nodes are built they are the expressions of the source. *)
Lemma algebraic_system_Ok (param : Param.t) (epsilon c_e phi_e : Symbol)
    (j_n j_p : Num) (i_e equation : Symbol) :
  algebraic_system param epsilon c_e phi_e j_n j_p = Ok (i_e, equation) ->
  let j := Concatenation [as_expression j_n; Broadcast (Scalar 0) ["separator"];
                          as_expression j_p] in
  interfacial_current_density j_n j_p = Ok j
  /\ current_density param epsilon c_e phi_e = Ok i_e
  /\ residual i_e j = Ok equation
  /\ i_e = MacInnes_flux param epsilon c_e phi_e
  /\ equation = (Divergence i_e - j)%sym.
Proof.
  intros H j. unfold algebraic_system in H.
  apply and_then_Ok in H as (j' & Hj & H).
  apply and_then_Ok in H as (i_e' & Hi & H).
  apply and_then_Ok in H as (equation' & Hr & H).
  injection H as <- <-.
  pose proof (interfacial_current_density_Ok _ _ _ Hj) as ->.
  split; [exact Hj|]. split; [exact Hi|]. split; [exact Hr|].
  split; [apply current_density_Ok, Hi | apply residual_Ok, Hr].
Qed.

(** A constructor that fails raises [DomainError]. *)
Lemma algebraic_system_raises (param : Param.t) (epsilon c_e phi_e : Symbol)
    (j_n j_p : Num) :
  raises_only is_DomainError
    (algebraic_system param epsilon c_e phi_e j_n j_p).
Proof.
  unfold algebraic_system, interfacial_current_density, current_density, residual.
  repeat first [ apply raises_only_and_then; [|intros ?]
               | apply binary_raises | apply grad_raises | apply div_raises
               | apply new_Broadcast_raises | apply new_Concatenation_raises
               | exact I ].
Qed.

(** ** What the method does *)

(** The method, by what the constructors and the unpacking give. *)
Lemma set_algebraic_system_run (self : SubModel.t) (phi_e c_e : Symbol)
    (reactions : Reactions) (epsilon : option Symbol) (j_n j_p : Num) :
  reactions_entry reactions "main" "neg" "aj" = Some j_n ->
  reactions_entry reactions "main" "pos" "aj" = Some j_p ->
  let param := SubModel.set_of_parameters self in
  set_algebraic_system phi_e c_e reactions epsilon self
  = match algebraic_system param (default (Param.epsilon param) epsilon)
            c_e phi_e j_n j_p with
    | Raise e => (self, Raise e)
    | Ok (i_e, equation) =>
        let equations (variables : gmap string Symbol) (solver : option Solver) :=
          SubModel.mk param variables []
            [(phi_e, equation)]
            [(i_e, {[ "left" := Int 0; "right" := Int 0 ]})]
            [(phi_e, (- Param.U_n param (Param.c_n_init param))%sym)]
            (SubModel.events self) solver in
        let assigned :=
          equations (SubModel.variables self) (SubModel.default_solver self) in
        match unpack3 (orphans phi_e) with
        | Raise e => (assigned, Raise e)
        | Ok (phi_e_n, _, phi_e_p) =>
            match get_variables phi_e i_e
                    (Average phi_e_p - Average phi_e_n)%sym assigned with
            | (_, Ok variables) =>
                (equations variables (Some ScikitsDaeSolver), Ok tt)
            | (_, Raise e) => (assigned, Raise e)
            end
        end
    end.
Proof.
  intros Hn Hp param.
  unfold set_algebraic_system, algebraic_system.
  unfold bind at 1. unfold gets at 1.
  unfold bind at 1. unfold lift at 1.
  rewrite (reaction_quantity_lookup _ _ _ _ _ Hn).
  unfold bind at 1. unfold lift at 1.
  rewrite (reaction_quantity_lookup _ _ _ _ _ Hp).
  fold param.
  replace (match epsilon with
           | Some eps => eps
           | None => Param.epsilon param
           end) with (default (Param.epsilon param) epsilon)
    by (destruct epsilon; reflexivity).
  unfold bind at 1. unfold lift at 1.
  destruct (interfacial_current_density j_n j_p) as [j|e]; [|reflexivity].
  cbv zeta. cbn [and_then].
  unfold bind at 1. unfold lift at 1.
  destruct (current_density param _ c_e phi_e) as [i_e|e]; [|reflexivity].
  cbn [and_then].
  unfold bind at 1. unfold lift at 1.
  destruct (residual i_e j) as [equation|e]; [|reflexivity].
  cbn [and_then].
  unfold bind, modify, lift, gets, ret.
  destruct (unpack3 (orphans phi_e)) as [[[a b] c]|e]; [|reflexivity].
  change (binary Subtraction (Average c) (Average a))
    with (Ok (Average c - Average a)%sym).
  cbv beta iota.
  unfold get_variables, bind, gets, lift, ret.
  destruct (unpack3 (orphans phi_e)) as [[[a' b'] c']|e']; reflexivity.
Qed.

(** C2, as the code has it.  For every [phi_e], [c_e] and reaction
    dictionary with the entries [reactions["main"]["neg"]["aj"]] and
    [reactions["main"]["pos"]["aj"]]: when the constructors of lines
    117-129 accept the domains of their operands, [set_algebraic_system]
    leaves [algebraic] with exactly the key [phi_e], mapped to the
    residual [div(i_e) - j]; [boundary_conditions] with the flux [i_e]
    mapped to [{"left": 0, "right": 0}]; [initial_conditions] with
    [phi_e] mapped to [-U_n(c_n_init)]; and [rhs] empty.  When one of
    them raises [DomainError], the method raises it and the submodel is
    as it was.  Without [epsilon] the method does exactly what it does
    with [epsilon = param.epsilon]. *)
Theorem set_algebraic_system_populates (self : SubModel.t)
    (phi_e c_e : Symbol) (j_n j_p : Num) (reactions : Reactions) :
  reactions_entry reactions "main" "neg" "aj" = Some j_n ->
  reactions_entry reactions "main" "pos" "aj" = Some j_p ->
  let param := SubModel.set_of_parameters self in
  let j := Concatenation [as_expression j_n; Broadcast (Scalar 0) ["separator"];
                          as_expression j_p] in
  let out := set_algebraic_system phi_e c_e reactions None self in
  match algebraic_system param (Param.epsilon param) c_e phi_e j_n j_p with
  | Ok (i_e, equation) =>
      i_e = MacInnes_flux param (Param.epsilon param) c_e phi_e
      /\ equation = (Divergence i_e - j)%sym
      /\ SubModel.algebraic (fst out) = [(phi_e, equation)]
      /\ dict_keys (SubModel.algebraic (fst out)) = [phi_e]
      /\ SubModel.boundary_conditions (fst out)
         = [(i_e, {[ "left" := Int 0; "right" := Int 0 ]})]
      /\ SubModel.initial_conditions (fst out)
         = [(phi_e, (- Param.U_n param (Param.c_n_init param))%sym)]
      /\ SubModel.rhs (fst out) = []
  | Raise e => is_DomainError e /\ out = (self, Raise e)
  end
  /\ set_algebraic_system phi_e c_e reactions None self
     = set_algebraic_system phi_e c_e reactions (Some (Param.epsilon param)) self.
Proof.
  intros Hn Hp param j out. subst out.
  split; [|rewrite !(set_algebraic_system_run self phi_e c_e reactions _ j_n j_p Hn Hp);
           reflexivity].
  rewrite (set_algebraic_system_run self phi_e c_e reactions None j_n j_p Hn Hp).
  fold param. cbn [default].
  pose proof (algebraic_system_raises param (Param.epsilon param) c_e phi_e j_n j_p)
    as Hraises.
  destruct (algebraic_system param (Param.epsilon param) c_e phi_e j_n j_p)
    as [[i_e equation]|e] eqn:Hsystem; [|split; [exact Hraises | reflexivity]].
  apply algebraic_system_Ok in Hsystem as (_ & _ & _ & Hi & Hr).
  split; [exact Hi|]. split; [exact Hr|].
  cbv zeta.
  destruct (unpack3 (orphans phi_e)) as [[[a b] c]|e];
    [destruct (get_variables _ _ _ _) as [? [variables|e]]|];
    cbn [fst SubModel.algebraic SubModel.boundary_conditions
         SubModel.initial_conditions SubModel.rhs dict_keys map];
    repeat split; reflexivity.
Qed.

(** C2, as the claim states it, fails: a reaction dictionary can have
    both entries and make the method raise.  With the two interfacial
    currents on the separator the concatenation of line 117 is a
    [DomainError]: nothing is assigned. *)
Lemma set_algebraic_system_separator_currents_raise :
  let phi_e := StandardVariables.phi_e Sample.standard_variables in
  let c_e := StandardVariables.c_e Sample.standard_variables in
  let j_n := Variable_ "j_n" ["separator"] in
  let j_p := Variable_ "j_p" ["separator"] in
  let reactions := DFN.reactions_literal j_n j_p in
  let out := set_algebraic_system phi_e c_e reactions None Sample.submodel in
  reactions_entry reactions "main" "neg" "aj" = Some (Sym j_n)
  /\ reactions_entry reactions "main" "pos" "aj" = Some (Sym j_p)
  /\ out = (Sample.submodel,
            Raise (DomainError "domains of children must be disjoint and contiguous"))
  /\ SubModel.algebraic (fst out) = [].
Proof. repeat split; vm_compute; reflexivity. Qed.

Lemma set_algebraic_system_populates_witness :
  let self := Sample.submodel in
  let phi_e := StandardVariables.phi_e Sample.standard_variables in
  let c_e := StandardVariables.c_e Sample.standard_variables in
  let j_n := Variable_ "j_n" ["negative electrode"] in
  let j_p := Variable_ "j_p" ["positive electrode"] in
  let reactions := DFN.reactions_literal j_n j_p in
  let param := SubModel.set_of_parameters self in
  let i_e := MacInnes_flux param (Param.epsilon param) c_e phi_e in
  let j := Concatenation [j_n; Broadcast (Scalar 0) ["separator"]; j_p] in
  let self' := fst (set_algebraic_system phi_e c_e reactions None self) in
  SubModel.algebraic self' = [(phi_e, (Divergence i_e - j)%sym)]
  /\ SubModel.boundary_conditions self'
     = [(i_e, {[ "left" := Int 0; "right" := Int 0 ]})]
  /\ SubModel.initial_conditions self'
     = [(phi_e, (- Param.U_n param (Param.c_n_init param))%sym)]
  /\ SubModel.rhs self' = [].
Proof.
  intros self phi_e c_e j_n j_p reactions param i_e j self'.
  pose proof (set_algebraic_system_populates self phi_e c_e (Sym j_n) (Sym j_p)
                reactions eq_refl eq_refl) as [Hpopulates _].
  cbv zeta in Hpopulates.
  assert (Hbuilt :
    algebraic_system param (Param.epsilon param) c_e phi_e (Sym j_n) (Sym j_p)
    = Ok (i_e, (Divergence i_e - j)%sym)) by (vm_compute; reflexivity).
  fold param in Hpopulates. rewrite Hbuilt in Hpopulates.
  destruct Hpopulates as (_ & _ & Halg & _ & Hbc & Hic & Hrhs).
  split; [exact Halg|]. split; [exact Hbc|]. split; [exact Hic | exact Hrhs].
Defined.

(** With a [phi_e] of three parts, on domains the constructors accept,
    the method returns. *)
Lemma set_algebraic_system_returns (self : SubModel.t)
    (phi_e c_e i_e equation a b c : Symbol) (j_n j_p : Num)
    (reactions : Reactions) (epsilon : option Symbol) :
  reactions_entry reactions "main" "neg" "aj" = Some j_n ->
  reactions_entry reactions "main" "pos" "aj" = Some j_p ->
  algebraic_system (SubModel.set_of_parameters self)
    (default (Param.epsilon (SubModel.set_of_parameters self)) epsilon)
    c_e phi_e j_n j_p = Ok (i_e, equation) ->
  orphans phi_e = [a; b; c] ->
  exists variables,
    get_variables phi_e i_e (Average c - Average a)%sym self
    = (self, Ok variables)
    /\ set_algebraic_system phi_e c_e reactions epsilon self
       = (SubModel.mk (SubModel.set_of_parameters self) variables []
            [(phi_e, equation)]
            [(i_e, {[ "left" := Int 0; "right" := Int 0 ]})]
            [(phi_e, (- Param.U_n (SubModel.set_of_parameters self)
                          (Param.c_n_init (SubModel.set_of_parameters self)))%sym)]
            (SubModel.events self) (Some ScikitsDaeSolver),
          Ok tt).
Proof.
  intros Hn Hp Hsystem Horphans.
  rewrite (set_algebraic_system_run self phi_e c_e reactions epsilon j_n j_p Hn Hp).
  rewrite Hsystem. cbv zeta. rewrite Horphans. cbn [unpack3].
  rewrite !(get_variables_three_parts _ phi_e i_e _ a b c Horphans).
  eexists. split; reflexivity.
Qed.

(* ===================================================================== *)
(** * 16. Reasoning about computations                                    *)
(* ===================================================================== *)

Section Computations.
Context {S : Type}.

Lemma reads_only_ret {A} (a : A) : reads_only (ret a : M S A).
Proof. intros s. reflexivity. Qed.

Lemma reads_only_raise {A} (e : Exception) : reads_only (raise e : M S A).
Proof. intros s. reflexivity. Qed.

Lemma reads_only_gets {A} (f : S -> A) : reads_only (gets f).
Proof. intros s. reflexivity. Qed.

Lemma reads_only_lift {A} (r : result A) : reads_only (lift r : M S A).
Proof. intros s. reflexivity. Qed.

Lemma reads_only_bind {A B} (m : M S A) (k : A -> M S B) :
  reads_only m -> (forall a, reads_only (k a)) -> reads_only (bind m k).
Proof.
  intros Hm Hk s. unfold bind. specialize (Hm s).
  destruct (m s) as [s' [a|e]]; simpl in *; subst s'; [apply Hk | reflexivity].
Qed.

Lemma invariant_of_reads_only {A} (I : S -> Prop) (m : M S A) :
  reads_only m -> invariant_of I m.
Proof. intros Hm s Hs. rewrite Hm. exact Hs. Qed.

Lemma invariant_of_bind {A B} (I : S -> Prop) (m : M S A) (k : A -> M S B) :
  invariant_of I m -> (forall a, invariant_of I (k a)) ->
  invariant_of I (bind m k).
Proof.
  intros Hm Hk s Hs. unfold bind. specialize (Hm s Hs).
  destruct (m s) as [s' [a|e]]; simpl in *; [apply Hk|]; exact Hm.
Qed.

Lemma invariant_of_modify (I : S -> Prop) (f : S -> S) :
  (forall s, I s -> I (f s)) -> invariant_of I (modify f).
Proof. intros Hf s Hs. apply Hf, Hs. Qed.

End Computations.

Create HintDb frame discriminated.
#[local] Hint Resolve reads_only_ret reads_only_raise reads_only_gets
  reads_only_lift : frame.

(** Reading a local name, a variable of [self] or the parameters leaves
    the frame as it is. *)
Lemma reads_only_load (x : string) : reads_only (Frame.load x).
Proof. intros st. unfold Frame.load. destruct (_ !! _); reflexivity. Qed.
#[local] Hint Resolve reads_only_load : frame.

Lemma reads_only_load_symbol (x : string) : reads_only (Frame.load_symbol x).
Proof. apply reads_only_bind; auto with frame. Qed.

Lemma reads_only_load_reactions (x : string) : reads_only (Frame.load_reactions x).
Proof. apply reads_only_bind; auto with frame. Qed.

Lemma reads_only_load_domain (x : string) : reads_only (Frame.load_domain x).
Proof. apply reads_only_bind; [auto with frame|]. intros []; auto with frame. Qed.

Lemma reads_only_load_submodel (x : string) : reads_only (Frame.load_submodel x).
Proof. apply reads_only_bind; [auto with frame|]. intros []; auto with frame. Qed.

Lemma reads_only_load_helper (x : string) : reads_only (Frame.load_helper x).
Proof. apply reads_only_bind; [auto with frame|]. intros []; auto with frame. Qed.

Lemma reads_only_self_variables : reads_only Frame.self_variables.
Proof. apply reads_only_gets. Qed.

Lemma reads_only_self_variable (key : string) :
  reads_only (Frame.self_variable key).
Proof. apply reads_only_bind; [apply reads_only_gets | auto with frame]. Qed.

Lemma reads_only_param : reads_only Frame.param.
Proof. apply reads_only_gets. Qed.

#[local] Hint Resolve reads_only_load_symbol reads_only_load_reactions
  reads_only_load_domain reads_only_load_submodel reads_only_load_helper
  reads_only_self_variables reads_only_self_variable reads_only_param : frame.

(** ** The package state is never assigned to *)

Lemma globals_store (g : Lib.t) (x : string) (v : PyVal) :
  invariant_of (globals_are g) (Frame.store x v).
Proof. apply invariant_of_modify. intros st Hst. exact Hst. Qed.

Lemma globals_modify_self (g : Lib.t) (f : Model.t -> Model.t) :
  invariant_of (globals_are g) (modify (Frame.set_self f)).
Proof. apply invariant_of_modify. intros st Hst. exact Hst. Qed.

Lemma globals_on_submodel {A} (g : Lib.t) (x : string) (method : M SubModel.t A) :
  invariant_of (globals_are g) (Frame.on_submodel x method).
Proof.
  apply invariant_of_bind.
  - apply invariant_of_reads_only. auto with frame.
  - intros sm. destruct (method sm) as [sm' r].
    apply invariant_of_bind; [apply globals_store|].
    intros _. apply invariant_of_reads_only. auto with frame.
Qed.

Lemma globals_on_self {A} (g : Lib.t) (method : M Model.t A) :
  invariant_of (globals_are g) (Frame.on_self method).
Proof.
  intros st Hst. unfold Frame.on_self. destruct (method _); exact Hst.
Qed.

Lemma globals_self_update (g : Lib.t) (x : string) :
  invariant_of (globals_are g) (Frame.self_update x).
Proof.
  apply invariant_of_bind.
  - apply invariant_of_reads_only. auto with frame.
  - intros sm. apply globals_on_self.
Qed.

Lemma globals_self_variables_setitem (g : Lib.t) (key : string) (v : Symbol) :
  invariant_of (globals_are g) (Frame.self_variables_setitem key v).
Proof. apply globals_modify_self. Qed.

Lemma globals_self_variables_update (g : Lib.t) (d : gmap string Symbol) :
  invariant_of (globals_are g) (Frame.self_variables_update d).
Proof. apply globals_modify_self. Qed.

#[local] Hint Resolve globals_store globals_modify_self globals_on_submodel
  globals_self_update globals_self_variables_setitem
  globals_self_variables_update : frame.

(** One step of a proof that a computation keeps an invariant: split a
    sequence, a conditional or an unpacked tuple, or close the goal with
    the facts about the primitives. *)
Ltac invariant_step :=
  match goal with
  | |- invariant_of _ (bind _ _) => apply invariant_of_bind
  | |- invariant_of _ (if ?c then _ else _) => destruct c
  | |- invariant_of _ (match ?x with _ => _ end) => destruct x
  | |- invariant_of _ _ =>
      first [ solve [auto with frame]
            | solve [apply invariant_of_reads_only; auto with frame] ]
  | |- forall _, _ => intros ?
  end.

Lemma globals_set_model_variables (g : Lib.t) (param : Param.t) :
  invariant_of (globals_are g) (DFN.set_model_variables param).
Proof. unfold DFN.set_model_variables. cbv zeta. repeat invariant_step. Qed.

Lemma globals_assign_variable (g : Lib.t) (x key : string) :
  invariant_of (globals_are g) (DFN.assign_variable x key).
Proof. unfold DFN.assign_variable. repeat invariant_step. Qed.

Lemma globals_interfacial_current_variables (g : Lib.t) :
  invariant_of (globals_are g) DFN.interfacial_current_variables.
Proof. unfold DFN.interfacial_current_variables. repeat invariant_step. Qed.

Lemma reads_only_thermal_option_is (value : string) :
  reads_only (DFN.thermal_option_is value).
Proof.
  unfold DFN.thermal_option_is.
  repeat first [ apply reads_only_bind | intros ? ]; auto with frame.
Qed.

#[local] Hint Resolve globals_set_model_variables globals_assign_variable
  globals_interfacial_current_variables reads_only_thermal_option_is : frame.

(** Every statement of the body leaves the package state alone. *)
Lemma body_keeps_globals (g : Lib.t) (options : gmap string string) :
  Forall (fun s => invariant_of (globals_are g) (run s)) (DFN.body options).
Proof.
  unfold DFN.body, DFN.model_variables_block, DFN.interface_block,
    DFN.particle_block, DFN.electrolyte_diffusion_block,
    DFN.electrolyte_current_block, DFN.electrode_block, DFN.thermal_block,
    DFN.post_process_block, DFN.line_68, DFN.line_69, DFN.line_70.
  repeat first [ apply Forall_app_2 | apply List.Forall_cons | apply List.Forall_nil ];
    cbn [run run_stmt stmt]; repeat invariant_step.
Qed.

Lemma exec_invariant (I : Frame.t -> Prop) (steps : list Step) :
  Forall (fun s => invariant_of I (run s)) steps -> invariant_of I (exec steps).
Proof.
  induction 1 as [|s steps Hs _ IH]; simpl.
  - apply invariant_of_reads_only, reads_only_ret.
  - apply invariant_of_bind; [exact Hs | intros _; exact IH].
Qed.

(** [DFN(options)] leaves the package state as it found it. *)
Lemma DFN_new_keeps_globals (options : gmap string string) (g : Lib.t) :
  fst (DFN_new options g) = g.
Proof.
  unfold DFN_new.
  pose proof (exec_invariant (globals_are g) (DFN.body options)
                (body_keeps_globals g options)
                (Frame.mk g (Model.init options) ∅) eq_refl) as Hg.
  destruct (exec _ _) as [st [[]|e]]; exact Hg.
Qed.

(** ** The local name [param] *)

Lemma param_bound_store (x : string) (v : PyVal) :
  x <> "param" -> invariant_of param_is_bound (Frame.store x v).
Proof.
  intros Hx. apply invariant_of_modify. intros st Hst.
  unfold param_is_bound in *. cbn [Frame.set_locals Frame.locals Frame.globals].
  rewrite lookup_insert_ne by exact Hx. exact Hst.
Qed.

Lemma param_bound_modify_self (f : Model.t -> Model.t) :
  invariant_of param_is_bound (modify (Frame.set_self f)).
Proof. apply invariant_of_modify. intros st Hst. exact Hst. Qed.

Lemma param_bound_on_submodel {A} (x : string) (method : M SubModel.t A) :
  x <> "param" -> invariant_of param_is_bound (Frame.on_submodel x method).
Proof.
  intros Hx. apply invariant_of_bind.
  - apply invariant_of_reads_only. auto with frame.
  - intros sm. destruct (method sm) as [sm' r].
    apply invariant_of_bind; [apply param_bound_store, Hx|].
    intros _. apply invariant_of_reads_only. auto with frame.
Qed.

Lemma param_bound_self_update (x : string) :
  invariant_of param_is_bound (Frame.self_update x).
Proof.
  apply invariant_of_bind.
  - apply invariant_of_reads_only. auto with frame.
  - intros sm st Hst. unfold Frame.on_self.
    destruct (Model.update sm (Frame.self st)); exact Hst.
Qed.

(** Line 18 binds [param] to the parameter object of the package. *)
Lemma line_18_binds_param :
  invariant_of param_is_bound
    (let* param := Frame.param in Frame.store "param" (VParam param)).
Proof. intros st _. apply lookup_insert_eq. Qed.

(** No statement of the body binds [param] to anything else: once it is
    bound to the parameter object of the package it stays so, and a read
    of the local name [param] is the read [Frame.param] of that
    object. *)
Lemma param_stays_bound (options : gmap string string) :
  Forall (fun s => invariant_of param_is_bound (run s)) (DFN.body options).
Proof.
  assert (Hstore : forall x v,
            String.eqb x "param" = false ->
            invariant_of param_is_bound (Frame.store x v)).
  { intros x v Hx. apply param_bound_store, String.eqb_neq, Hx. }
  assert (Hsub : forall B x (method : M SubModel.t B),
            String.eqb x "param" = false ->
            invariant_of param_is_bound (Frame.on_submodel x method)).
  { intros B x method Hx. apply param_bound_on_submodel, String.eqb_neq, Hx. }
  unfold DFN.body, DFN.model_variables_block, DFN.interface_block,
    DFN.particle_block, DFN.electrolyte_diffusion_block,
    DFN.electrolyte_current_block, DFN.electrode_block, DFN.thermal_block,
    DFN.post_process_block, DFN.line_68, DFN.line_69, DFN.line_70.
  repeat first [ apply Forall_app_2 | apply List.Forall_cons | apply List.Forall_nil ];
    cbn [run run_stmt stmt];
    unfold DFN.set_model_variables, DFN.assign_variable,
      DFN.interfacial_current_variables, Frame.self_variables_setitem,
      Frame.self_variables_update; cbv zeta;
    repeat first
      [ apply line_18_binds_param
      | apply param_bound_self_update
      | apply param_bound_modify_self
      | apply Hstore; reflexivity
      | apply Hsub; reflexivity
      | invariant_step ].
Qed.

Lemma load_param_is_param (st : Frame.t) :
  param_is_bound st ->
  Frame.load "param" st
  = (st, Ok (VParam (Lib.standard_parameters_lithium_ion (Frame.globals st))))
  /\ Frame.param st
     = (st, Ok (Lib.standard_parameters_lithium_ion (Frame.globals st))).
Proof.
  intros Hst. unfold Frame.load. rewrite Hst. split; reflexivity.
Qed.

(* ===================================================================== *)
(** * 17. The call of line 69                                             *)
(* ===================================================================== *)

(** The call [set_algebraic_system(self.variables, reactions)] binds two
    arguments to the three required parameters of line 95: [reactions]
    is left without a value. *)
Lemma two_arguments_leave_reactions_unbound (a1 a2 : PyVal) :
  bind_arguments "set_algebraic_system" ["phi_e"; "c_e"; "reactions"]
    ["epsilon"] [a1; a2]
  = Raise (TypeError
             "set_algebraic_system() missing required positional argument: reactions").
Proof. reflexivity. Qed.

Lemma call_with_two_arguments_raises (a1 a2 : PyVal) (sm : SubModel.t) :
  call_MacInnesStefanMaxwell_set_algebraic_system [a1; a2] sm
  = (sm, Raise (TypeError
                  "set_algebraic_system() missing required positional argument: reactions")).
Proof.
  unfold call_MacInnesStefanMaxwell_set_algebraic_system, bind, lift.
  rewrite two_arguments_leave_reactions_unbound. reflexivity.
Qed.

(** With three arguments of the declared kinds the same call runs the
    body of the method. *)
Lemma call_with_three_arguments_runs (phi_e c_e : Symbol) (reactions : Reactions)
    (sm : SubModel.t) :
  call_MacInnesStefanMaxwell_set_algebraic_system
    [VSymbol phi_e; VSymbol c_e; VReactions reactions] sm
  = MacInnesStefanMaxwell.set_algebraic_system phi_e c_e reactions None sm.
Proof.
  unfold call_MacInnesStefanMaxwell_set_algebraic_system, bind, lift. simpl.
  destruct (MacInnesStefanMaxwell.set_algebraic_system _ _ _ _ _) as [sm' r].
  reflexivity.
Qed.

(** The statement of line 69 raises in every frame. *)
Lemma line_69_raises (st : Frame.t) :
  exists st' e, run DFN.line_69 st = (st', Raise e).
Proof.
  unfold DFN.line_69, run. cbn [run_stmt stmt].
  unfold Frame.self_variables, Frame.load_reactions,
    Frame.on_submodel, Frame.load_submodel, Frame.load, bind, gets, lift, ret.
  destruct (Frame.locals st !! "reactions") as [[| | |reactions| | | |]|];
    cbn [as_reactions]; try (eexists; eexists; reflexivity).
  destruct (Frame.locals st !! "eleclyte_current_model") as [[| | | | |sm| |]|];
    cbn [raise].
  all: rewrite ?call_with_two_arguments_raises.
  all: eexists; eexists; reflexivity.
Qed.

(** In the frames the assembly reaches it with, it raises the
    [TypeError] of the call and leaves the submodel unpopulated. *)
Lemma line_69_raises_TypeError (st : Frame.t) (reactions : Reactions)
    (sm : SubModel.t) :
  Frame.locals st !! "reactions" = Some (VReactions reactions) ->
  Frame.locals st !! "eleclyte_current_model" = Some (VSubModel sm) ->
  exists st',
    run DFN.line_69 st
    = (st', Raise (TypeError
                     "set_algebraic_system() missing required positional argument: reactions"))
    /\ Frame.self st' = Frame.self st
    /\ Frame.locals st' !! "eleclyte_current_model" = Some (VSubModel sm).
Proof.
  intros Hr Hsm.
  unfold DFN.line_69, run. cbn [run_stmt stmt].
  unfold Frame.self_variables, Frame.load_reactions,
    Frame.on_submodel, Frame.load_submodel, Frame.load, bind, gets, lift, ret.
  rewrite Hr. cbn [as_reactions]. rewrite Hsm.
  rewrite call_with_two_arguments_raises. simpl.
  eexists. split; [reflexivity|]. split; [reflexivity|].
  simpl. apply lookup_insert_eq.
Qed.

Lemma exec_app (pre post : list Step) (st : Frame.t) :
  exec (pre ++ post) st
  = match exec pre st with
    | (st', Ok _) => exec post st'
    | (st', Raise e) => (st', Raise e)
    end.
Proof.
  revert st. induction pre as [|s pre IH]; intros st; simpl; [reflexivity|].
  unfold bind. destruct (run s st) as [st1 [[]|e]]; [apply IH | reflexivity].
Qed.

(** A run through a statement that always raises never returns. *)
Lemma exec_through_raising_statement (pre post : list Step) (s : Step) :
  (forall st, exists st' e, run s st = (st', Raise e)) ->
  forall st, exists st' e, exec (pre ++ s :: post) st = (st', Raise e).
Proof.
  intros Hs st. rewrite exec_app.
  destruct (exec pre st) as [st1 [[]|e]]; [|eexists; eexists; reflexivity].
  simpl. unfold bind. destruct (Hs st1) as (st2 & e & ->).
  eexists; eexists; reflexivity.
Qed.

Lemma body_around_line_69 (options : gmap string string) :
  DFN.body options
  = (before_line_69 ++ DFN.line_69 :: after_line_69 options)%list.
Proof.
  unfold DFN.body, before_line_69, after_line_69, DFN.electrolyte_current_block.
  rewrite <- !app_assoc. reflexivity.
Qed.

(** No assembly returns a model. *)
Lemma DFN_new_raises (options : gmap string string) (g : Lib.t) :
  exists e, snd (DFN_new options g) = Raise e.
Proof.
  unfold DFN_new. rewrite body_around_line_69.
  destruct (exec_through_raising_statement before_line_69 (after_line_69 options)
              DFN.line_69 line_69_raises (Frame.mk g (Model.init options) ∅))
    as (st' & e & ->).
  exists e. reflexivity.
Qed.

(** C1, as the code has it.  The call of line 69 passes two arguments,
    [self.variables] and [reactions], to a method whose parameters are
    [phi_e], [c_e] and [reactions]: it raises [TypeError] whatever the
    two arguments are and leaves the submodel as it was, so that no
    assembly returns a model; on the sample package the exception of the
    assembly is this [TypeError]. *)
Theorem DFN_electrolyte_current_call_raises :
  (forall (variables : gmap string Symbol) (reactions : Reactions)
          (sm : SubModel.t),
      call_MacInnesStefanMaxwell_set_algebraic_system
        [VDict variables; VReactions reactions] sm
      = (sm, Raise (TypeError
                      "set_algebraic_system() missing required positional argument: reactions")))
  /\ (forall (options : gmap string string) (g : Lib.t),
        exists e, snd (DFN_new options g) = Raise e)
  /\ snd (DFN_new Sample.thermal_off Sample.lib)
     = Raise (TypeError
                "set_algebraic_system() missing required positional argument: reactions").
Proof.
  split; [|split].
  - intros variables reactions sm. apply call_with_two_arguments_raises.
  - apply DFN_new_raises.
  - vm_compute. reflexivity.
Qed.

(** C6, as the code has it.  With [{"thermal": "off"}] no model results:
    the assembly raises at line 69, before the cut-off event of line 113
    is appended; on the sample package the events list is still empty
    when it raises, and [variables] holds neither temperature key. *)
Theorem DFN_thermal_off_raises_before_cutoff :
  let run :=
    exec (DFN.body Sample.thermal_off)
         (Frame.mk Sample.lib (Model.init Sample.thermal_off) ∅) in
  (forall g : Lib.t, exists e, snd (DFN_new Sample.thermal_off g) = Raise e)
  /\ snd run
     = Raise (TypeError
                "set_algebraic_system() missing required positional argument: reactions")
  /\ Model.events (Frame.self (fst run)) = []
  /\ Model.variables (Frame.self (fst run)) !! "Cell temperature" = None
  /\ Model.variables (Frame.self (fst run)) !! "Average cell temperature" = None.
Proof.
  intros run. subst run.
  split; [intros g; apply DFN_new_raises|].
  split; [vm_compute; reflexivity|].
  split; [vm_compute; reflexivity|].
  split; vm_compute; reflexivity.
Qed.

(* ===================================================================== *)
(** * 18. The life cycle of the submodel instances                        *)
(* ===================================================================== *)

(** ** What a run of statements did *)

Lemma exec_events_app (pre post : list Step) (st : Frame.t) :
  exec_events (pre ++ post) st
  = (exec_events pre st
     ++ match exec pre st with
        | (st', Ok _) => exec_events post st'
        | (_, Raise _) => []
        end)%list.
Proof.
  revert st. induction pre as [|s pre IH]; intros st; cbn [app exec_events exec].
  - reflexivity.
  - unfold bind. destruct (run s st) as [st1 [[]|e]].
    + rewrite IH, app_assoc. reflexivity.
    + rewrite !app_nil_r. reflexivity.
Qed.

(** What a statement that is no [if] statement did: what its label says,
    when it returned. *)
Lemma simple_events (s : Step) (st : Frame.t) :
  simple s = true ->
  stmt_events (stmt s) st
  = match run s st with
    | (_, Ok _) => static_events [s]
    | (_, Raise _) => []
    end.
Proof.
  unfold simple, static_events, run, label. cbn [omap list_omap].
  destruct (stmt s); try discriminate;
    intros _; cbn [stmt_events label_of];
    destruct (run_stmt _ st) as [st' [[]|e]]; reflexivity.
Qed.

Lemma static_events_cons (s : Step) (steps : list Step) :
  static_events (s :: steps) = (static_events [s] ++ static_events steps)%list.
Proof.
  unfold static_events. cbn [omap list_omap app]. destruct (label s); reflexivity.
Qed.

(** A run of statements with no [if] among them did what the statements
    that returned say, in order: a prefix of what the whole list says. *)
Lemma exec_events_prefix (steps : list Step) (st : Frame.t) :
  forallb simple steps = true ->
  exec_events steps st `prefix_of` static_events steps.
Proof.
  revert st. induction steps as [|s steps IH]; intros st Hsimple.
  - apply prefix_nil.
  - cbn [forallb] in Hsimple. apply andb_prop in Hsimple as [Hs Hsteps].
    cbn [exec_events]. rewrite (simple_events s st Hs), (static_events_cons s steps).
    destruct (run s st) as [st1 [[]|e]].
    + apply prefix_app, IH, Hsteps.
    + apply prefix_nil.
Qed.

(** When the run returns, all of it. *)
Lemma exec_events_returning (steps : list Step) (st : Frame.t) :
  forallb simple steps = true ->
  snd (exec steps st) = Ok tt ->
  exec_events steps st = static_events steps.
Proof.
  revert st. induction steps as [|s steps IH]; intros st Hsimple Hret.
  - reflexivity.
  - cbn [forallb] in Hsimple. apply andb_prop in Hsimple as [Hs Hsteps].
    cbn [exec_events exec] in *. unfold bind in Hret.
    rewrite (simple_events s st Hs), (static_events_cons s steps).
    destruct (run s st) as [st1 [[]|e]]; [|discriminate Hret].
    rewrite (IH st1 Hsteps Hret). reflexivity.
Qed.

(** The call of line 69 populates nothing, in any frame. *)
Lemma line_69_events (st : Frame.t) : stmt_events (stmt DFN.line_69) st = [].
Proof.
  pose proof (line_69_raises st) as (st' & e & Hraise).
  unfold run in Hraise. unfold DFN.line_69 in *. cbn [stmt stmt_events] in *.
  rewrite Hraise. reflexivity.
Qed.

(** What a run of [DFN.__init__] does before it stops at line 69: from
    any frame, a prefix of the creations, populations and merges of
    lines 52-68.  The electrolyte current model is created and neither
    populated nor merged; the electrode and the thermal model are not
    created. *)
Lemma run_events_up_to_line_69 (options : gmap string string) (st : Frame.t) :
  exec_events (DFN.body options) st
  `prefix_of`
    [Create "negative_particle_model" "particle.Standard";
     Populate "negative_particle_model" "set_differential_system";
     Create "positive_particle_model" "particle.Standard";
     Populate "positive_particle_model" "set_differential_system";
     Merge "negative_particle_model";
     Merge "positive_particle_model";
     Create "electrolyte_diffusion_model" "electrolyte_diffusion.StefanMaxwell";
     Populate "electrolyte_diffusion_model" "set_differential_system";
     Merge "electrolyte_diffusion_model";
     Create "eleclyte_current_model" "electrolyte_current.MacInnesStefanMaxwell"].
Proof.
  rewrite body_around_line_69, exec_events_app.
  pose proof (exec_events_prefix before_line_69 st eq_refl) as Hprefix.
  change (static_events before_line_69) with
    [Create "negative_particle_model" "particle.Standard";
     Populate "negative_particle_model" "set_differential_system";
     Create "positive_particle_model" "particle.Standard";
     Populate "positive_particle_model" "set_differential_system";
     Merge "negative_particle_model";
     Merge "positive_particle_model";
     Create "electrolyte_diffusion_model" "electrolyte_diffusion.StefanMaxwell";
     Populate "electrolyte_diffusion_model" "set_differential_system";
     Merge "electrolyte_diffusion_model";
     Create "eleclyte_current_model" "electrolyte_current.MacInnesStefanMaxwell"]
    in Hprefix.
  destruct (exec before_line_69 st) as [st1 [[]|e]];
    [|rewrite app_nil_r; exact Hprefix].
  cbn [exec_events]. rewrite line_69_events.
  destruct (line_69_raises st1) as (st2 & e & ->).
  cbn [app]. rewrite app_nil_r. exact Hprefix.
Qed.

(** ** The population calls of each block *)

(** A run of statements that returns ran each of them. *)
Lemma exec_cons_Ok (s : Step) (rest : list Step) (st : Frame.t) :
  snd (exec (s :: rest) st) = Ok tt ->
  exists st1, run s st = (st1, Ok tt) /\ snd (exec rest st1) = Ok tt.
Proof.
  cbn [exec]. unfold bind. destruct (run s st) as [st1 [[]|e]]; [|discriminate].
  intros H. exists st1. split; [reflexivity | exact H].
Qed.

Lemma thermal_option_is_run (value : string) (st : Frame.t) :
  DFN.thermal_option_is value st
  = match Model.options (Frame.self st) !! "thermal" with
    | Some thermal => (st, Ok (String.eqb thermal value))
    | None => (st, Raise (KeyError "thermal"))
    end.
Proof.
  unfold DFN.thermal_option_is, bind, gets, lift, getitem, ret.
  destruct (Model.options (Frame.self st) !! "thermal"); reflexivity.
Qed.

Lemma If_run (condition : M Frame.t bool) (then_ else_ : Stmt) (st : Frame.t) :
  run_stmt (If condition then_ else_) st
  = match condition st with
    | (st', Ok b) => run_stmt (if b then then_ else else_) st'
    | (st', Raise e) => (st', Raise e)
    end.
Proof.
  cbn [run_stmt]. unfold bind.
  destruct (condition st) as [st' [[]|e]]; reflexivity.
Qed.

Lemma If_events (condition : M Frame.t bool) (then_ else_ : Stmt) (st : Frame.t) :
  stmt_events (If condition then_ else_) st
  = match condition st with
    | (st', Ok b) => stmt_events (if b then then_ else else_) st'
    | (_, Raise _) => []
    end.
Proof.
  cbn [stmt_events]. destruct (condition st) as [st' [[]|e]]; reflexivity.
Qed.

(** The thermal block, run to its end. *)
Lemma thermal_block_events (options : gmap string string) (st : Frame.t) :
  snd (exec (DFN.thermal_block options) st) = Ok tt ->
  exists thermal,
    Model.options (Frame.self st) !! "thermal" = Some thermal
    /\ exec_events (DFN.thermal_block options) st
       = (Create "thermal_model" "thermal.Thermal" :: thermal_events thermal
          ++ [Merge "thermal_model"])%list.
Proof.
  unfold DFN.thermal_block. intros Hret.
  apply exec_cons_Ok in Hret as (st1 & Hnew & Hret).
  apply exec_cons_Ok in Hret as (st2 & Hif & Hret).
  apply exec_cons_Ok in Hret as (st3 & Hupdate & _).
  assert (Hoptions : Model.options (Frame.self st1) = Model.options (Frame.self st)).
  { unfold run in Hnew. cbn [run_stmt stmt] in Hnew.
    unfold Frame.param, Frame.store, bind, gets, modify in Hnew.
    injection Hnew as <-. reflexivity. }
  cbn [exec_events]. rewrite Hnew, Hif, Hupdate.
  unfold run in Hnew, Hif, Hupdate. cbn [stmt] in *.
  rewrite If_run in Hif. rewrite If_events.
  rewrite thermal_option_is_run, Hoptions in Hif |- *.
  destruct (Model.options (Frame.self st) !! "thermal") as [thermal|] eqn:Hthermal;
    [|discriminate Hif].
  exists thermal. split; [reflexivity|]. unfold thermal_events.
  destruct (String.eqb thermal "full").
  - cbn [stmt_events label_of]. rewrite Hnew, Hif, Hupdate. reflexivity.
  - rewrite If_run in Hif. rewrite If_events.
    rewrite thermal_option_is_run, Hoptions, Hthermal in Hif |- *.
    destruct (String.eqb thermal "lumped");
      cbn [stmt_events label_of]; rewrite Hnew, ?Hif, Hupdate; reflexivity.
Qed.



(* ===================================================================== *)
(** * 19. Merging an unpopulated submodel                                 *)
(* ===================================================================== *)

Lemma combine_empty {V} (field : string) (target : dict V) :
  Model.combine field target [] = Ok target.
Proof. unfold Model.combine. simpl. rewrite app_nil_r. reflexivity. Qed.

Lemma combine_variables_empty (target : gmap string Symbol) :
  Model.combine_variables target ∅ = Ok target.
Proof.
  unfold Model.combine_variables.
  rewrite bool_decide_eq_true_2 by apply map_disjoint_empty_r.
  rewrite (left_id_L ∅ (∪)). reflexivity.
Qed.

(** Merging a submodel that was created and never populated succeeds and
    changes nothing. *)
Lemma update_unpopulated (p : Param.t) (target : Model.t) :
  Model.update (SubModel.init p) target = (target, Ok tt).
Proof.
  unfold Model.update, SubModel.init.
  cbn [SubModel.variables SubModel.rhs SubModel.algebraic
       SubModel.boundary_conditions SubModel.initial_conditions SubModel.events].
  rewrite combine_variables_empty, !combine_empty, app_nil_r.
  destruct target; reflexivity.
Qed.

Lemma self_update_unpopulated (x : string) (p : Param.t) (st : Frame.t) :
  Frame.locals st !! x = Some (VSubModel (SubModel.init p)) ->
  Frame.self_update x st = (st, Ok tt).
Proof.
  intros Hx.
  unfold Frame.self_update, Frame.load_submodel, Frame.load, Frame.on_self, bind.
  rewrite Hx. cbn [ret]. rewrite update_unpopulated.
  destruct st; reflexivity.
Qed.

(** C9.  When [options["thermal"]] is neither "full" nor "lumped", the
    thermal block (lines 81-86) creates the thermal submodel, populates
    nothing, and merges it: the submodel passed to [update] has every
    field empty, the merge succeeds, and the target model is the same
    afterwards: every mapping field and the events list unchanged. *)
Theorem unpopulated_thermal_merge_is_noop (options : gmap string string)
    (st : Frame.t) (thermal : string) :
  Model.options (Frame.self st) !! "thermal" = Some thermal ->
  thermal <> "full" ->
  thermal <> "lumped" ->
  exists st',
    exec (DFN.thermal_block options) st = (st', Ok tt)
    /\ Frame.locals st' !! "thermal_model"
       = Some (VSubModel
                 (SubModel.mk (Lib.standard_parameters_lithium_ion (Frame.globals st))
                    ∅ [] [] [] [] [] None))
    /\ Frame.self st' = Frame.self st.
Proof.
  intros Hopt Hfull Hlumped.
  apply String.eqb_neq in Hfull, Hlumped.
  set (param := Lib.standard_parameters_lithium_ion (Frame.globals st)).
  set (st1 := Frame.set_locals
                (insert "thermal_model" (VSubModel (SubModel.init param))) st).
  assert (Hnew : run_stmt (New "thermal_model" "thermal.Thermal") st = (st1, Ok tt))
    by reflexivity.
  assert (Hupdate : run_stmt (Update "thermal_model") st1 = (st1, Ok tt)).
  { apply (self_update_unpopulated "thermal_model" param), lookup_insert_eq. }
  exists st1. split; [|split; [apply lookup_insert_eq | reflexivity]].
  unfold DFN.thermal_block. cbn [exec]. unfold run, bind. cbn [stmt].
  rewrite Hnew, If_run, thermal_option_is_run.
  change (Model.options (Frame.self st1)) with (Model.options (Frame.self st)).
  rewrite Hopt, Hfull, If_run, thermal_option_is_run.
  change (Model.options (Frame.self st1)) with (Model.options (Frame.self st)).
  rewrite Hopt, Hlumped. cbn [run_stmt ret] in Hupdate |- *.
  rewrite Hupdate. reflexivity.
Qed.

Lemma unpopulated_thermal_merge_is_noop_witness :
  let st := Frame.mk Sample.lib (Model.init Sample.thermal_off) ∅ in
  exists st',
    exec (DFN.thermal_block Sample.thermal_off) st = (st', Ok tt)
    /\ Frame.locals st' !! "thermal_model"
       = Some (VSubModel
                 (SubModel.mk (Lib.standard_parameters_lithium_ion (Frame.globals st))
                    ∅ [] [] [] [] [] None))
    /\ Frame.self st' = Frame.self st.
Proof.
  intros st.
  apply (unpopulated_thermal_merge_is_noop Sample.thermal_off st "off");
    [reflexivity | discriminate | discriminate].
Defined.

(* ===================================================================== *)
(** * 20. The merges a run reaches                                        *)
(* ===================================================================== *)



(* ===================================================================== *)
(** * 21. Further properties of [set_algebraic_system]                    *)
(* ===================================================================== *)

Lemma reaction_quantity_missing (reactions : Reactions)
    (name side quantity : string) :
  reactions_entry reactions name side quantity = None ->
  exists key,
    reaction_quantity reactions name side quantity = Raise (KeyError key)
    /\ key ∈ [name; side; quantity].
Proof.
  unfold reactions_entry, reaction_quantity, getitem.
  destruct (reactions !! name) as [by_side|]; cbn [and_then];
    [|intros _; exists name; split; [reflexivity | apply list_elem_of_In; simpl; tauto]].
  destruct (by_side !! side) as [quantities|]; cbn [and_then];
    [|intros _; exists side; split; [reflexivity | apply list_elem_of_In; simpl; tauto]].
  intros ->. exists quantity. split; [reflexivity | apply list_elem_of_In; simpl; tauto].
Qed.

(** X1.  When the reaction dictionary lacks [reactions["main"]["neg"]["aj"]],
    or has it as an expression and lacks [reactions["main"]["pos"]["aj"]],
    [set_algebraic_system] raises [KeyError] for the first key that is
    missing and assigns nothing: the submodel is as it was. *)
Theorem set_algebraic_system_missing_entry (self : SubModel.t)
    (phi_e c_e : Symbol) (reactions : Reactions) (epsilon : option Symbol) :
  reactions_entry reactions "main" "neg" "aj" = None
  \/ ((exists j_n, reactions_entry reactions "main" "neg" "aj" = Some (Sym j_n))
      /\ reactions_entry reactions "main" "pos" "aj" = None) ->
  exists key,
    set_algebraic_system phi_e c_e reactions epsilon self
    = (self, Raise (KeyError key))
    /\ key ∈ ["main"; "neg"; "pos"; "aj"].
Proof.
  intros [Hneg|[[j_n Hneg] Hpos]].
  - destruct (reaction_quantity_missing _ _ _ _ Hneg) as (key & Hkey & Hin).
    exists key.
    split; [|apply list_elem_of_In in Hin; apply list_elem_of_In; simpl in *; tauto].
    unfold set_algebraic_system, bind, gets, lift. rewrite Hkey. reflexivity.
  - destruct (reaction_quantity_missing _ _ _ _ Hpos) as (key & Hkey & Hin).
    exists key.
    split; [|apply list_elem_of_In in Hin; apply list_elem_of_In; simpl in *; tauto].
    unfold set_algebraic_system.
    unfold bind at 1. unfold gets at 1.
    unfold bind at 1. unfold lift at 1.
    rewrite (reaction_quantity_lookup _ _ _ _ _ Hneg).
    unfold bind at 1. unfold lift at 1. rewrite Hkey. reflexivity.
Qed.

Lemma set_algebraic_system_missing_entry_witness :
  exists key,
    set_algebraic_system (Scalar 0) (Scalar 1) ∅ None Sample.submodel
    = (Sample.submodel, Raise (KeyError key))
    /\ key ∈ ["main"; "neg"; "pos"; "aj"].
Proof.
  apply (set_algebraic_system_missing_entry Sample.submodel (Scalar 0) (Scalar 1)
           ∅ None).
  left. reflexivity.
Defined.

(** A call that returns found both entries, built its nodes and unpacked
    a [phi_e] of three parts. *)
Lemma set_algebraic_system_returning (self : SubModel.t) (phi_e c_e : Symbol)
    (reactions : Reactions) (epsilon : option Symbol) :
  snd (set_algebraic_system phi_e c_e reactions epsilon self) = Ok tt ->
  exists j_n j_p i_e equation a b c,
    reactions_entry reactions "main" "neg" "aj" = Some j_n
    /\ reactions_entry reactions "main" "pos" "aj" = Some j_p
    /\ algebraic_system (SubModel.set_of_parameters self)
         (default (Param.epsilon (SubModel.set_of_parameters self)) epsilon)
         c_e phi_e j_n j_p = Ok (i_e, equation)
    /\ orphans phi_e = [a; b; c].
Proof.
  intros Hret.
  destruct (reactions_entry reactions "main" "neg" "aj") as [j_n|] eqn:Hn.
  2: { destruct (reaction_quantity_missing _ _ _ _ Hn) as (key & Hkey & _).
       unfold set_algebraic_system, bind, gets, lift in Hret.
       rewrite Hkey in Hret. discriminate Hret. }
  destruct (reactions_entry reactions "main" "pos" "aj") as [j_p|] eqn:Hp.
  2: { destruct (reaction_quantity_missing _ _ _ _ Hp) as (key & Hkey & _).
       unfold set_algebraic_system, bind, gets, lift in Hret.
       rewrite (reaction_quantity_lookup _ _ _ _ _ Hn), Hkey in Hret.
       discriminate Hret. }
  rewrite (set_algebraic_system_run self phi_e c_e reactions epsilon j_n j_p Hn Hp)
    in Hret.
  destruct (algebraic_system _ _ c_e phi_e j_n j_p) as [[i_e equation]|e] eqn:Hsystem;
    [|discriminate Hret].
  cbv zeta in Hret.
  destruct (orphans phi_e) as [|a [|b [|c [|d l]]]] eqn:Horphans;
    cbn [unpack3] in Hret; try discriminate Hret.
  exists j_n, j_p, i_e, equation, a, b, c. auto.
Qed.

(** X2.  With a [phi_e] of exactly three parts, both "aj" entries and
    domains the constructors of lines 117-129 accept,
    [set_algebraic_system] returns; it leaves in [variables] the mapping
    of [get_variables], in which the average electrolyte overpotential is
    the average of the positive part minus the average of the negative
    part, sets the solver hint to the DAE solver, and leaves [events] and
    the parameter object as they were. *)
Theorem set_algebraic_system_success (self : SubModel.t)
    (phi_e c_e i_e equation a b c : Symbol) (j_n j_p : Num)
    (reactions : Reactions) (epsilon : option Symbol) :
  reactions_entry reactions "main" "neg" "aj" = Some j_n ->
  reactions_entry reactions "main" "pos" "aj" = Some j_p ->
  algebraic_system (SubModel.set_of_parameters self)
    (default (Param.epsilon (SubModel.set_of_parameters self)) epsilon)
    c_e phi_e j_n j_p = Ok (i_e, equation) ->
  orphans phi_e = [a; b; c] ->
  let out := set_algebraic_system phi_e c_e reactions epsilon self in
  snd out = Ok tt
  /\ SubModel.variables (fst out) !! "Electrolyte potential" = Some phi_e
  /\ SubModel.variables (fst out) !! "Negative electrolyte potential" = Some a
  /\ SubModel.variables (fst out) !! "Separator electrolyte potential" = Some b
  /\ SubModel.variables (fst out) !! "Positive electrolyte potential" = Some c
  /\ SubModel.variables (fst out) !! "Average electrolyte overpotential"
     = Some (Average c - Average a)%sym
  /\ SubModel.variables (fst out) !! "Electrolyte current density"
     = Some (MacInnes_flux (SubModel.set_of_parameters self)
               (default (Param.epsilon (SubModel.set_of_parameters self)) epsilon)
               c_e phi_e)
  /\ size (SubModel.variables (fst out)) = 12%nat
  /\ SubModel.default_solver (fst out) = Some ScikitsDaeSolver
  /\ SubModel.events (fst out) = SubModel.events self
  /\ SubModel.set_of_parameters (fst out) = SubModel.set_of_parameters self.
Proof.
  intros Hn Hp Hsystem Horphans out. subst out.
  destruct (set_algebraic_system_returns self phi_e c_e i_e equation a b c j_n j_p
              reactions epsilon Hn Hp Hsystem Horphans) as (variables & Hvars & ->).
  apply algebraic_system_Ok in Hsystem as (_ & _ & _ & Hi & _).
  rewrite (get_variables_three_parts _ _ _ _ a b c Horphans) in Hvars.
  injection Hvars as <-. rewrite <- Hi.
  cbn [fst snd SubModel.variables SubModel.default_solver
       SubModel.events SubModel.set_of_parameters].
  split; [reflexivity|].
  repeat split; vm_compute; reflexivity.
Qed.

Lemma set_algebraic_system_success_witness :
  let phi_e := StandardVariables.phi_e Sample.standard_variables in
  let c_e := StandardVariables.c_e Sample.standard_variables in
  let a := Variable_ "Negative electrolyte potential" ["negative electrode"] in
  let b := Variable_ "Separator electrolyte potential" ["separator"] in
  let c := Variable_ "Positive electrolyte potential" ["positive electrode"] in
  let out :=
    set_algebraic_system phi_e c_e
      (DFN.reactions_literal SampleFrames.j_n SampleFrames.j_p) None
      Sample.submodel in
  snd out = Ok tt
  /\ SubModel.variables (fst out) !! "Electrolyte potential" = Some phi_e
  /\ SubModel.variables (fst out) !! "Negative electrolyte potential" = Some a
  /\ SubModel.variables (fst out) !! "Separator electrolyte potential" = Some b
  /\ SubModel.variables (fst out) !! "Positive electrolyte potential" = Some c
  /\ SubModel.variables (fst out) !! "Average electrolyte overpotential"
     = Some (Average c - Average a)%sym
  /\ SubModel.variables (fst out) !! "Electrolyte current density"
     = Some (MacInnes_flux (SubModel.set_of_parameters Sample.submodel)
               (default (Param.epsilon (SubModel.set_of_parameters Sample.submodel)) None)
               c_e phi_e)
  /\ size (SubModel.variables (fst out)) = 12%nat
  /\ SubModel.default_solver (fst out) = Some ScikitsDaeSolver
  /\ SubModel.events (fst out) = SubModel.events Sample.submodel
  /\ SubModel.set_of_parameters (fst out) = SubModel.set_of_parameters Sample.submodel.
Proof.
  intros phi_e c_e a b c.
  set (i_e := MacInnes_flux Sample.param (Param.epsilon Sample.param) c_e phi_e).
  set (j := Concatenation [SampleFrames.j_n; Broadcast (Scalar 0) ["separator"];
                           SampleFrames.j_p]).
  apply (set_algebraic_system_success Sample.submodel phi_e c_e
           i_e (Divergence i_e - j)%sym a b c
           (Sym SampleFrames.j_n) (Sym SampleFrames.j_p)
           (DFN.reactions_literal SampleFrames.j_n SampleFrames.j_p) None);
    vm_compute; reflexivity.
Defined.

(** X3.  When the constructors of lines 117-129 accept the domains and
    [phi_e] does not have three parts, the unpacking of line 137 raises
    [ValueError] after the four equation fields were assigned: the
    submodel is left with [algebraic], [boundary_conditions],
    [initial_conditions] and [rhs] of the new system, and with the
    [variables] and the solver hint it had before the call. *)
Theorem set_algebraic_system_half_populated (self : SubModel.t)
    (phi_e c_e i_e equation : Symbol) (j_n j_p : Num) (reactions : Reactions)
    (epsilon : option Symbol) :
  reactions_entry reactions "main" "neg" "aj" = Some j_n ->
  reactions_entry reactions "main" "pos" "aj" = Some j_p ->
  algebraic_system (SubModel.set_of_parameters self)
    (default (Param.epsilon (SubModel.set_of_parameters self)) epsilon)
    c_e phi_e j_n j_p = Ok (i_e, equation) ->
  length (orphans phi_e) <> 3%nat ->
  let param := SubModel.set_of_parameters self in
  let j := Concatenation [as_expression j_n; Broadcast (Scalar 0) ["separator"];
                          as_expression j_p] in
  i_e = MacInnes_flux param (default (Param.epsilon param) epsilon) c_e phi_e
  /\ equation = (Divergence i_e - j)%sym
  /\ exists msg,
       set_algebraic_system phi_e c_e reactions epsilon self
       = (SubModel.mk param (SubModel.variables self) []
            [(phi_e, equation)]
            [(i_e, {[ "left" := Int 0; "right" := Int 0 ]})]
            [(phi_e, (- Param.U_n param (Param.c_n_init param))%sym)]
            (SubModel.events self) (SubModel.default_solver self),
          Raise (ValueError msg)).
Proof.
  intros Hn Hp Hsystem Hlen param j.
  rewrite (set_algebraic_system_run self phi_e c_e reactions epsilon j_n j_p Hn Hp).
  fold param in Hsystem |- *. rewrite Hsystem.
  apply algebraic_system_Ok in Hsystem as (_ & _ & _ & Hi & Hr).
  split; [exact Hi|]. split; [exact Hr|]. cbv zeta.
  destruct (orphans phi_e) as [|x1 [|x2 [|x3 [|x4 l]]]]; cbn [unpack3 length] in *;
    try (eexists; reflexivity).
  contradiction Hlen. reflexivity.
Qed.

Lemma set_algebraic_system_half_populated_witness :
  let self := Sample.submodel in
  let phi_e :=
    Variable_ "Electrolyte potential"
      ["negative electrode"; "separator"; "positive electrode"] in
  let c_e := StandardVariables.c_e Sample.standard_variables in
  let param := SubModel.set_of_parameters self in
  let i_e := MacInnes_flux param (Param.epsilon param) c_e phi_e in
  let j := Concatenation [SampleFrames.j_n; Broadcast (Scalar 0) ["separator"];
                          SampleFrames.j_p] in
  exists msg,
    set_algebraic_system phi_e c_e
      (DFN.reactions_literal SampleFrames.j_n SampleFrames.j_p) None self
    = (SubModel.mk param (SubModel.variables self) []
         [(phi_e, (Divergence i_e - j)%sym)]
         [(i_e, {[ "left" := Int 0; "right" := Int 0 ]})]
         [(phi_e, (- Param.U_n param (Param.c_n_init param))%sym)]
         (SubModel.events self) (SubModel.default_solver self),
       Raise (ValueError msg)).
Proof.
  intros self phi_e c_e param i_e j.
  apply (set_algebraic_system_half_populated self phi_e c_e
           i_e (Divergence i_e - j)%sym
           (Sym SampleFrames.j_n) (Sym SampleFrames.j_p)
           (DFN.reactions_literal SampleFrames.j_n SampleFrames.j_p) None);
    [vm_compute; reflexivity | vm_compute; reflexivity | vm_compute; reflexivity
    | vm_compute; discriminate].
Defined.

(** X4.  [set_algebraic_system] replaces what the submodel held: when it
    returns, the submodel it leaves depends on the parameter object and
    the events only, whatever [rhs], [algebraic], the conditions, the
    variables and the solver hint were; so a second call with the same
    arguments changes nothing. *)
Theorem set_algebraic_system_overwrites (self1 self2 : SubModel.t)
    (phi_e c_e : Symbol) (reactions : Reactions) (epsilon : option Symbol) :
  snd (set_algebraic_system phi_e c_e reactions epsilon self1) = Ok tt ->
  SubModel.set_of_parameters self1 = SubModel.set_of_parameters self2 ->
  SubModel.events self1 = SubModel.events self2 ->
  set_algebraic_system phi_e c_e reactions epsilon self1
  = set_algebraic_system phi_e c_e reactions epsilon self2
  /\ set_algebraic_system phi_e c_e reactions epsilon
       (fst (set_algebraic_system phi_e c_e reactions epsilon self1))
     = set_algebraic_system phi_e c_e reactions epsilon self1.
Proof.
  intros Hret Hparam Hevents.
  destruct (set_algebraic_system_returning self1 phi_e c_e reactions epsilon Hret)
    as (j_n & j_p & i_e & equation & a & b & c & Hn & Hp & Hsystem & Horphans).
  assert (Hdepends : forall s,
    SubModel.set_of_parameters self1 = SubModel.set_of_parameters s ->
    SubModel.events self1 = SubModel.events s ->
    set_algebraic_system phi_e c_e reactions epsilon self1
    = set_algebraic_system phi_e c_e reactions epsilon s).
  { intros s Hpar Hev.
    assert (Hsystem' := Hsystem). rewrite Hpar in Hsystem'.
    destruct (set_algebraic_system_returns self1 phi_e c_e i_e equation a b c
                j_n j_p reactions epsilon Hn Hp Hsystem Horphans)
      as (v1 & Hv1 & ->).
    destruct (set_algebraic_system_returns s phi_e c_e i_e equation a b c
                j_n j_p reactions epsilon Hn Hp Hsystem' Horphans)
      as (v2 & Hv2 & ->).
    rewrite (get_variables_three_parts _ _ _ _ a b c Horphans) in Hv1.
    rewrite (get_variables_three_parts _ _ _ _ a b c Horphans) in Hv2.
    injection Hv1 as <-. injection Hv2 as <-.
    rewrite Hpar, Hev. reflexivity. }
  split; [apply Hdepends; assumption|].
  symmetry. apply Hdepends.
  - destruct (set_algebraic_system_returns self1 phi_e c_e i_e equation a b c
                j_n j_p reactions epsilon Hn Hp Hsystem Horphans)
      as (v1 & _ & ->). reflexivity.
  - destruct (set_algebraic_system_returns self1 phi_e c_e i_e equation a b c
                j_n j_p reactions epsilon Hn Hp Hsystem Horphans)
      as (v1 & _ & ->). reflexivity.
Qed.

Lemma set_algebraic_system_overwrites_witness :
  let phi_e := StandardVariables.phi_e Sample.standard_variables in
  let c_e := StandardVariables.c_e Sample.standard_variables in
  let reactions := DFN.reactions_literal SampleFrames.j_n SampleFrames.j_p in
  let self1 := Sample.submodel in
  let self2 := SubModel.set_rhs [(c_e, Scalar 0)] Sample.submodel in
  set_algebraic_system phi_e c_e reactions None self1
  = set_algebraic_system phi_e c_e reactions None self2
  /\ set_algebraic_system phi_e c_e reactions None
       (fst (set_algebraic_system phi_e c_e reactions None self1))
     = set_algebraic_system phi_e c_e reactions None self1.
Proof.
  intros phi_e c_e reactions self1 self2.
  apply (set_algebraic_system_overwrites self1 self2 phi_e c_e reactions None);
    vm_compute; reflexivity.
Defined.

Lemma MacInnes_flux_larger (param : Param.t) (eps c_e phi_e : Symbol) :
  (Symbol_size phi_e < Symbol_size (MacInnes_flux param eps c_e phi_e))%nat.
Proof. unfold MacInnes_flux. cbn [Symbol_size]. lia. Qed.

(** X5.  The boundary conditions a call of [set_algebraic_system] that
    returns leaves are keyed by the flux [i_e], which contains
    [grad(phi_e)] and so is never the state variable [phi_e]: no key of
    [boundary_conditions] is a key of [algebraic] or of [rhs], while
    [initial_conditions] has exactly the key of [algebraic]. *)
Theorem set_algebraic_system_condition_keys (self : SubModel.t)
    (phi_e c_e : Symbol) (reactions : Reactions) (epsilon : option Symbol) :
  snd (set_algebraic_system phi_e c_e reactions epsilon self) = Ok tt ->
  let self' := fst (set_algebraic_system phi_e c_e reactions epsilon self) in
  dict_keys (SubModel.algebraic self') = [phi_e]
  /\ (forall k, k ∈ dict_keys (SubModel.boundary_conditions self') ->
        (k ∉ dict_keys (SubModel.algebraic self'))
        /\ (k ∉ dict_keys (SubModel.rhs self')))
  /\ dict_keys (SubModel.initial_conditions self')
     = dict_keys (SubModel.algebraic self').
Proof.
  intros Hret self'. subst self'.
  destruct (set_algebraic_system_returning self phi_e c_e reactions epsilon Hret)
    as (j_n & j_p & i_e & equation & a & b & c & Hn & Hp & Hsystem & Horphans).
  destruct (set_algebraic_system_returns self phi_e c_e i_e equation a b c
              j_n j_p reactions epsilon Hn Hp Hsystem Horphans)
    as (variables & _ & ->).
  apply algebraic_system_Ok in Hsystem as (_ & _ & _ & Hi & _).
  cbn [fst SubModel.algebraic SubModel.boundary_conditions
       SubModel.initial_conditions SubModel.rhs dict_keys map].
  split; [reflexivity|]. split; [|reflexivity].
  intros k Hk. apply list_elem_of_singleton in Hk. subst k.
  split; [|apply not_elem_of_nil].
  intros Hin. apply list_elem_of_singleton in Hin.
  pose proof (MacInnes_flux_larger (SubModel.set_of_parameters self)
                (default (Param.epsilon (SubModel.set_of_parameters self)) epsilon)
                c_e phi_e) as Hsize.
  rewrite <- Hi, Hin in Hsize. lia.
Qed.

Lemma set_algebraic_system_condition_keys_witness :
  let self' :=
    fst (set_algebraic_system
           (StandardVariables.phi_e Sample.standard_variables)
           (StandardVariables.c_e Sample.standard_variables)
           (DFN.reactions_literal SampleFrames.j_n SampleFrames.j_p) None
           Sample.submodel) in
  dict_keys (SubModel.algebraic self')
  = [StandardVariables.phi_e Sample.standard_variables]
  /\ (forall k, k ∈ dict_keys (SubModel.boundary_conditions self') ->
        (k ∉ dict_keys (SubModel.algebraic self'))
        /\ (k ∉ dict_keys (SubModel.rhs self')))
  /\ dict_keys (SubModel.initial_conditions self')
     = dict_keys (SubModel.algebraic self').
Proof.
  apply (set_algebraic_system_condition_keys Sample.submodel
           (StandardVariables.phi_e Sample.standard_variables)
           (StandardVariables.c_e Sample.standard_variables)
           (DFN.reactions_literal SampleFrames.j_n SampleFrames.j_p) None).
  vm_compute. reflexivity.
Defined.

(** X6.  The method takes three or four positional arguments (line 95):
    with fewer than three or more than four the call raises [TypeError]
    and the submodel is as it was; with [(phi_e, c_e, reactions)] it runs
    the body with [epsilon=None], and with a fourth expression it runs
    the body with that porosity. *)
Theorem set_algebraic_system_arity (args : list PyVal) (sm : SubModel.t) :
  ((length args < 3 \/ 4 < length args)%nat ->
     exists msg,
       call_MacInnesStefanMaxwell_set_algebraic_system args sm
       = (sm, Raise (TypeError msg)))
  /\ (forall phi_e c_e reactions,
        args = [VSymbol phi_e; VSymbol c_e; VReactions reactions] ->
        call_MacInnesStefanMaxwell_set_algebraic_system args sm
        = set_algebraic_system phi_e c_e reactions None sm)
  /\ (forall phi_e c_e reactions epsilon,
        args = [VSymbol phi_e; VSymbol c_e; VReactions reactions; VSymbol epsilon] ->
        call_MacInnesStefanMaxwell_set_algebraic_system args sm
        = set_algebraic_system phi_e c_e reactions (Some epsilon) sm).
Proof.
  split; [|split].
  - intros Hlen.
    unfold call_MacInnesStefanMaxwell_set_algebraic_system, bind_arguments, bind, lift.
    cbn [length]. destruct Hlen as [Hlen|Hlen].
    + apply Nat.ltb_lt in Hlen. rewrite Hlen. eexists. reflexivity.
    + destruct (length args <? 3)%nat; [eexists; reflexivity|].
      apply Nat.ltb_lt in Hlen. cbn [Nat.add]. rewrite Hlen. eexists. reflexivity.
  - intros phi_e c_e reactions ->. apply call_with_three_arguments_runs.
  - intros phi_e c_e reactions epsilon ->.
    unfold call_MacInnesStefanMaxwell_set_algebraic_system, bind, lift. simpl.
    destruct (set_algebraic_system _ _ _ _ _) as [sm' r]. reflexivity.
Qed.

(** X7.  The reaction dictionary of lines 60-62 carries the two entries
    [set_algebraic_system] reads: called with a three-part [phi_e], a
    [c_e] and that dictionary, on domains the constructors of lines
    117-129 accept, the method returns and the residual it leaves for
    [phi_e] has the source term
    [Concatenation(j_n, Broadcast(0, separator), j_p)] of the two
    interfacial current densities. *)
Theorem set_algebraic_system_on_DFN_reactions (sm : SubModel.t)
    (phi_e c_e j_n j_p i_e equation a b c : Symbol) :
  algebraic_system (SubModel.set_of_parameters sm)
    (Param.epsilon (SubModel.set_of_parameters sm)) c_e phi_e (Sym j_n) (Sym j_p)
  = Ok (i_e, equation) ->
  orphans phi_e = [a; b; c] ->
  let out :=
    call_MacInnesStefanMaxwell_set_algebraic_system
      [VSymbol phi_e; VSymbol c_e; VReactions (DFN.reactions_literal j_n j_p)] sm in
  let param := SubModel.set_of_parameters sm in
  snd out = Ok tt
  /\ SubModel.algebraic (fst out)
     = [(phi_e,
         (Divergence (MacInnes_flux param (Param.epsilon param) c_e phi_e)
          - Concatenation [j_n; Broadcast (Scalar 0) ["separator"]; j_p])%sym)]
  /\ reactions_entry (DFN.reactions_literal j_n j_p) "main" "neg" "s_plus"
     = Some (Int 1)
  /\ reactions_entry (DFN.reactions_literal j_n j_p) "main" "pos" "s_plus"
     = Some (Int 1).
Proof.
  intros Hsystem Horphans out param. subst out.
  assert (Hn : reactions_entry (DFN.reactions_literal j_n j_p) "main" "neg" "aj"
               = Some (Sym j_n)) by (vm_compute; reflexivity).
  assert (Hp : reactions_entry (DFN.reactions_literal j_n j_p) "main" "pos" "aj"
               = Some (Sym j_p)) by (vm_compute; reflexivity).
  rewrite call_with_three_arguments_runs.
  destruct (set_algebraic_system_returns sm phi_e c_e i_e equation a b c
              (Sym j_n) (Sym j_p) (DFN.reactions_literal j_n j_p) None
              Hn Hp Hsystem Horphans)
    as (variables & _ & ->).
  apply algebraic_system_Ok in Hsystem as (_ & _ & _ & -> & ->).
  split; [reflexivity|]. split; [reflexivity|].
  split; vm_compute; reflexivity.
Qed.

Lemma set_algebraic_system_on_DFN_reactions_witness :
  let sm := Sample.submodel in
  let phi_e := StandardVariables.phi_e Sample.standard_variables in
  let c_e := StandardVariables.c_e Sample.standard_variables in
  let j_n := Variable_ "j_n" ["negative electrode"] in
  let j_p := Variable_ "j_p" ["positive electrode"] in
  let out :=
    call_MacInnesStefanMaxwell_set_algebraic_system
      [VSymbol phi_e; VSymbol c_e; VReactions (DFN.reactions_literal j_n j_p)] sm in
  let param := SubModel.set_of_parameters sm in
  snd out = Ok tt
  /\ SubModel.algebraic (fst out)
     = [(phi_e,
         (Divergence (MacInnes_flux param (Param.epsilon param) c_e phi_e)
          - Concatenation [j_n; Broadcast (Scalar 0) ["separator"]; j_p])%sym)]
  /\ reactions_entry (DFN.reactions_literal j_n j_p) "main" "neg" "s_plus"
     = Some (Int 1)
  /\ reactions_entry (DFN.reactions_literal j_n j_p) "main" "pos" "s_plus"
     = Some (Int 1).
Proof.
  intros sm phi_e c_e j_n j_p.
  set (i_e := MacInnes_flux Sample.param (Param.epsilon Sample.param) c_e phi_e).
  set (j := Concatenation [j_n; Broadcast (Scalar 0) ["separator"]; j_p]).
  apply (set_algebraic_system_on_DFN_reactions sm phi_e c_e j_n j_p
           i_e (Divergence i_e - j)%sym
           (Variable_ "Negative electrolyte potential" ["negative electrode"])
           (Variable_ "Separator electrolyte potential" ["separator"])
           (Variable_ "Positive electrolyte potential" ["positive electrode"]));
    vm_compute; reflexivity.
Defined.
(* ===================================================================== *)
(** * 22. Further properties of the explicit leading-order solution       *)
(* ===================================================================== *)

(** X8.  In a call of [get_explicit_leading_order] that returns, the
    update of line 198 overwrites nothing: the mapping returned is the
    twelve entries [get_variables] gave for the potential and the current
    density of lines 173-183, updated with the four entries of
    [get_split_electrolyte_overpotential]; no name belongs to both, so
    the mapping has sixteen entries and every entry of either mapping is
    in it. *)
Theorem leading_order_update_is_disjoint (sv : SpatialVars.t)
    (self : SubModel.t) (ocp_n eta_r_n : Symbol) (result : gmap string Symbol) :
  snd (get_explicit_leading_order sv ocp_n eta_r_n self) = Ok result ->
  exists (phi_e i_e : Symbol) (variables additional_vars : gmap string Symbol),
    leading_order_potential ocp_n eta_r_n = Ok phi_e
    /\ leading_order_current sv (SubModel.set_of_parameters self) = Ok i_e
    /\ get_variables phi_e i_e (Scalar 0 + Scalar 0)%sym self
       = (self, Ok variables)
    /\ get_split_electrolyte_overpotential (Scalar 0) (Scalar 0) self
       = (self, Ok additional_vars)
    /\ result = dict_update variables additional_vars
    /\ variables ##ₘ additional_vars
    /\ size variables = 12%nat
    /\ size additional_vars = 4%nat
    /\ size result = 16%nat
    /\ variables ⊆ result
    /\ additional_vars ⊆ result.
Proof.
  intros Hret. rewrite get_explicit_leading_order_run in Hret.
  destruct (leading_order_potential ocp_n eta_r_n) as [phi_e|e] eqn:Hpot;
    [|discriminate Hret].
  destruct (leading_order_current sv _) as [i_e|e] eqn:Hcur; [|discriminate Hret].
  exists phi_e, i_e.
  apply leading_order_potential_Ok in Hpot as (_ & _ & Hphi).
  assert (Hvars := get_variables_three_parts self phi_e i_e (Scalar 0 + Scalar 0)%sym
                     (Broadcast (- ocp_n - eta_r_n)%sym ["negative electrode"])
                     (Broadcast (- ocp_n - eta_r_n)%sym ["separator"])
                     (Broadcast (- ocp_n - eta_r_n)%sym ["positive electrode"])).
  rewrite Hphi in Hvars at 1.
  specialize (Hvars (broadcast_parts_orphans (- ocp_n - eta_r_n)%sym)).
  rewrite Hvars in Hret |- *.
  unfold get_split_electrolyte_overpotential, bind, gets, ret in Hret |- *.
  cbn [fst snd] in Hret. injection Hret as <-.
  eexists _, _. split; [reflexivity|]. split; [reflexivity|].
  split; [reflexivity|]. split; [reflexivity|]. split; [reflexivity|].
  assert (Hdisjoint :
    forall v1 v2 v3 v4 v5 v6 v7 v8 v9 v10 v11 v12 w1 w2 w3 w4 : Symbol,
      dict_literal
        [("Negative electrolyte potential", v1);
         ("Separator electrolyte potential", v2);
         ("Positive electrolyte potential", v3);
         ("Electrolyte potential", v4);
         ("Electrolyte current density", v5);
         ("Average electrolyte overpotential", v6);
         ("Negative electrolyte potential [V]", v7);
         ("Separator electrolyte potential [V]", v8);
         ("Positive electrolyte potential [V]", v9);
         ("Electrolyte potential [V]", v10);
         ("Electrolyte current density [A m-2]", v11);
         ("Average electrolyte overpotential [V]", v12)]
      ##ₘ dict_literal
        [("Average concentration overpotential", w1);
         ("Average electrolyte ohmic losses", w2);
         ("Average concentration overpotential [V]", w3);
         ("Average electrolyte ohmic losses [V]", w4)]).
  { intros. apply (bool_decide_unpack _). vm_compute. exact I. }
  cbv zeta. split; [apply Hdisjoint|].
  split; [vm_compute; reflexivity|]. split; [vm_compute; reflexivity|].
  split; [vm_compute; reflexivity|].
  unfold dict_update. split.
  - apply map_union_subseteq_r. apply map_disjoint_sym. apply Hdisjoint.
  - apply map_union_subseteq_l.
Qed.

Lemma leading_order_update_is_disjoint_witness :
  exists result variables additional_vars : gmap string Symbol,
    snd (get_explicit_leading_order Sample.standard_spatial_vars
           (Parameter_ "ocp_n") (Parameter_ "eta_r_n") Sample.submodel)
    = Ok result
    /\ result = dict_update variables additional_vars
    /\ variables ##ₘ additional_vars
    /\ size result = 16%nat.
Proof.
  eexists.
  destruct (leading_order_update_is_disjoint Sample.standard_spatial_vars
              Sample.submodel (Parameter_ "ocp_n") (Parameter_ "eta_r_n") _ eq_refl)
    as (phi_e & i_e & variables & additional_vars
        & _ & _ & _ & _ & Hresult & Hdisjoint & _ & _ & Hsize & _).
  exists variables, additional_vars.
  split; [reflexivity|]. split; [exact Hresult|]. split; [exact Hdisjoint | exact Hsize].
Defined.

(** X9.  [get_variables] on a potential with three parts returns twelve
    entries: the three parts in their order, and for each dimensionless
    entry the dimensional one under the same name with its unit, which
    is the same quantity rescaled: a potential [v] gives
    [-U_n_ref + potential_scale * v], the current density [i_typ * v],
    the overpotential [potential_scale * v]. *)
Theorem get_variables_dimensional_entries (self : SubModel.t)
    (phi_e i_e eta_e_av phi_e_n phi_e_s phi_e_p : Symbol) :
  orphans phi_e = [phi_e_n; phi_e_s; phi_e_p] ->
  let param := SubModel.set_of_parameters self in
  exists d : gmap string Symbol,
    get_variables phi_e i_e eta_e_av self = (self, Ok d)
    /\ size d = 12%nat
    /\ d !! "Negative electrolyte potential" = Some phi_e_n
    /\ d !! "Separator electrolyte potential" = Some phi_e_s
    /\ d !! "Positive electrolyte potential" = Some phi_e_p
    /\ (forall name v,
          name ∈ ["Negative electrolyte potential";
                  "Separator electrolyte potential";
                  "Positive electrolyte potential";
                  "Electrolyte potential"] ->
          d !! name = Some v ->
          d !! (name ++ " [V]")
          = Some (- Param.U_n_ref param + Param.potential_scale param * v)%sym)
    /\ (forall v,
          d !! "Electrolyte current density" = Some v ->
          d !! "Electrolyte current density [A m-2]"
          = Some (Param.i_typ param * v)%sym)
    /\ (forall v,
          d !! "Average electrolyte overpotential" = Some v ->
          d !! "Average electrolyte overpotential [V]"
          = Some (Param.potential_scale param * v)%sym).
Proof.
  intros Horphans param.
  rewrite (get_variables_three_parts self phi_e i_e eta_e_av
             phi_e_n phi_e_s phi_e_p Horphans).
  eexists. split; [reflexivity|]. cbv zeta. fold param.
  split; [vm_compute; reflexivity|].
  split; [vm_compute; reflexivity|].
  split; [vm_compute; reflexivity|].
  split; [vm_compute; reflexivity|].
  split; [|split].
  - intros name v Hname Hv.
    apply list_elem_of_In in Hname. simpl in Hname.
    destruct Hname as [<-|[<-|[<-|[<-|[]]]]];
      vm_compute in Hv; injection Hv as <-; vm_compute; reflexivity.
  - intros v Hv. vm_compute in Hv. injection Hv as <-. vm_compute. reflexivity.
  - intros v Hv. vm_compute in Hv. injection Hv as <-. vm_compute. reflexivity.
Qed.

Lemma get_variables_dimensional_entries_witness :
  exists d : gmap string Symbol,
    get_variables (Sample.three_parts "electrolyte potential") (Scalar 0)
      (Scalar 0) Sample.submodel = (Sample.submodel, Ok d)
    /\ size d = 12%nat
    /\ d !! "Positive electrolyte potential [V]"
       = Some (- Parameter_ "Reference OCP in negative electrode"
               + Parameter_ "Potential scale"
                 * Variable_ "Positive electrolyte potential"
                     ["positive electrode"])%sym.
Proof.
  destruct (get_variables_dimensional_entries Sample.submodel
              (Sample.three_parts "electrolyte potential") (Scalar 0) (Scalar 0)
              (Variable_ "Negative electrolyte potential" ["negative electrode"])
              (Variable_ "Separator electrolyte potential" ["separator"])
              (Variable_ "Positive electrolyte potential" ["positive electrode"])
              eq_refl)
    as (d & Hrun & Hsize & _ & _ & Hp & Hdim & _).
  exists d. split; [exact Hrun|]. split; [exact Hsize|].
  apply (Hdim "Positive electrolyte potential" _); [|exact Hp].
  apply list_elem_of_In. simpl. tauto.
Defined.

(* ===================================================================== *)
(** * 23. [set_model_variables] and the first blocks of [DFN.__init__]    *)
(* ===================================================================== *)

Lemma dict_update_lookup {V} (d other : gmap string V) (k : string) :
  dict_update d other !! k
  = match other !! k with Some v => Some v | None => d !! k end.
Proof.
  unfold dict_update. rewrite lookup_union.
  destruct (other !! k), (d !! k); reflexivity.
Qed.

Lemma foldl_insert_lookup_other {V} (entries : list (string * V))
  (acc : gmap string V) (k : string) :
  k ∉ map fst entries ->
  foldl (fun d kv => <[kv.1 := kv.2]> d) acc entries !! k = acc !! k.
Proof.
  revert acc. induction entries as [|[k' v] entries IH]; intros acc Hk; [reflexivity|].
  cbn [foldl fst snd]. rewrite IH.
  - apply lookup_insert_ne. intros ->. apply Hk. cbn. left.
  - intros Hin. apply Hk. cbn. right. exact Hin.
Qed.

Lemma dict_literal_lookup_other {V} (entries : list (string * V)) (k : string) :
  k ∉ map fst entries -> dict_literal entries !! k = None.
Proof.
  intros Hk. unfold dict_literal. rewrite foldl_insert_lookup_other by exact Hk.
  apply lookup_empty.
Qed.

(** What a successful call of [set_model_variables] leaves. *)
Lemma set_model_variables_run (param : Param.t) (st : Frame.t)
  (thermal : string) (p0 p1 p2 : Symbol) (rest : list Symbol) :
  orphans (StandardVariables.phi_e (Lib.standard_variables (Frame.globals st)))
  = p0 :: p1 :: p2 :: rest ->
  Model.options (Frame.self st) !! "thermal" = Some thermal ->
  DFN.set_model_variables param st
  = (Frame.set_self
       (Model.set_variables
          (thermal_variables (Lib.standard_variables (Frame.globals st)) thermal
             (dict_update (Model.variables (Frame.self st))
                (model_variables_literal param
                   (Lib.standard_variables (Frame.globals st)) p0 p2))))
       st, Ok tt).
Proof.
  intros Horph Hopt.
  unfold DFN.set_model_variables, bind, gets, lift, Frame.self_variables_update, modify.
  rewrite Horph. cbn [index lookup list_lookup].
  cbn [Frame.self Frame.set_self Model.options Model.set_variables].
  unfold getitem. rewrite Hopt. unfold model_variables_literal, thermal_variables, ret.
  destruct (String.eqb thermal "full"), (String.eqb thermal "lumped"); reflexivity.
Qed.

(** The temperature entries are added over the other ones. *)
Lemma thermal_variables_lookup (sv : StandardVariables.t) (thermal : string)
  (variables : gmap string Symbol) (key : string) :
  thermal_variables sv thermal variables !! key
  = if String.eqb key "Average cell temperature" && String.eqb thermal "lumped"
    then Some (StandardVariables.T_av sv)
    else if String.eqb key "Cell temperature" && String.eqb thermal "full"
    then Some (StandardVariables.T sv)
    else variables !! key.
Proof.
  unfold thermal_variables.
  destruct (String.eqb key "Average cell temperature") eqn:Hav;
    [apply String.eqb_eq in Hav; subst key
    |destruct (String.eqb key "Cell temperature") eqn:Hcell;
     [apply String.eqb_eq in Hcell; subst key|]];
    destruct (String.eqb thermal "lumped"), (String.eqb thermal "full");
    cbn [andb]; rewrite ?dict_update_lookup; try reflexivity.
  all: apply String.eqb_neq in Hav, Hcell.
  all: rewrite ?dict_literal_lookup_other
         by (cbn; rewrite list_elem_of_In; simpl; intuition congruence).
  all: reflexivity.
Qed.

Lemma model_variables_literal_lookup (param : Param.t)
  (sv : StandardVariables.t) (p0 p2 : Symbol) :
  let lit := model_variables_literal param sv p0 p2 in
  let delta_phi_n := (StandardVariables.phi_s_n sv - p0)%sym in
  let delta_phi_p := (StandardVariables.phi_s_p sv - p2)%sym in
  let ocp_n := Param.U_n param (SurfaceValue (StandardVariables.c_s_n sv) true) in
  let ocp_p := Param.U_p param (SurfaceValue (StandardVariables.c_s_p sv) true) in
  lit !! "Electrolyte concentration" = Some (StandardVariables.c_e sv)
  /\ lit !! "Negative particle concentration" = Some (StandardVariables.c_s_n sv)
  /\ lit !! "Positive particle concentration" = Some (StandardVariables.c_s_p sv)
  /\ lit !! "Electrolyte potential" = Some (StandardVariables.phi_e sv)
  /\ lit !! "Negative electrode potential" = Some (StandardVariables.phi_s_n sv)
  /\ lit !! "Positive electrode potential" = Some (StandardVariables.phi_s_p sv)
  /\ lit !! "Negative electrode surface potential difference" = Some delta_phi_n
  /\ lit !! "Positive electrode surface potential difference" = Some delta_phi_p
  /\ lit !! "Negative electrode open circuit potential" = Some ocp_n
  /\ lit !! "Positive electrode open circuit potential" = Some ocp_p
  /\ lit !! "Negative reaction overpotential" = Some (delta_phi_n - ocp_n)%sym
  /\ lit !! "Positive reaction overpotential" = Some (delta_phi_p - ocp_p)%sym.
Proof.
  repeat split; vm_compute; reflexivity.
Qed.

Lemma model_variables_literal_other (param : Param.t)
  (sv : StandardVariables.t) (p0 p2 : Symbol) (key : string) :
  key ∉ model_variable_names ->
  model_variables_literal param sv p0 p2 !! key = None.
Proof.
  intros Hkey. apply dict_literal_lookup_other. exact Hkey.
Qed.

(** X10.  [set_model_variables], when the electrolyte potential has at
    least three parts and [self.options] has a ["thermal"] entry:
    the call returns, it changes nothing of the frame but
    [self.variables], the two reaction overpotentials it stores are the
    electrode potential minus the first, resp. third, part of the
    electrolyte potential minus the open-circuit potential at the
    particle surface, the twelve names of lines 133-146 are keys
    afterwards, ["Cell temperature"] is set exactly when the option is
    ["full"] and ["Average cell temperature"] exactly when it is
    ["lumped"], and every other key keeps what it had. *)
Theorem set_model_variables_thermal (param : Param.t) (st : Frame.t)
  (thermal : string) (p0 p1 p2 : Symbol) (rest : list Symbol) :
  orphans (StandardVariables.phi_e (Lib.standard_variables (Frame.globals st)))
  = p0 :: p1 :: p2 :: rest ->
  Model.options (Frame.self st) !! "thermal" = Some thermal ->
  let sv := Lib.standard_variables (Frame.globals st) in
  let out := DFN.set_model_variables param st in
  let old := Model.variables (Frame.self st) in
  let new := Model.variables (Frame.self (fst out)) in
  snd out = Ok tt
  /\ fst out = Frame.set_self (Model.set_variables new) st
  /\ new !! "Negative reaction overpotential"
     = Some (StandardVariables.phi_s_n sv - p0
             - Param.U_n param (SurfaceValue (StandardVariables.c_s_n sv) true))%sym
  /\ new !! "Positive reaction overpotential"
     = Some (StandardVariables.phi_s_p sv - p2
             - Param.U_p param (SurfaceValue (StandardVariables.c_s_p sv) true))%sym
  /\ Forall (fun key => is_Some (new !! key)) model_variable_names
  /\ new !! "Cell temperature"
     = (if String.eqb thermal "full" then Some (StandardVariables.T sv)
        else old !! "Cell temperature")
  /\ new !! "Average cell temperature"
     = (if String.eqb thermal "lumped" then Some (StandardVariables.T_av sv)
        else old !! "Average cell temperature")
  /\ forall key,
       key ∉ ("Cell temperature" :: "Average cell temperature"
              :: model_variable_names) ->
       new !! key = old !! key.
Proof.
  intros Horph Hopt sv out old new. subst out new.
  rewrite (set_model_variables_run param st thermal p0 p1 p2 rest Horph Hopt).
  cbn [fst snd Frame.self Frame.set_self Model.variables Model.set_variables].
  fold sv. fold old.
  destruct (model_variables_literal_lookup param sv p0 p2)
    as (H1 & H2 & H3 & H4 & H5 & H6 & H7 & H8 & H9 & H10 & H11 & H12).
  split; [reflexivity|]. split; [reflexivity|].
  split; [rewrite thermal_variables_lookup, dict_update_lookup, H11; reflexivity|].
  split; [rewrite thermal_variables_lookup, dict_update_lookup, H12; reflexivity|].
  split.
  { unfold model_variable_names.
    repeat (apply Forall_cons; split;
            [rewrite thermal_variables_lookup, dict_update_lookup,
               ?H1, ?H2, ?H3, ?H4, ?H5, ?H6, ?H7, ?H8, ?H9, ?H10, ?H11, ?H12;
             cbn; eauto|]).
    apply Forall_nil; exact I. }
  split.
  { rewrite thermal_variables_lookup, dict_update_lookup.
    rewrite model_variables_literal_other
      by (unfold model_variable_names; rewrite list_elem_of_In; simpl;
          intuition congruence).
    cbn [String.eqb Ascii.eqb Bool.eqb andb]. reflexivity. }
  split.
  { rewrite thermal_variables_lookup, dict_update_lookup.
    rewrite model_variables_literal_other
      by (unfold model_variable_names; rewrite list_elem_of_In; simpl;
          intuition congruence).
    cbn [String.eqb Ascii.eqb Bool.eqb andb].
    destruct (String.eqb thermal "lumped"); reflexivity. }
  intros key Hkey.
  rewrite thermal_variables_lookup, dict_update_lookup.
  rewrite model_variables_literal_other
    by (intros Hin; apply Hkey; do 2 right; exact Hin).
  destruct (String.eqb_spec key "Average cell temperature") as [->|_];
    [exfalso; apply Hkey; right; left|].
  destruct (String.eqb_spec key "Cell temperature") as [->|_];
    [exfalso; apply Hkey; left|].
  reflexivity.
Qed.

Lemma set_model_variables_thermal_witness :
  let st := Frame.mk Sample.lib (Model.init Sample.thermal_lumped) ∅ in
  let new := Model.variables
               (Frame.self (fst (DFN.set_model_variables Sample.param st))) in
  snd (DFN.set_model_variables Sample.param st) = Ok tt
  /\ new !! "Average cell temperature" = Some (Variable_ "Average cell temperature" [])
  /\ new !! "Cell temperature" = None.
Proof.
  intros st new.
  pose proof (set_model_variables_thermal Sample.param st "lumped"
                (Variable_ "Negative electrolyte potential" ["negative electrode"])
                (Variable_ "Separator electrolyte potential" ["separator"])
                (Variable_ "Positive electrolyte potential" ["positive electrode"])
                [] eq_refl eq_refl)
    as (Hret & _ & _ & _ & _ & Hcell & Hav & _).
  split; [exact Hret|]. split; [exact Hav | exact Hcell].
Defined.

(** X11.  [set_model_variables] when [self.options] has no ["thermal"]
    entry (and the electrolyte potential has at least three parts): the
    lookup of line 148 raises [KeyError], after the update of lines
    131-146 was done: the twelve names are keys of [self.variables] when
    the exception leaves the method, every other key keeps what it had
    and nothing else of the frame has changed. *)
Theorem set_model_variables_missing_option (param : Param.t) (st : Frame.t)
  (p0 p1 p2 : Symbol) (rest : list Symbol) :
  orphans (StandardVariables.phi_e (Lib.standard_variables (Frame.globals st)))
  = p0 :: p1 :: p2 :: rest ->
  Model.options (Frame.self st) !! "thermal" = None ->
  let out := DFN.set_model_variables param st in
  let old := Model.variables (Frame.self st) in
  let new := Model.variables (Frame.self (fst out)) in
  snd out = Raise (KeyError "thermal")
  /\ fst out = Frame.set_self (Model.set_variables new) st
  /\ Forall (fun key => is_Some (new !! key)) model_variable_names
  /\ forall key, key ∉ model_variable_names -> new !! key = old !! key.
Proof.
  intros Horph Hopt out old new. subst out new.
  assert (Hrun :
    DFN.set_model_variables param st
    = (Frame.set_self
         (Model.set_variables
            (dict_update (Model.variables (Frame.self st))
               (model_variables_literal param
                  (Lib.standard_variables (Frame.globals st)) p0 p2)))
         st, Raise (KeyError "thermal"))).
  { unfold DFN.set_model_variables, bind, gets, lift,
      Frame.self_variables_update, modify.
    rewrite Horph. cbn [index lookup list_lookup].
    cbn [Frame.self Frame.set_self Model.options Model.set_variables].
    unfold getitem. rewrite Hopt. reflexivity. }
  rewrite Hrun.
  cbn [fst snd Frame.self Frame.set_self Model.variables Model.set_variables].
  fold old.
  destruct (model_variables_literal_lookup param
              (Lib.standard_variables (Frame.globals st)) p0 p2)
    as (H1 & H2 & H3 & H4 & H5 & H6 & H7 & H8 & H9 & H10 & H11 & H12).
  split; [reflexivity|]. split; [reflexivity|]. split.
  { unfold model_variable_names.
    repeat (apply Forall_cons; split;
            [rewrite dict_update_lookup,
               ?H1, ?H2, ?H3, ?H4, ?H5, ?H6, ?H7, ?H8, ?H9, ?H10, ?H11, ?H12;
             eauto|]).
    apply Forall_nil; exact I. }
  intros key Hkey.
  rewrite dict_update_lookup, model_variables_literal_other by exact Hkey.
  reflexivity.
Qed.

Lemma set_model_variables_missing_option_witness :
  let st := Frame.mk Sample.lib (Model.init ∅) ∅ in
  let out := DFN.set_model_variables Sample.param st in
  snd out = Raise (KeyError "thermal")
  /\ Forall (fun key => is_Some (Model.variables (Frame.self (fst out)) !! key))
       model_variable_names.
Proof.
  intros st out.
  pose proof (set_model_variables_missing_option Sample.param st
                (Variable_ "Negative electrolyte potential" ["negative electrode"])
                (Variable_ "Separator electrolyte potential" ["separator"])
                (Variable_ "Positive electrolyte potential" ["positive electrode"])
                [] eq_refl eq_refl)
    as (Hret & _ & Hkeys & _).
  split; [exact Hret | exact Hkeys].
Defined.

(** X12.  [set_model_variables] when the electrolyte potential has fewer
    than three parts: [phi_e.orphans[0]] or [phi_e.orphans[2]] (lines
    122-123) raises [IndexError] and the frame is as it was, whatever
    [self.options] holds. *)
Theorem set_model_variables_short_potential (param : Param.t) (st : Frame.t) :
  (length (orphans (StandardVariables.phi_e
                      (Lib.standard_variables (Frame.globals st)))) < 3)%nat ->
  exists msg,
    DFN.set_model_variables param st = (st, Raise (IndexError msg)).
Proof.
  intros Hlen.
  unfold DFN.set_model_variables, bind, gets, lift.
  destruct (orphans (StandardVariables.phi_e
                       (Lib.standard_variables (Frame.globals st))))
    as [|a [|b [|c rest]]]; cbn in Hlen; try lia;
    cbn [index lookup list_lookup]; eexists; reflexivity.
Qed.

Lemma set_model_variables_short_potential_witness :
  let st := Frame.mk (with_standard_variables SampleFrames.two_part_potential Sample.lib)
                     (Model.init Sample.thermal_off) ∅ in
  exists msg,
    DFN.set_model_variables Sample.param st = (st, Raise (IndexError msg)).
Proof.
  intros st.
  apply (set_model_variables_short_potential Sample.param st).
  vm_compute. lia.
Defined.
Lemma block_variables_lookup (st : Frame.t) (thermal : string) (p0 p2 : Symbol)
  (key : string) (v : Symbol) :
  model_variables_literal (Lib.standard_parameters_lithium_ion (Frame.globals st))
    (Lib.standard_variables (Frame.globals st)) p0 p2 !! key = Some v ->
  block_variables st thermal p0 p2 !! key = Some v.
Proof.
  intros Hkey. unfold block_variables.
  rewrite thermal_variables_lookup, dict_update_lookup, Hkey.
  destruct (String.eqb_spec key "Average cell temperature") as [->|_];
    [vm_compute in Hkey; discriminate|].
  destruct (String.eqb_spec key "Cell temperature") as [->|_];
    [vm_compute in Hkey; discriminate|].
  reflexivity.
Qed.

Lemma model_variables_block_run (st : Frame.t) (thermal : string)
  (p0 p1 p2 : Symbol) (rest : list Symbol) :
  orphans (StandardVariables.phi_e (Lib.standard_variables (Frame.globals st)))
  = p0 :: p1 :: p2 :: rest ->
  Model.options (Frame.self st) !! "thermal" = Some thermal ->
  let param := Lib.standard_parameters_lithium_ion (Frame.globals st) in
  let sv := Lib.standard_variables (Frame.globals st) in
  let ocp_n := Param.U_n param (SurfaceValue (StandardVariables.c_s_n sv) true) in
  let ocp_p := Param.U_p param (SurfaceValue (StandardVariables.c_s_p sv) true) in
  exec DFN.model_variables_block st
  = (Frame.mk (Frame.globals st)
       (Model.set_variables (block_variables st thermal p0 p2)
          (Model.set_name "Doyle-Fuller-Newman model" (Frame.self st)))
       (<["eta_r_p" := VSymbol (StandardVariables.phi_s_p sv - p2 - ocp_p)%sym]>
        (<["eta_r_n" := VSymbol (StandardVariables.phi_s_n sv - p0 - ocp_n)%sym]>
        (<["ocp_p" := VSymbol ocp_p]>
        (<["ocp_n" := VSymbol ocp_n]>
        (<["c_s_p" := VSymbol (StandardVariables.c_s_p sv)]>
        (<["c_s_n" := VSymbol (StandardVariables.c_s_n sv)]>
        (<["c_e" := VSymbol (StandardVariables.c_e sv)]>
        (<["i_boundary_cc" := VSymbol (Param.current_with_time param)]>
        (<["param" := VParam param]>
           (Frame.locals st)))))))))),
     Ok tt).
Proof.
  intros Horph Hopt param sv ocp_n ocp_p.
  destruct (model_variables_literal_lookup param sv p0 p2)
    as (H1 & H2 & H3 & H4 & H5 & H6 & H7 & H8 & H9 & H10 & H11 & H12).
  cbv beta iota zeta delta
    [exec run run_stmt stmt DFN.model_variables_block bind modify Frame.param gets
     Frame.self_variables_setitem DFN.assign_variable Frame.self_variable
     Frame.self_variables Frame.store lift ret Frame.load_symbol Frame.load].
  cbn [Frame.globals Frame.self Frame.set_self Frame.locals Frame.set_locals].
  rewrite lookup_insert_eq.
  cbv beta iota zeta delta [as_symbol].
  cbn [Frame.globals Frame.self Frame.set_self].
  rewrite (set_model_variables_run _ _ thermal p0 p1 p2 rest) by assumption.
  cbn [Frame.globals Frame.self Frame.locals Frame.set_self Frame.set_locals
       Model.variables Model.set_variables Model.set_name].
  pose proof (block_variables_lookup st thermal p0 p2) as Hb.
  unfold block_variables in *. fold param sv in Hb |- *.
  unfold getitem.
  rewrite (Hb _ _ H1).
  cbn [Frame.globals Frame.self Frame.locals Frame.set_self Frame.set_locals
       Model.variables Model.set_variables Model.set_name].
  rewrite (Hb _ _ H2).
  cbn [Frame.globals Frame.self Frame.locals Frame.set_self Frame.set_locals
       Model.variables Model.set_variables Model.set_name].
  rewrite (Hb _ _ H3).
  cbn [Frame.globals Frame.self Frame.locals Frame.set_self Frame.set_locals
       Model.variables Model.set_variables Model.set_name].
  rewrite (Hb _ _ H9).
  cbn [Frame.globals Frame.self Frame.locals Frame.set_self Frame.set_locals
       Model.variables Model.set_variables Model.set_name].
  rewrite (Hb _ _ H10).
  cbn [Frame.globals Frame.self Frame.locals Frame.set_self Frame.set_locals
       Model.variables Model.set_variables Model.set_name].
  rewrite (Hb _ _ H11).
  cbn [Frame.globals Frame.self Frame.locals Frame.set_self Frame.set_locals
       Model.variables Model.set_variables Model.set_name].
  rewrite (Hb _ _ H12).
  cbn [Frame.globals Frame.self Frame.locals Frame.set_self Frame.set_locals
       Model.variables Model.set_variables Model.set_name].
  reflexivity.
Qed.

(** X13.  The block of lines 14-33, run in a frame whose
    [self.options] has a ["thermal"] entry and whose electrolyte
    potential has at least three parts, returns: it names the model,
    stores the current, leaves the package and the equations of [self]
    as they were, and binds exactly nine local names: [param] to the
    parameter object of the package (line 18), [i_boundary_cc] to its
    current (line 19), and [c_e], [c_s_n], [c_s_p], [ocp_n], [ocp_p],
    [eta_r_n] and [eta_r_p] to the entries [set_model_variables] stored
    under the keys of lines 27-33. *)
Theorem model_variables_block_binds (st : Frame.t) (thermal : string)
  (p0 p1 p2 : Symbol) (rest : list Symbol) :
  orphans (StandardVariables.phi_e (Lib.standard_variables (Frame.globals st)))
  = p0 :: p1 :: p2 :: rest ->
  Model.options (Frame.self st) !! "thermal" = Some thermal ->
  let param := Lib.standard_parameters_lithium_ion (Frame.globals st) in
  let sv := Lib.standard_variables (Frame.globals st) in
  let ocp_n := Param.U_n param (SurfaceValue (StandardVariables.c_s_n sv) true) in
  let ocp_p := Param.U_p param (SurfaceValue (StandardVariables.c_s_p sv) true) in
  let out := exec DFN.model_variables_block st in
  let self' := Frame.self (fst out) in
  let locals' := Frame.locals (fst out) in
  snd out = Ok tt
  /\ Frame.globals (fst out) = Frame.globals st
  /\ Model.name self' = "Doyle-Fuller-Newman model"
  /\ Model.variables self' !! "Current collector current density"
     = Some (Param.current_with_time param)
  /\ equation_keys self' = equation_keys (Frame.self st)
  /\ Model.events self' = Model.events (Frame.self st)
  /\ locals' !! "param" = Some (VParam param)
  /\ locals' !! "i_boundary_cc" = Some (VSymbol (Param.current_with_time param))
  /\ locals' !! "c_e" = Some (VSymbol (StandardVariables.c_e sv))
  /\ locals' !! "c_s_n" = Some (VSymbol (StandardVariables.c_s_n sv))
  /\ locals' !! "c_s_p" = Some (VSymbol (StandardVariables.c_s_p sv))
  /\ locals' !! "ocp_n" = Some (VSymbol ocp_n)
  /\ locals' !! "ocp_p" = Some (VSymbol ocp_p)
  /\ locals' !! "eta_r_n"
     = Some (VSymbol (StandardVariables.phi_s_n sv - p0 - ocp_n)%sym)
  /\ locals' !! "eta_r_p"
     = Some (VSymbol (StandardVariables.phi_s_p sv - p2 - ocp_p)%sym)
  /\ forall x,
       x ∉ ["param"; "i_boundary_cc"; "c_e"; "c_s_n"; "c_s_p"; "ocp_n"; "ocp_p";
            "eta_r_n"; "eta_r_p"] ->
       locals' !! x = Frame.locals st !! x.
Proof.
  intros Horph Hopt param sv ocp_n ocp_p out self' locals'.
  subst out self' locals'.
  rewrite (model_variables_block_run st thermal p0 p1 p2 rest Horph Hopt).
  cbn [fst snd Frame.globals Frame.self Frame.locals].
  fold param sv. fold ocp_n ocp_p.
  split; [reflexivity|]. split; [reflexivity|]. split; [reflexivity|].
  split.
  { cbn [Model.variables Model.set_variables]. unfold block_variables.
    rewrite thermal_variables_lookup, dict_update_lookup.
    rewrite model_variables_literal_other
      by (unfold model_variable_names; rewrite list_elem_of_In; simpl;
          intuition congruence).
    rewrite lookup_insert_eq. reflexivity. }
  split; [reflexivity|]. split; [reflexivity|].
  repeat (split;
          [rewrite ?lookup_insert_ne by discriminate; apply lookup_insert_eq|]).
  intros x Hx.
  rewrite !lookup_insert_ne; [reflexivity|..];
    intros <-; apply Hx; apply list_elem_of_In; simpl; tauto.
Qed.

Lemma model_variables_block_binds_witness :
  let out := exec DFN.model_variables_block
               (Frame.mk Sample.lib (Model.init Sample.thermal_off) ∅) in
  snd out = Ok tt
  /\ Frame.locals (fst out) !! "param" = Some (VParam Sample.param)
  /\ Frame.locals (fst out) !! "i_boundary_cc"
     = Some (VSymbol (Param.current_with_time Sample.param))
  /\ Frame.locals (fst out) !! "ocp_n"
     = Some (VSymbol
               (FunctionParameter "Negative electrode OCP"
                  (SurfaceValue
                     (Variable_ "Negative particle concentration"
                        ["negative particle"]) true))).
Proof.
  intros out.
  pose proof (model_variables_block_binds
                (Frame.mk Sample.lib (Model.init Sample.thermal_off) ∅) "off"
                (Variable_ "Negative electrolyte potential" ["negative electrode"])
                (Variable_ "Separator electrolyte potential" ["separator"])
                (Variable_ "Positive electrolyte potential" ["positive electrode"])
                [] eq_refl eq_refl)
    as (Hret & _ & _ & _ & _ & _ & Hparam & Hcurrent & _ & _ & _ & Hocp & _).
  split; [exact Hret|]. split; [exact Hparam|]. split; [exact Hcurrent | exact Hocp].
Defined.

(** The unpacking of line 38 on a concentration that has not three
    parts. *)
Lemma unpack3_other_length {A} (t : list A) :
  length t <> 3%nat -> exists msg, unpack3 t = Raise (ValueError msg).
Proof.
  intros Hlen. destruct t as [|a [|b [|c [|d t]]]]; cbn in *;
    try (eexists; reflexivity). contradiction Hlen. reflexivity.
Qed.

(** X14.  [DFN.__init__] on a package whose electrolyte concentration
    has not exactly three parts (the electrolyte potential having three
    and [self.options] a ["thermal"] entry): the unpacking of line 38
    raises [ValueError]; the block of lines 14-33 has run, so the model
    is named and [c_e] is bound, but [c_e_n] and [c_e_p] are bound to
    nothing new and no equation has been added to [self]. *)
Theorem body_concentration_unpacking (options : gmap string string)
  (st : Frame.t) (thermal : string) (p0 p1 p2 : Symbol) (rest : list Symbol) :
  orphans (StandardVariables.phi_e (Lib.standard_variables (Frame.globals st)))
  = p0 :: p1 :: p2 :: rest ->
  Model.options (Frame.self st) !! "thermal" = Some thermal ->
  length (orphans (StandardVariables.c_e
                     (Lib.standard_variables (Frame.globals st)))) <> 3%nat ->
  let out := exec (DFN.body options) st in
  (exists msg, snd out = Raise (ValueError msg))
  /\ Model.name (Frame.self (fst out)) = "Doyle-Fuller-Newman model"
  /\ equation_keys (Frame.self (fst out)) = equation_keys (Frame.self st)
  /\ Frame.locals (fst out) !! "c_e"
     = Some (VSymbol (StandardVariables.c_e
                        (Lib.standard_variables (Frame.globals st))))
  /\ Frame.locals (fst out) !! "c_e_n" = Frame.locals st !! "c_e_n"
  /\ Frame.locals (fst out) !! "c_e_p" = Frame.locals st !! "c_e_p".
Proof.
  intros Horph Hopt Hlen out. subst out.
  unfold DFN.body. rewrite exec_app.
  rewrite (model_variables_block_run st thermal p0 p1 p2 rest Horph Hopt).
  rewrite exec_app.
  destruct (unpack3_other_length _ Hlen) as (msg & Hmsg).
  assert (Hrun : forall st1,
    Frame.locals st1 !! "c_e"
    = Some (VSymbol (StandardVariables.c_e
                       (Lib.standard_variables (Frame.globals st)))) ->
    exec DFN.interface_block st1 = (st1, Raise (ValueError msg))).
  { intros st1 Hc_e. unfold DFN.interface_block. cbn [exec run run_stmt stmt].
    unfold bind at 1. unfold bind at 1. unfold Frame.load_symbol, bind at 1.
    unfold Frame.load. rewrite Hc_e. cbn [lift as_symbol].
    unfold lift at 1. rewrite Hmsg. reflexivity. }
  rewrite Hrun by (cbn [Frame.locals];
                   rewrite ?lookup_insert_ne by discriminate;
                   apply lookup_insert_eq).
  cbn [fst snd Frame.self Frame.locals].
  split; [exists msg; reflexivity|].
  split; [reflexivity|]. split; [reflexivity|].
  split; [rewrite ?lookup_insert_ne by discriminate; apply lookup_insert_eq|].
  split; rewrite !lookup_insert_ne by discriminate; reflexivity.
Qed.

Lemma body_concentration_unpacking_witness :
  let out := exec (DFN.body Sample.thermal_off)
               (Frame.mk (with_standard_variables SampleFrames.two_part_concentration
                            Sample.lib)
                         (Model.init Sample.thermal_off) ∅) in
  (exists msg, snd out = Raise (ValueError msg))
  /\ Frame.locals (fst out) !! "c_e_n" = None.
Proof.
  intros out.
  pose proof (body_concentration_unpacking Sample.thermal_off
                (Frame.mk (with_standard_variables SampleFrames.two_part_concentration
                             Sample.lib)
                          (Model.init Sample.thermal_off) ∅) "off"
                (Variable_ "Negative electrolyte potential" ["negative electrode"])
                (Variable_ "Separator electrolyte potential" ["separator"])
                (Variable_ "Positive electrolyte potential" ["positive electrode"])
                [] eq_refl eq_refl)
    as H.
  destruct H as (Hraise & _ & _ & _ & Hn & _); [vm_compute; lia|].
  split; [exact Hraise | exact Hn].
Defined.

(* ===================================================================== *)
(** * 24. The order of the life of the submodel instances                *)
(* ===================================================================== *)

(** A name that no label mentions is never created. *)
Lemma lifecycle_other (x : string) (labels : list Label) :
  Forall (fun l => forall s, lifecycle_step x s l = s) labels ->
  lifecycle x labels = NotCreated.
Proof.
  unfold lifecycle. generalize NotCreated.
  induction labels as [|l labels IH]; intros s Hlabels; [reflexivity|].
  apply Forall_cons in Hlabels as [Hl Hlabels].
  cbn [foldl]. rewrite Hl. apply IH, Hlabels.
Qed.

(** Once out of order, always out of order. *)
Lemma lifecycle_out_of_order (x : string) (labels : list Label) :
  foldl (lifecycle_step x) OutOfOrder labels = OutOfOrder.
Proof.
  induction labels as [|l labels IH]; [reflexivity|].
  cbn [foldl].
  replace (lifecycle_step x OutOfOrder l) with OutOfOrder; [exact IH|].
  destruct l as [y cls|y method|y|]; cbn [lifecycle_step];
    try destruct (String.eqb x y); reflexivity.
Qed.

(** A sequence in order has its prefixes in order. *)
Lemma lifecycle_prefix (x : string) (l1 l2 : list Label) :
  l1 `prefix_of` l2 ->
  lifecycle x l2 <> OutOfOrder -> lifecycle x l1 <> OutOfOrder.
Proof.
  intros [k ->] Hall Hout. apply Hall.
  unfold lifecycle in *. rewrite foldl_app, Hout. apply lifecycle_out_of_order.
Qed.

Lemma prefix_of_take {A} (l1 l2 : list A) :
  l1 `prefix_of` l2 -> l1 = take (length l1) l2.
Proof.
  intros [k ->]. induction l1 as [|a l1 IH]; [reflexivity|].
  cbn [length app take]. rewrite <- IH. reflexivity.
Qed.

(** X15.  In a run of [DFN.__init__], from any frame, no submodel
    instance is populated or merged before it is created, created
    twice, or populated or merged after its merge.  The run stops at
    line 69: the electrolyte current model is at most created, and the
    electrode and the thermal model are not created.  A block that runs
    to its end takes its instance through its life in order, created,
    populated and merged once: the particle models and the electrolyte
    diffusion model after one population call, the electrode model after
    two, the thermal model after as many as [self.options["thermal"]]
    selects. *)
Theorem submodel_lifecycle_in_order (options : gmap string string)
    (st : Frame.t) :
  let events := exec_events (DFN.body options) st in
  (forall x, lifecycle x events <> OutOfOrder)
  /\ (lifecycle "eleclyte_current_model" events = NotCreated
      \/ lifecycle "eleclyte_current_model" events = Open 0)
  /\ lifecycle "electrode_current_model" events = NotCreated
  /\ lifecycle "thermal_model" events = NotCreated
  /\ (snd (exec DFN.particle_block st) = Ok tt ->
      lifecycle "negative_particle_model" (exec_events DFN.particle_block st)
      = Closed 1
      /\ lifecycle "positive_particle_model" (exec_events DFN.particle_block st)
         = Closed 1)
  /\ (snd (exec DFN.electrolyte_diffusion_block st) = Ok tt ->
      lifecycle "electrolyte_diffusion_model"
        (exec_events DFN.electrolyte_diffusion_block st) = Closed 1)
  /\ (snd (exec DFN.electrode_block st) = Ok tt ->
      lifecycle "electrode_current_model" (exec_events DFN.electrode_block st)
      = Closed 2)
  /\ (snd (exec (DFN.thermal_block options) st) = Ok tt ->
      exists thermal,
        Model.options (Frame.self st) !! "thermal" = Some thermal
        /\ lifecycle "thermal_model" (exec_events (DFN.thermal_block options) st)
           = Closed (if String.eqb thermal "full" || String.eqb thermal "lumped"
                     then 1 else 0)).
Proof.
  intros events. subst events.
  pose proof (run_events_up_to_line_69 options st) as Hprefix.
  split; [|split; [|split; [|split; [|split; [|split; [|split]]]]]].
  - intros x. apply (lifecycle_prefix x _ _ Hprefix).
    destruct (String.eqb_spec x "negative_particle_model") as [->|H1];
      [vm_compute; discriminate|].
    destruct (String.eqb_spec x "positive_particle_model") as [->|H2];
      [vm_compute; discriminate|].
    destruct (String.eqb_spec x "electrolyte_diffusion_model") as [->|H3];
      [vm_compute; discriminate|].
    destruct (String.eqb_spec x "eleclyte_current_model") as [->|H4];
      [vm_compute; discriminate|].
    apply String.eqb_neq in H1, H2, H3, H4.
    rewrite lifecycle_other; [discriminate|].
    repeat first [ apply List.Forall_cons | apply List.Forall_nil ];
      intros s; cbn [lifecycle_step]; rewrite ?H1, ?H2, ?H3, ?H4; reflexivity.
  - rewrite (prefix_of_take _ _ Hprefix).
    generalize (length (exec_events (DFN.body options) st)). intros n.
    do 10 (destruct n as [|n]; [left; reflexivity|]).
    right. destruct n; reflexivity.
  - destruct Hprefix as [k Hk].
    apply lifecycle_other.
    assert (Hall : Forall (fun l => forall s,
                      lifecycle_step "electrode_current_model" s l = s)
                     (exec_events (DFN.body options) st ++ k)).
    { rewrite <- Hk.
      repeat first [ apply List.Forall_cons | apply List.Forall_nil ];
        intros s; reflexivity. }
    apply Forall_app in Hall as [Hall _]. exact Hall.
  - destruct Hprefix as [k Hk].
    apply lifecycle_other.
    assert (Hall : Forall (fun l => forall s,
                      lifecycle_step "thermal_model" s l = s)
                     (exec_events (DFN.body options) st ++ k)).
    { rewrite <- Hk.
      repeat first [ apply List.Forall_cons | apply List.Forall_nil ];
        intros s; reflexivity. }
    apply Forall_app in Hall as [Hall _]. exact Hall.
  - intros Hret.
    rewrite (exec_events_returning DFN.particle_block st eq_refl Hret).
    split; reflexivity.
  - intros Hret.
    rewrite (exec_events_returning DFN.electrolyte_diffusion_block st eq_refl Hret).
    reflexivity.
  - intros Hret.
    rewrite (exec_events_returning DFN.electrode_block st eq_refl Hret).
    reflexivity.
  - intros Hret.
    destruct (thermal_block_events options st Hret) as (thermal & Hthermal & ->).
    exists thermal. split; [exact Hthermal|]. unfold thermal_events.
    destruct (String.eqb thermal "full"); [reflexivity|].
    destruct (String.eqb thermal "lumped"); reflexivity.
Qed.

Lemma submodel_lifecycle_in_order_witness :
  lifecycle "electrode_current_model"
    (exec_events DFN.electrode_block SampleFrames.mid_run) = Closed 2.
Proof.
  apply (submodel_lifecycle_in_order Sample.thermal_off SampleFrames.mid_run).
  vm_compute. reflexivity.
Defined.

(* ===================================================================== *)
(** * 25. What the statements of [DFN.__init__] leave alone               *)
(* ===================================================================== *)

Section SelfField.
Context {A : Type} (f : Model.t -> A) (a : A).

Lemma self_has_store (x : string) (v : PyVal) :
  invariant_of (self_has f a) (Frame.store x v).
Proof. apply invariant_of_modify. intros st Hst. exact Hst. Qed.

Lemma self_has_on_submodel {B} (x : string) (method : M SubModel.t B) :
  invariant_of (self_has f a) (Frame.on_submodel x method).
Proof.
  apply invariant_of_bind.
  - apply invariant_of_reads_only. auto with frame.
  - intros sm. destruct (method sm) as [sm' r].
    apply invariant_of_bind; [apply self_has_store|].
    intros _. apply invariant_of_reads_only. auto with frame.
Qed.

Lemma self_has_modify_self (g : Model.t -> Model.t) :
  (forall m, f (g m) = f m) ->
  invariant_of (self_has f a) (modify (Frame.set_self g)).
Proof.
  intros Hg. apply invariant_of_modify. intros st Hst.
  unfold self_has in *. cbn [Frame.set_self Frame.self]. rewrite Hg. exact Hst.
Qed.
End SelfField.

Lemma self_has_set_name {A} (f : Model.t -> A) (a : A) (v : string) :
  ignores_name_and_variables f ->
  invariant_of (self_has f a) (modify (Frame.set_self (Model.set_name v))).
Proof. intros [Hn _]. apply self_has_modify_self. apply Hn. Qed.

Lemma self_has_self_variables_setitem {A} (f : Model.t -> A) (a : A)
    (key : string) (v : Symbol) :
  ignores_name_and_variables f ->
  invariant_of (self_has f a) (Frame.self_variables_setitem key v).
Proof. intros [_ Hv]. apply self_has_modify_self. intros m. apply Hv. Qed.

Lemma self_has_self_variables_update {A} (f : Model.t -> A) (a : A)
    (d : gmap string Symbol) :
  ignores_name_and_variables f ->
  invariant_of (self_has f a) (Frame.self_variables_update d).
Proof. intros [_ Hv]. apply self_has_modify_self. intros m. apply Hv. Qed.

Lemma equations_ignore_name_and_variables :
  ignores_name_and_variables Model_equations.
Proof. split; reflexivity. Qed.

Lemma events_ignore_name_and_variables :
  ignores_name_and_variables Model.events.
Proof. split; reflexivity. Qed.

#[local] Hint Resolve self_has_store self_has_on_submodel self_has_set_name
  self_has_self_variables_setitem self_has_self_variables_update
  equations_ignore_name_and_variables events_ignore_name_and_variables : frame.

Lemma self_has_unchanged {A B} (f : Model.t -> A) (m : M Frame.t B) :
  (forall a, invariant_of (self_has f a) m) ->
  forall st, f (Frame.self (fst (m st))) = f (Frame.self st).
Proof. intros Hm st. apply (Hm (f (Frame.self st)) st). reflexivity. Qed.

(** The statements that are no merge keep a quantity that the name and
    the variables do not enter, the append of line 113 apart. *)
Lemma body_keeps_self_field {A} (f : Model.t -> A)
    (options : gmap string string) :
  ignores_name_and_variables f ->
  Forall (fun s =>
            is_merge (label s) = false -> first_line s <> 113%nat ->
            forall a, invariant_of (self_has f a) (run s))
         (DFN.body options).
Proof.
  intros Hf.
  unfold DFN.body, DFN.model_variables_block, DFN.interface_block,
    DFN.particle_block, DFN.electrolyte_diffusion_block,
    DFN.electrolyte_current_block, DFN.electrode_block, DFN.thermal_block,
    DFN.post_process_block, DFN.line_68, DFN.line_69, DFN.line_70.
  repeat first [ apply Forall_app_2 | apply List.Forall_cons | apply List.Forall_nil ];
    cbn [run run_stmt stmt label label_of first_line is_merge]; intros Hmerge Hline a;
    try discriminate Hmerge; try (exfalso; apply Hline; reflexivity);
    unfold DFN.set_model_variables, DFN.assign_variable,
      DFN.interfacial_current_variables; cbv zeta;
    repeat invariant_step.
Qed.

(** X16.  Of the statements of [DFN.__init__], only the six merges
    [self.update(..)] touch the equations of the model, and only they
    and the append of line 113 touch its events: every other statement,
    run in any frame, whether it returns or raises, leaves [rhs],
    [algebraic], [boundary_conditions], [initial_conditions] as they
    were (line 113 included) and [events] as it was.  In particular no
    population call [set_*_system] writes to the model. *)
Theorem only_merges_change_equations (options : gmap string string) :
  Forall (fun s =>
            is_merge (label s) = false ->
            forall st,
              Model_equations (Frame.self (fst (run s st)))
              = Model_equations (Frame.self st)
              /\ (first_line s <> 113%nat ->
                  Model.events (Frame.self (fst (run s st)))
                  = Model.events (Frame.self st)))
         (DFN.body options).
Proof.
  pose proof (body_keeps_self_field Model.events options
                events_ignore_name_and_variables) as Hevents.
  assert (Hequations :
    Forall (fun s =>
              is_merge (label s) = false ->
              forall a, invariant_of (self_has Model_equations a) (run s))
           (DFN.body options)).
  { unfold DFN.body, DFN.model_variables_block, DFN.interface_block,
      DFN.particle_block, DFN.electrolyte_diffusion_block,
      DFN.electrolyte_current_block, DFN.electrode_block, DFN.thermal_block,
      DFN.post_process_block, DFN.line_68, DFN.line_69, DFN.line_70.
    repeat first [ apply Forall_app_2 | apply List.Forall_cons | apply List.Forall_nil ];
      cbn [run run_stmt stmt label label_of is_merge]; intros Hmerge a;
      try discriminate Hmerge;
      unfold DFN.set_model_variables, DFN.assign_variable,
        DFN.interfacial_current_variables; cbv zeta;
      repeat invariant_step.
    apply self_has_modify_self. reflexivity. }
  rewrite List.Forall_forall in *. intros s Hs Hmerge st. split.
  - apply self_has_unchanged. apply (Hequations s Hs Hmerge).
  - intros Hline. apply self_has_unchanged. apply (Hevents s Hs Hmerge Hline).
Qed.

(** The statements of the post-process block before the cut-off. *)
Lemma post_process_before_cutoff (st : Frame.t) :
  let before := exec (take 10 DFN.post_process_block) st in
  Frame.globals (fst before) = Frame.globals st
  /\ Model_equations (Frame.self (fst before)) = Model_equations (Frame.self st)
  /\ Model.events (Frame.self (fst before)) = Model.events (Frame.self st).
Proof.
  intros before. subst before.
  assert (Hsteps : forall (I : Frame.t -> Prop),
    (forall x v, invariant_of I (Frame.store x v)) ->
    (forall B x (method : M SubModel.t B), invariant_of I (Frame.on_submodel x method)) ->
    (forall d, invariant_of I (Frame.self_variables_update d)) ->
    invariant_of I (exec (take 10 DFN.post_process_block))).
  { intros I Hstore Hsub Hupd. apply exec_invariant.
    unfold DFN.post_process_block. cbn [take].
    repeat first [ apply List.Forall_cons | apply List.Forall_nil ];
      cbn [run run_stmt stmt];
      unfold DFN.assign_variable, DFN.interfacial_current_variables;
      repeat invariant_step. }
  split; [|split].
  - apply (Hsteps (globals_are (Frame.globals st))); auto with frame.
    reflexivity.
  - apply (Hsteps (self_has Model_equations (Model_equations (Frame.self st))));
      auto with frame. reflexivity.
  - apply (Hsteps (self_has Model.events (Model.events (Frame.self st))));
      auto with frame. reflexivity.
Qed.

(** X17.  The post-process block, lines 92-113: when it returns, it has
    appended exactly one event to [self.events], the entry
    ["Terminal voltage"] of [self.variables] minus the lower voltage
    cut-off of the parameters, and has left the equations as they
    were; when it raises, [self.events] is as it was. *)
Theorem post_process_appends_cutoff (st : Frame.t) :
  let out := exec DFN.post_process_block st in
  let self' := Frame.self (fst out) in
  Model_equations self' = Model_equations (Frame.self st)
  /\ match snd out with
     | Ok _ =>
         exists voltage,
           Model.variables self' !! "Terminal voltage" = Some voltage
           /\ Model.events self'
              = (Model.events (Frame.self st)
                 ++ [(voltage
                      - Param.voltage_low_cut
                          (Lib.standard_parameters_lithium_ion
                             (Frame.globals st)))%sym])%list
     | Raise _ => Model.events self' = Model.events (Frame.self st)
     end.
Proof.
  intros out self'. subst out self'.
  rewrite <- (take_drop 10 DFN.post_process_block), exec_app.
  destruct (post_process_before_cutoff st) as (Hg & Heq & Hev).
  destruct (exec (take 10 DFN.post_process_block) st) as [st1 [[]|e]];
    cbn [fst snd] in *; [|split; assumption].
  unfold DFN.post_process_block. cbn [drop exec run run_stmt stmt].
  unfold DFN.assign_variable, Frame.self_variable, Frame.self_variables,
    Frame.store, Frame.param, Frame.load_symbol, Frame.load, bind, gets,
    lift, modify, ret, getitem.
  destruct (Model.variables (Frame.self st1) !! "Terminal voltage")
    as [voltage|] eqn:Hvoltage; cbn [fst snd]; [|split; assumption].
  cbn [Frame.locals Frame.set_locals]. rewrite lookup_insert_eq.
  cbn [as_symbol fst snd Frame.self Frame.set_self Frame.set_locals
       Frame.globals Model.events Model.set_events Model.variables].
  split; [exact Heq|].
  exists voltage. split; [exact Hvoltage|]. rewrite Hev, Hg. reflexivity.
Qed.

Lemma post_process_appends_cutoff_witness :
  let out := exec DFN.post_process_block SampleFrames.mid_run in
  exists voltage,
    Model.variables (Frame.self (fst out)) !! "Terminal voltage" = Some voltage
    /\ Model.events (Frame.self (fst out))
       = [(voltage - Parameter_ "Lower voltage cut-off")%sym].
Proof.
  intros out.
  pose proof (post_process_appends_cutoff SampleFrames.mid_run)
    as [_ Hevents].
  assert (Hreturns :
    snd (exec DFN.post_process_block SampleFrames.mid_run) = Ok tt)
    by (vm_compute; reflexivity).
  rewrite Hreturns in Hevents. exact Hevents.
Defined.

(* ===================================================================== *)
(** * 26. The blocks that populate and merge                              *)
(* ===================================================================== *)

(** Looking up a local name among the names bound last. *)
Ltac local_lookup :=
  repeat first [ rewrite lookup_insert_eq
               | rewrite lookup_insert_ne by discriminate ].

Ltac frame_steps :=
  repeat progress
    (cbn [Frame.globals Frame.self Frame.locals Frame.set_locals
          Frame.set_self fst snd as_reactions as_symbol raise];
     local_lookup).

(** X18.  The electrode block, lines 73-78: one instance receives both
    population calls.  The call for the positive electrode runs on the
    object the call for the negative electrode left, with the same
    [self.variables] and [reactions], and the merge of line 78 gets what
    the second call left: when the two calls and the merge return, the
    block returns with that merged model and with
    [electrode_current_model] bound to the twice populated instance. *)
Theorem electrode_block_populates_one_instance (st : Frame.t)
  (reactions : Reactions) (sm1 sm2 : SubModel.t) (merged : Model.t) :
  let g := Frame.globals st in
  let variables := Model.variables (Frame.self st) in
  Frame.locals st !! "reactions" = Some (VReactions reactions) ->
  Lib.electrode_set_algebraic_system g variables reactions ["negative electrode"]
    (SubModel.init (Lib.standard_parameters_lithium_ion g)) = (sm1, Ok tt) ->
  Lib.electrode_set_algebraic_system g variables reactions ["positive electrode"]
    sm1 = (sm2, Ok tt) ->
  Model.update sm2 (Frame.self st) = (merged, Ok tt) ->
  let out := exec DFN.electrode_block st in
  snd out = Ok tt
  /\ Frame.self (fst out) = merged
  /\ Frame.locals (fst out) !! "electrode_current_model" = Some (VSubModel sm2)
  /\ Frame.locals (fst out) !! "neg" = Some (VDomain ["negative electrode"])
  /\ Frame.locals (fst out) !! "pos" = Some (VDomain ["positive electrode"])
  /\ forall x, x ∉ ["neg"; "pos"; "electrode_current_model"] ->
       Frame.locals (fst out) !! x = Frame.locals st !! x.
Proof.
  intros g variables Hreactions Hneg Hpos Hmerge out. subst out.
  cbv beta iota zeta delta
    [exec run run_stmt stmt DFN.electrode_block bind modify Frame.param gets
     Frame.self_variables Frame.store lift ret Frame.load_reactions
     Frame.load_domain Frame.load_submodel Frame.load Frame.on_submodel
     Frame.self_update Frame.on_self].
  frame_steps. rewrite Hreactions. frame_steps.
  fold g variables. rewrite Hneg.
  frame_steps. rewrite Hreactions. frame_steps.
  fold g variables. rewrite Hpos.
  frame_steps. rewrite Hmerge.
  cbn [fst snd Frame.globals Frame.self Frame.locals].
  split; [reflexivity|]. split; [reflexivity|].
  split; [apply lookup_insert_eq|].
  split; [rewrite !lookup_insert_ne by discriminate; apply lookup_insert_eq|].
  split; [rewrite !lookup_insert_ne by discriminate; apply lookup_insert_eq|].
  intros x Hx.
  rewrite !lookup_insert_ne; [reflexivity|..];
    intros <-; apply Hx; apply list_elem_of_In; simpl; tauto.
Qed.

Lemma electrode_block_populates_one_instance_witness :
  let out := exec DFN.electrode_block SampleFrames.mid_run in
  snd out = Ok tt
  /\ exists sm,
       Frame.locals (fst out) !! "electrode_current_model" = Some (VSubModel sm)
       /\ length (SubModel.algebraic sm) = 2%nat.
Proof.
  intros out.
  pose (st := SampleFrames.mid_run).
  pose (reactions := DFN.reactions_literal SampleFrames.j_n SampleFrames.j_p).
  pose (sm1 := fst (Sample.electrode_set_algebraic_system SampleFrames.variables
                      reactions ["negative electrode"]
                      (SubModel.init Sample.param))).
  pose (sm2 := fst (Sample.electrode_set_algebraic_system SampleFrames.variables
                      reactions ["positive electrode"] sm1)).
  pose (merged := fst (Model.update sm2 (Frame.self st))).
  assert (H1 : Frame.locals st !! "reactions" = Some (VReactions reactions))
    by (vm_compute; reflexivity).
  assert (H2 : Lib.electrode_set_algebraic_system (Frame.globals st)
                 (Model.variables (Frame.self st)) reactions
                 ["negative electrode"]
                 (SubModel.init (Lib.standard_parameters_lithium_ion
                                   (Frame.globals st))) = (sm1, Ok tt))
    by (vm_compute; reflexivity).
  assert (H3 : Lib.electrode_set_algebraic_system (Frame.globals st)
                 (Model.variables (Frame.self st)) reactions
                 ["positive electrode"] sm1 = (sm2, Ok tt))
    by (vm_compute; reflexivity).
  assert (H4 : Model.update sm2 (Frame.self st) = (merged, Ok tt))
    by (vm_compute; reflexivity).
  destruct (electrode_block_populates_one_instance st reactions sm1 sm2 merged
              H1 H2 H3 H4) as (Hret & _ & Hsm & _).
  split; [exact Hret|]. exists sm2. split; [exact Hsm|].
  vm_compute. reflexivity.
Defined.

(** X19.  The particle block, lines 52-57: two instances are created from
    the same parameters; the negative one is populated with [c_s_n] and
    [j_n], the positive one with [c_s_p] and [j_p], each from the empty
    submodel; the negative one is merged first.  When both populations
    and the first merge return, the outcome of the block is the outcome
    of merging the positive instance into the model that already holds
    the negative one: if that merge raises, the exception leaves the
    block with the negative particle model merged and the positive one
    not. *)
Theorem particle_block_merges_in_order (st : Frame.t)
  (c_s_n c_s_p j_n j_p : Symbol) (sm_n sm_p : SubModel.t)
  (merged_n merged : Model.t) (r : result unit) :
  let g := Frame.globals st in
  let empty := SubModel.init (Lib.standard_parameters_lithium_ion g) in
  Frame.locals st !! "c_s_n" = Some (VSymbol c_s_n) ->
  Frame.locals st !! "c_s_p" = Some (VSymbol c_s_p) ->
  Frame.locals st !! "j_n" = Some (VSymbol j_n) ->
  Frame.locals st !! "j_p" = Some (VSymbol j_p) ->
  Lib.particle_set_differential_system g c_s_n j_n empty = (sm_n, Ok tt) ->
  Lib.particle_set_differential_system g c_s_p j_p empty = (sm_p, Ok tt) ->
  Model.update sm_n (Frame.self st) = (merged_n, Ok tt) ->
  Model.update sm_p merged_n = (merged, r) ->
  let out := exec DFN.particle_block st in
  snd out = r
  /\ Frame.self (fst out) = merged
  /\ Frame.locals (fst out) !! "negative_particle_model" = Some (VSubModel sm_n)
  /\ Frame.locals (fst out) !! "positive_particle_model" = Some (VSubModel sm_p)
  /\ forall x, x ∉ ["negative_particle_model"; "positive_particle_model"] ->
       Frame.locals (fst out) !! x = Frame.locals st !! x.
Proof.
  intros g empty Hc_s_n Hc_s_p Hj_n Hj_p Hneg Hpos Hmerge_n Hmerge_p out.
  subst out.
  cbv beta iota zeta delta
    [exec run run_stmt stmt DFN.particle_block bind modify Frame.param gets
     Frame.store lift ret Frame.load_symbol Frame.load_submodel Frame.load
     Frame.on_submodel Frame.self_update Frame.on_self].
  frame_steps. rewrite Hc_s_n. frame_steps. rewrite Hj_n. frame_steps.
  fold g. fold empty. rewrite Hneg.
  frame_steps. rewrite Hc_s_p. frame_steps. rewrite Hj_p. frame_steps.
  fold g. fold empty. rewrite Hpos.
  frame_steps. rewrite Hmerge_n. frame_steps. rewrite Hmerge_p.
  assert (Hlocals : forall (m : Model.t) (locals : gmap string PyVal),
    Frame.self (Frame.mk g m locals) = m) by reflexivity.
  destruct r as [[]|e]; cbn [fst snd Frame.self Frame.locals].
  all: split; [reflexivity|]; split; [reflexivity|].
  all: split; [local_lookup; reflexivity|].
  all: split; [local_lookup; reflexivity|].
  all: intros x Hx; rewrite !lookup_insert_ne; [reflexivity|..];
    intros <-; apply Hx; apply list_elem_of_In; simpl; tauto.
Qed.

Lemma particle_block_merges_in_order_witness :
  let out := exec DFN.particle_block SampleFrames.mid_run in
  snd out = Ok tt /\ length (Model.rhs (Frame.self (fst out))) = 2%nat.
Proof.
  intros out.
  pose (st := SampleFrames.mid_run).
  pose (c_s_n := StandardVariables.c_s_n Sample.standard_variables).
  pose (c_s_p := StandardVariables.c_s_p Sample.standard_variables).
  pose (sm_n := fst (Sample.particle_set_differential_system c_s_n
                       SampleFrames.j_n (SubModel.init Sample.param))).
  pose (sm_p := fst (Sample.particle_set_differential_system c_s_p
                       SampleFrames.j_p (SubModel.init Sample.param))).
  pose (merged_n := fst (Model.update sm_n (Frame.self st))).
  pose (merged := fst (Model.update sm_p merged_n)).
  assert (H1 : Frame.locals st !! "c_s_n" = Some (VSymbol c_s_n))
    by (vm_compute; reflexivity).
  assert (H2 : Frame.locals st !! "c_s_p" = Some (VSymbol c_s_p))
    by (vm_compute; reflexivity).
  assert (H3 : Frame.locals st !! "j_n" = Some (VSymbol SampleFrames.j_n))
    by (vm_compute; reflexivity).
  assert (H4 : Frame.locals st !! "j_p" = Some (VSymbol SampleFrames.j_p))
    by (vm_compute; reflexivity).
  assert (H5 : Lib.particle_set_differential_system (Frame.globals st) c_s_n
                 SampleFrames.j_n
                 (SubModel.init (Lib.standard_parameters_lithium_ion
                                   (Frame.globals st))) = (sm_n, Ok tt))
    by (vm_compute; reflexivity).
  assert (H6 : Lib.particle_set_differential_system (Frame.globals st) c_s_p
                 SampleFrames.j_p
                 (SubModel.init (Lib.standard_parameters_lithium_ion
                                   (Frame.globals st))) = (sm_p, Ok tt))
    by (vm_compute; reflexivity).
  assert (H7 : Model.update sm_n (Frame.self st) = (merged_n, Ok tt))
    by (vm_compute; reflexivity).
  assert (H8 : Model.update sm_p merged_n = (merged, Ok tt))
    by (vm_compute; reflexivity).
  destruct (particle_block_merges_in_order st c_s_n c_s_p SampleFrames.j_n
              SampleFrames.j_p sm_n sm_p merged_n merged (Ok tt)
              H1 H2 H3 H4 H5 H6 H7 H8)
    as (Hret & Hself & _).
  split; [exact Hret|]. subst out. fold st. rewrite Hself.
  vm_compute. reflexivity.
Defined.
